(** * AirNavX bridge extension: the cross-context request bridge

    A shallow embedding of the scripts of the extension:

    - [Content]    : the content script with the 30 s detection cache and
                     the seven-entry fetch attempt list (the relay);
    - [ContentOld] : the earlier content script kept next to it (no cache,
                     three attempts, last error only);
    - [Background] : the service worker (the coordinator);
    - [Injected]   : [injected.js], the page-side client (pending calls,
                     correlation ids, 30 s timeout);
    - [Popup]      : the script of the popup page, with the worker it
                     talks to;
    - [Relay], [Worker] : the event loops of the content script and of the
                     service worker.

    JavaScript values are a small tagged union; an [async] function is a
    computation in a state-and-exception monad over the state of its
    script context: the clock, the log of the HTTP requests issued, the
    messages posted and the script's own variables.  The network, the
    storage area of the browser and the date formatter form the
    environment the computations run in.  Console output is modelled in
    the client only, and each handler runs to its end before the next one
    starts.  Time passes on the clock only while a [fetch] is pending:
    reading a body and writing to the storage area take none, and two
    reads of [Date.now()] without an [await] between them give the same
    value, so that the clock of a state is the earliest time at which
    the script can be there.

    The file has three parts: the scripts, the vocabulary of the
    statements ([Scenario], [Trace] and the [...Spec] modules), and the
    properties. *)

From Stdlib Require Import ZArith Lia Bool Ascii.
From stdpp Require Import base option list strings pretty gmap.

Set Warnings "-register-all".
Open Scope string_scope.
Open Scope list_scope.
Open Scope Z_scope.

(** ** JavaScript values *)

Module Js.

(** Values that cross a message boundary or come out of [response.json()].
    Numbers are the integers (no fractional part, no NaN); objects keep
    their keys in insertion order. *)
Inductive val : Type :=
  | VUndef
  | VNull
  | VBool (b : bool)
  | VNum (n : Z)
  | VStr (s : string)
  | VArr (items : list val)
  | VObj (fields : list (string * val)).

(** An exception value: [error.name] and [error.message]. *)
Record error : Type := Err { err_name : string; err_message : string }.

(** [new Error(msg)] *)
Definition Error (msg : string) : error := Err "Error" msg.
Definition TypeError (msg : string) : error := Err "TypeError" msg.

(** ToBoolean: what [if (v)], [!v], [v || w] and [v && w] test. *)
Definition truthy (v : val) : bool :=
  match v with
  | VUndef | VNull => false
  | VBool b => b
  | VNum n => negb (Z.eqb n 0)
  | VStr s => negb (String.eqb s "")
  | VArr _ | VObj _ => true
  end.

(** [v || w] *)
Definition or_else (v w : val) : val := if truthy v then v else w.

(** Property read [o.k] on an ordinary object: the first binding of [k]. *)
Fixpoint lookup_field (k : string) (fields : list (string * val)) : val :=
  match fields with
  | [] => VUndef
  | (k', v) :: rest => if String.eqb k k' then v else lookup_field k rest
  end.

(** [const { k } = v]: reading a property of [undefined] or [null] throws,
    a primitive or an array has none of the names used here. *)
Definition get (v : val) (k : string) : error + val :=
  match v with
  | VUndef => inl (TypeError ("Cannot destructure property '" +:+ k +:+ "' of 'undefined'"))
  | VNull => inl (TypeError ("Cannot destructure property '" +:+ k +:+ "' of 'null'"))
  | VObj fields => inr (lookup_field k fields)
  | _ => inr VUndef
  end.

(** [v.k]: reading a property of [undefined] or [null] throws. *)
Definition read (v : val) (k : string) : error + val :=
  match v with
  | VUndef =>
      inl (TypeError ("Cannot read properties of undefined (reading '" +:+ k +:+ "')"))
  | VNull => inl (TypeError ("Cannot read properties of null (reading '" +:+ k +:+ "')"))
  | VObj fields => inr (lookup_field k fields)
  | _ => inr VUndef
  end.

(** [v?.k] *)
Definition opt_get (v : val) (k : string) : val :=
  match v with
  | VObj fields => lookup_field k fields
  | _ => VUndef
  end.

(** [Object.keys(v).length] for the objects and arrays passed around. *)
Definition keys_length (v : val) : Z :=
  match v with
  | VObj fields => Z.of_nat (length fields)
  | VArr items => Z.of_nat (length items)
  | VStr s => Z.of_nat (String.length s)
  | _ => 0
  end.

(** ToString, as a template literal, [encodeURIComponent] and
    [URLSearchParams] apply it.  An array joins its items with commas,
    printing [null] and [undefined] items as the empty string. *)
Fixpoint to_string (v : val) : string :=
  match v with
  | VUndef => "undefined"
  | VNull => "null"
  | VBool true => "true"
  | VBool false => "false"
  | VNum n => pretty n
  | VStr s => s
  | VArr items =>
      String.concat ","
        ((fix items_to_string (l : list val) : list string :=
            match l with
            | [] => []
            | VUndef :: l' => "" :: items_to_string l'
            | VNull :: l' => "" :: items_to_string l'
            | x :: l' => to_string x :: items_to_string l'
            end) items)
  | VObj _ => "[object Object]"
  end.

(** [v.toString()] *)
Definition toString_method (v : val) : error + string :=
  match v with
  | VUndef => inl (TypeError "Cannot read properties of undefined (reading 'toString')")
  | VNull => inl (TypeError "Cannot read properties of null (reading 'toString')")
  | _ => inr (to_string v)
  end.

(** What a page can hand to the client as an argument: a value that the
    structured clone of [window.postMessage] copies (every [val]), or one
    that it refuses (a function, a DOM node, an event, an object holding
    one), with the message of the [DataCloneError] raised on it. *)
Inductive arg : Type :=
  | Data (v : val)
  | Uncloneable (message : string).

Coercion Data : val >-> arg.

Definition DataCloneError (msg : string) : error := Err "DataCloneError" msg.

(** The fields of [{ k1: a1, ..., kn: an }] as the clone visits them: the
    first value that cannot be cloned ends it. *)
Fixpoint cloned_fields (fields : list (string * arg)) : string + list (string * val) :=
  match fields with
  | [] => inr []
  | (k, Data v) :: rest =>
      match cloned_fields rest with
      | inr fs => inr ((k, v) :: fs)
      | inl message => inl message
      end
  | (_, Uncloneable message) :: _ => inl message
  end.

(** [{ k1: a1, ..., kn: an }] *)
Definition object_of (fields : list (string * arg)) : arg :=
  match cloned_fields fields with
  | inr fs => Data (VObj fs)
  | inl message => Uncloneable message
  end.

(** [a === b] for the comparisons against string literals in the scripts. *)
Definition is_str (v : val) (s : string) : bool :=
  match v with
  | VStr s' => String.eqb s' s
  | _ => false
  end.

End Js.

Import Js.

(** ** URL encoding *)

Module Url.

Definition hex_digit (n : N) : Ascii.ascii :=
  Ascii.ascii_of_N (if (n <? 10)%N then 48 + n else 55 + n)%N.

(** [%XX] with upper-case hexadecimal digits. *)
Definition percent (c : Ascii.ascii) : string :=
  let n := Ascii.N_of_ascii c in
  String "%"%char (String (hex_digit (n / 16)%N) (String (hex_digit (n mod 16)%N) EmptyString)).

Definition is_alnum (c : Ascii.ascii) : bool :=
  let n := Ascii.N_of_ascii c in
  ((48 <=? n) && (n <=? 57) || (65 <=? n) && (n <=? 90) || (97 <=? n) && (n <=? 122))%N.

Definition one_of (set : string) (c : Ascii.ascii) : bool :=
  existsb (Ascii.eqb c) (String.list_ascii_of_string set).

(** [encodeURIComponent]: letters, digits and [-_.!~*'()] stay, every other
    byte of the UTF-8 text is percent-encoded. *)
Fixpoint encodeURIComponent (s : string) : string :=
  match s with
  | EmptyString => EmptyString
  | String c rest =>
      (if is_alnum c || one_of "-_.!~*'()" c then String c EmptyString else percent c)
      +:+ encodeURIComponent rest
  end.

(** The serializer of [URLSearchParams]: letters, digits and [*-._] stay,
    a space becomes [+], every other byte is percent-encoded. *)
Fixpoint form_encode (s : string) : string :=
  match s with
  | EmptyString => EmptyString
  | String c rest =>
      (if is_alnum c || one_of "*-._" c then String c EmptyString
       else if Ascii.eqb c " "%char then "+" else percent c)
      +:+ form_encode rest
  end.

(** [new URLSearchParams(obj).toString()]: [k=v] pairs in key order, joined
    by [&]; each value goes through ToString first. *)
Definition search_params (fields : list (string * val)) : string :=
  String.concat "&"
    (map (fun kv => form_encode (fst kv) +:+ "=" +:+ form_encode (to_string (snd kv))) fields).

(** [`http://${host}:${port}`] *)
Definition origin (host port : val) : string :=
  "http://" +:+ to_string host +:+ ":" +:+ to_string port.

End Url.


(** ** HTTP, the environment and the effect monad *)

Module Sys.

(** What [fetch(url, options)] sends.  [req_body = Some v] stands for the
    text [JSON.stringify(v)]. *)
Record request : Type := Request {
  req_method : string;
  req_url : string;
  req_headers : list (string * string);
  req_body : option val
}.

(** The payload of a response: its text and, when the text is JSON, the
    parsed value; or the error that reading the stream raises. *)
Inductive body : Type :=
  | BodyOk (text : string) (parsed : option val)
  | BodyFail (e : error).

Record response : Type := Response {
  status : Z;
  statusText : string;
  content_type : option string;
  resp_body : body
}.

(** [response.ok] *)
Definition ok (r : response) : bool := (200 <=? status r) && (status r <=? 299).

(** What the network does with a request: after [latency] milliseconds the
    fetch promise settles, with a response or with a network error. *)
Record reply : Type := Reply {
  latency : Z;
  result : error + response
}.

(** The world outside the scripts.  [net t req] answers a request issued at
    time [t]; [storage_set t items] is [chrome.storage.local.set] ([Some e]
    when the returned promise rejects); [toISOString] formats a date;
    [parse_query] is [URLSearchParams] applied to a string. *)
Record env : Type := Env {
  net : Z -> request -> reply;
  storage_set : Z -> list (string * val) -> option error;
  toISOString : Z -> string;
  parse_query : string -> list (string * val)
}.

(** One issued request: when, what, the abort delay of its
    [AbortController] if any, and when and how the fetch promise settled. *)
Record fetch_event : Type := Fetched {
  at_time : Z;
  sent : request;
  abort_after : option Z;
  settled_at : Z;
  got : error + response
}.

(** The state of one script context: the clock ([Date.now()]), the
    requests issued so far, the messages posted so far
    ([window.postMessage] or [sendResponse]) and the script's own
    variables. *)
Record state (C : Type) : Type := State {
  clock : Z;
  trace : list fetch_event;
  outbox : list val;
  local : C
}.
Arguments State {C}.
Arguments clock {C}.
Arguments trace {C}.
Arguments outbox {C}.
Arguments local {C}.

Inductive outcome (A : Type) : Type :=
  | Ret (a : A)
  | Throw (e : error).
Arguments Ret {A}.
Arguments Throw {A}.

(** An [async] function body: it runs on a state and either returns or
    throws, leaving a new state. *)
Definition M (C A : Type) : Type := state C -> outcome A * state C.

Definition ret {C A} (a : A) : M C A := fun s => (Ret a, s).

Definition throw {C A} (e : error) : M C A := fun s => (Throw e, s).

Definition bind {C A B} (m : M C A) (k : A -> M C B) : M C B :=
  fun s =>
    match m s with
    | (Ret a, s') => k a s'
    | (Throw e, s') => (Throw e, s')
    end.

(** [try { m } catch (error) { h error }] *)
Definition try_catch {C A} (m : M C A) (h : error -> M C A) : M C A :=
  fun s =>
    match m s with
    | (Ret a, s') => (Ret a, s')
    | (Throw e, s') => h e s'
    end.

(** Lift a fallible pure step ([inl] throws). *)
Definition lift {C A} (r : error + A) : M C A :=
  match r with
  | inl e => throw e
  | inr a => ret a
  end.

(** [Date.now()] *)
Definition now {C} : M C Z := fun s => (Ret (clock s), s).

Definition get_local {C} : M C C := fun s => (Ret (local s), s).

Definition set_local {C} (c : C) : M C unit :=
  fun s => (Ret tt, State (clock s) (trace s) (outbox s) c).

(** [window.postMessage(msg, '*')], and [sendResponse(msg)] in the worker. *)
Definition post {C} (msg : val) : M C unit :=
  fun s => (Ret tt, State (clock s) (trace s) (outbox s ++ [msg]) (local s)).

(** The error an aborted fetch rejects with; only its name is ever read. *)
Definition AbortError : error := Err "AbortError" "The user aborted a request.".

(** [await fetch(url, { ..., signal })] with
    [setTimeout(() => controller.abort(), delay)] started just before, or
    without a signal ([delay = None]).  The request is logged, the clock
    moves to the moment the promise settles: the reply, or the abort when
    the reply has not come within the delay. *)
Definition fetch {C} (E : env) (req : request) (delay : option Z) : M C response :=
  fun s =>
    let t := clock s in
    let r := net E t req in
    let lat := Z.max 0 (latency r) in
    let aborted := match delay with Some d => d <=? lat | None => false end in
    let settled := if aborted then inl AbortError else result r in
    let t' := if aborted then t + default 0 delay else t + lat in
    let s' := State t' (trace s ++ [Fetched t req delay t' settled]) (outbox s) (local s) in
    match settled with
    | inl e => (Throw e, s')
    | inr resp => (Ret resp, s')
    end.

(** [await response.json()] *)
Definition json (r : response) : error + val :=
  match resp_body r with
  | BodyOk _ (Some v) => inr v
  | BodyOk _ None => inl (Err "SyntaxError" "Unexpected token in JSON")
  | BodyFail e => inl e
  end.

(** [await response.text()] *)
Definition text (r : response) : error + string :=
  match resp_body r with
  | BodyOk t _ => inr t
  | BodyFail e => inl e
  end.

(** [for (const x of l) { ... }] whose body may [return] from the enclosing
    function: [Some b] is such a return, [None] falls through to the next
    iteration ([continue] included). *)
Fixpoint for_of {C A B} (l : list A) (body : A -> M C (option B)) : M C (option B) :=
  match l with
  | [] => ret None
  | x :: rest =>
      bind (body x) (fun r =>
        match r with
        | Some b => ret (Some b)
        | None => for_of rest body
        end)
  end.

(** [hay.includes(needle)] *)
Fixpoint includes (needle hay : string) : bool :=
  String.prefix needle hay ||
  match hay with
  | EmptyString => false
  | String _ rest => includes needle rest
  end.

End Sys.

Import Sys.

Notation "x <- m ;; k" := (bind m (fun x => k))
  (at level 100, m at next level, right associativity).
Notation "m ;;; k" := (bind m (fun _ => k))
  (at level 100, right associativity).

(** The tag every bridge message of the page carries. *)
Definition MESSAGE_PREFIX : string := "AIRNAVX_BRIDGE_".

(** A [message] event as a listener sees it: whether [event.source] is the
    window itself, and [event.data]. *)
Record message_event : Type := MessageEvent {
  from_window : bool;
  data : val
}.

(** One entry of an [attempts] array; [a_body] is [undefined] when the
    entry has no [body] key. *)
Record attempt : Type := Attempt {
  a_name : val;
  a_url : string;
  a_method : string;
  a_body : val
}.

(** ** The content script (relay) *)

Module Content.

Definition CACHE_DURATION : Z := 30000.

(** [airnavxCache] ([null] or the last detection result) and
    [airnavxCacheTimestamp]. *)
Record vars : Type := Vars {
  airnavxCache : val;
  airnavxCacheTimestamp : Z
}.

Definition init : vars := Vars VNull 0.

Definition candidatePorts : list Z := [59720; 51798; 54320; 52000; 51800; 50000; 53000].
Definition hostsToTest : list string := ["127.0.0.1"; "localhost"].

Definition accept_json : list (string * string) := [("Accept", "application/json")].

Definition testUrl (host : string) (port : Z) : string :=
  Url.origin (VStr host) (VNum port) +:+ "/airnavx/api/viewer/search?q=test&page=1".

Definition probe (host : string) (port : Z) : request :=
  Request "GET" (testUrl host port) accept_json None.

Definition found (host : string) (port : Z) : val :=
  VObj [("success", VBool true); ("host", VStr host); ("port", VNum port);
        ("message", VStr ("AirNavX detected at " +:+ host +:+ ":" +:+ pretty port))].

Definition not_found : val :=
  VObj [("success", VBool false); ("message", VStr "AirNavX not detected on any port")].

Definition attempts (host port dataModuleId : val) : list attempt :=
  let base := Url.origin host port in
  let id := Url.encodeURIComponent (to_string dataModuleId) in
  [ Attempt (VStr "GET with dataModuleId param")
      (base +:+ "/airnavx/api/dataModule/content?dataModuleId=" +:+ id) "GET" VUndef;
    Attempt (VStr "GET with all params")
      (base +:+ "/airnavx/api/dataModule/content?dataModuleId=" +:+ id
            +:+ "&forHatch=false&forPrint=false") "GET" VUndef;
    Attempt (VStr "GET with dmCode param")
      (base +:+ "/airnavx/api/dataModule/content?dmCode=" +:+ id) "GET" VUndef;
    Attempt (VStr "GET with id param")
      (base +:+ "/airnavx/api/dataModule/content?id=" +:+ id) "GET" VUndef;
    Attempt (VStr "GET alternative endpoint")
      (base +:+ "/airnavx/api/content/" +:+ id) "GET" VUndef;
    Attempt (VStr "GET viewer endpoint")
      (base +:+ "/airnavx/api/viewer/content?dataModuleId=" +:+ id) "GET" VUndef;
    Attempt (VStr "POST with JSON body")
      (base +:+ "/airnavx/api/dataModule/content") "POST"
      (VObj [("dataModuleId", dataModuleId); ("forHatch", VBool false);
             ("forPrint", VBool false)]) ].

(** The [fetchOptions] built for one attempt. *)
Definition attempt_request (a : attempt) : request :=
  if String.eqb (a_method a) "POST" && truthy (a_body a)
  then Request (a_method a) (a_url a)
         (accept_json ++ [("Content-Type", "application/json")]) (Some (a_body a))
  else Request (a_method a) (a_url a) accept_json None.

(** One line of the [errors] array. *)
Definition error_line (a : attempt) (errorMsg : string) : string :=
  to_string (a_name a) +:+ ": " +:+ errorMsg.

Section WithEnv.
Variable E : env.

(** The body of the [try] for one (host, port) pair: [Some result] is the
    [return] of the function, [None] goes on with the next port. *)
Definition probe_try (host : string) (port : Z) : M vars (option val) :=
  response <- fetch E (probe host port) (Some 2000) ;;
  if ok response then
    (t <- now ;;
     set_local (Vars (found host port) t) ;;;
     ret (Some (found host port)))
  else ret None.

(** The two nested loops over hosts and ports, and what follows them. *)
Definition sweep : M vars val :=
  r <- for_of hostsToTest (fun host =>
         for_of candidatePorts (fun port =>
           try_catch (probe_try host port) (fun _ => ret None))) ;;
  match r with
  | Some result => ret result
  | None =>
      t <- now ;;
      set_local (Vars not_found t) ;;;
      ret not_found
  end.

(** The cache test at the head of [detectAirNavX]. *)
Definition cache_hit (c : vars) (t : Z) : bool :=
  truthy (airnavxCache c) && (t - airnavxCacheTimestamp c <? CACHE_DURATION).

(** [async function detectAirNavX(detailed = false)] *)
Definition detectAirNavX (detailed : val) : M vars val :=
  t0 <- now ;;
  c <- get_local ;;
  if cache_hit c t0 then ret (airnavxCache c) else sweep.

(** [async function searchTasks(query, page = 1)].  The line logged after
    the body is read evaluates [data.results], which throws when the body
    is the JSON text [null]. *)
Definition searchTasks (query page : val) : M vars val :=
  let page := match page with VUndef => VNum 1 | _ => page end in
  detection <- detectAirNavX (VBool false) ;;
  if negb (truthy (opt_get detection "success"))
  then throw (Error "AirNavX not available")
  else
    let searchUrl :=
      Url.origin (opt_get detection "host") (opt_get detection "port")
      +:+ "/airnavx/api/viewer/search" in
    pageString <- lift (toString_method page) ;;
    let params :=
      Url.search_params
        [("q", query); ("page", VStr pageString);
         ("aggregationList",
          VArr [VStr "ata2"; VStr "actype"; VStr "customization"; VStr "doctypebc"]);
         ("queryWithAggregation", VStr "false")] in
    response <- fetch E (Request "GET" (searchUrl +:+ "?" +:+ params) accept_json None) None ;;
    if negb (ok response)
    then throw (Error ("Search failed with status " +:+ pretty (status response)))
    else
      data <- lift (json response) ;;
      results <- lift (read data "results") ;;
      ret (VObj [("success", VBool true); ("data", data)]).

(** How a successful response is read: JSON when the content type says
    so, text otherwise. *)
Definition read_body (response : response) : error + val :=
  match content_type response with
  | Some contentType =>
      if negb (String.eqb contentType "") && includes "application/json" contentType
      then json response
      else match text response with
           | inl e => inl e
           | inr t => inr (VStr t)
           end
  | None =>
      match text response with
      | inl e => inl e
      | inr t => inr (VStr t)
      end
  end.

Definition http_error (response : response) : string :=
  "HTTP " +:+ pretty (status response) +:+ ": " +:+ statusText response.

(** The body of the [try] of one attempt: [inl] is the value the function
    returns, [inr] the line pushed on [errors] for a non-OK response. *)
Definition attempt_try (a : attempt) : M vars (val + string) :=
  response <- fetch E (attempt_request a) (Some 10000) ;;
  if ok response then
    data <- lift (read_body response) ;;
    ret (inl (VObj [("success", VBool true); ("data", data); ("method", a_name a)]))
  else
    ret (inr (error_line a (http_error response))).

(** The [catch] of one attempt. *)
Definition catch_message (e : error) : string :=
  if String.eqb (err_name e) "AbortError" then "Request timeout (10s)" else err_message e.

Definition attempt_catch (a : attempt) (e : error) : M vars (val + string) :=
  ret (inr (error_line a (catch_message e))).

(** [for (let i = 0; i < attempts.length; i++) { ... }] with the [errors]
    array grown along the way: [inl] when an attempt returned, [inr] with
    the final [errors] when the loop ran out. *)
Fixpoint walk (l : list attempt) (errors : list string) : M vars (val + list string) :=
  match l with
  | [] => ret (inr errors)
  | a :: rest =>
      r <- try_catch (attempt_try a) (attempt_catch a) ;;
      match r with
      | inl result => ret (inl result)
      | inr line => walk rest (errors ++ [line])
      end
  end.

Definition newline : string := String (ascii_of_nat 10) "".

Definition detailedError (n : nat) (errors : list string) : error :=
  Error ("Failed to fetch content after " +:+ pretty (Z.of_nat n) +:+ " attempts:"
         +:+ newline +:+ String.concat newline errors).

(** [async function fetchContent(dataModuleId)] *)
Definition fetchContent (dataModuleId : val) : M vars val :=
  if negb (truthy dataModuleId)
  then throw (Error "dataModuleId is required")
  else
    detection <- detectAirNavX (VBool false) ;;
    if negb (truthy (opt_get detection "success"))
    then throw (Error "AirNavX not available")
    else
      let l := attempts (opt_get detection "host") (opt_get detection "port") dataModuleId in
      r <- walk l [] ;;
      match r with
      | inl result => ret result
      | inr errors => throw (detailedError (length l) errors)
      end.

(** The [switch (method)] of the listener. *)
Definition dispatch (method params : val) : M vars val :=
  if is_str method "detect" then
    detectAirNavX (or_else (opt_get params "detailed") (VBool false))
  else if is_str method "search" then
    searchTasks (opt_get params "query") (opt_get params "page")
  else if is_str method "fetchContent" then
    fetchContent (opt_get params "dataModuleId")
  else throw (Error ("Unknown method: " +:+ to_string method)).

Definition response_ok (requestId result : val) : val :=
  VObj [("type", VStr (MESSAGE_PREFIX +:+ "RESPONSE")); ("requestId", requestId);
        ("result", result)].

Definition response_error (requestId : val) (errorMessage : string)
    (method params : val) (timestamp : string) : val :=
  VObj [("type", VStr (MESSAGE_PREFIX +:+ "RESPONSE")); ("requestId", requestId);
        ("error", VStr errorMessage);
        ("errorDetails",
         VObj [("method", method); ("params", params); ("timestamp", VStr timestamp)])].

(** The [message] listener installed by [setupMessageBridge]. *)
Definition on_message (event : message_event) : M vars unit :=
  if negb (from_window event) then ret tt
  else
    type <- lift (get (data event) "type") ;;
    let method := opt_get (data event) "method" in
    let params := opt_get (data event) "params" in
    let requestId := opt_get (data event) "requestId" in
    if negb (is_str type (MESSAGE_PREFIX +:+ "REQUEST")) then ret tt
    else if negb (truthy method) then ret tt
    else
      try_catch
        (result <- dispatch method params ;;
         post (response_ok requestId result))
        (fun e =>
           t <- now ;;
           post (response_error requestId (err_message e) method params (toISOString E t))).

End WithEnv.

End Content.

(** ** The earlier content script *)

Module ContentOld.

Definition candidatePorts : list Z := [59720; 51798; 54320; 52000; 51800; 50000; 53000].
Definition hostsToTest : list string := ["127.0.0.1"; "localhost"].

Definition attempts (host port dataModuleId : val) : list attempt :=
  let base := Url.origin host port in
  let id := Url.encodeURIComponent (to_string dataModuleId) in
  [ Attempt VUndef (base +:+ "/airnavx/api/dataModule/content") "POST"
      (VObj [("dataModuleId", dataModuleId); ("forHatch", VBool false);
             ("forPrint", VBool false)]);
    Attempt VUndef
      (base +:+ "/airnavx/api/dataModule/content?dataModuleId=" +:+ id
            +:+ "&forHatch=false&forPrint=false") "POST" (VObj []);
    Attempt VUndef
      (base +:+ "/airnavx/api/dataModule/content?dataModuleId=" +:+ id) "GET" VNull ].

(** The [fetchOptions] built for one attempt: the body is attached to a
    POST only when the object has at least one key. *)
Definition attempt_request (a : attempt) : request :=
  if String.eqb (a_method a) "POST" && truthy (a_body a) && (0 <? keys_length (a_body a))
  then Request (a_method a) (a_url a)
         (Content.accept_json ++ [("Content-Type", "application/json")]) (Some (a_body a))
  else Request (a_method a) (a_url a) Content.accept_json None.

Section WithEnv.
Variable E : env.

(** [async function detectAirNavX(detailed = false)]: no cache, no abort
    timer. *)
Definition detectAirNavX (detailed : val) : M unit val :=
  r <- for_of hostsToTest (fun host =>
         for_of candidatePorts (fun port =>
           try_catch
             (response <- fetch E (Content.probe host port) None ;;
              if ok response then ret (Some (Content.found host port)) else ret None)
             (fun _ => ret None))) ;;
  match r with
  | Some result => ret result
  | None => ret Content.not_found
  end.

(** [async function searchTasks(query, page = 1)], with the same read of
    [data.results] in the line logged at its end. *)
Definition searchTasks (query page : val) : M unit val :=
  let page := match page with VUndef => VNum 1 | _ => page end in
  detection <- detectAirNavX (VBool false) ;;
  if negb (truthy (opt_get detection "success"))
  then throw (Error "AirNavX not available")
  else
    let searchUrl :=
      Url.origin (opt_get detection "host") (opt_get detection "port")
      +:+ "/airnavx/api/viewer/search" in
    pageString <- lift (toString_method page) ;;
    let params :=
      Url.search_params
        [("q", query); ("page", VStr pageString);
         ("aggregationList",
          VArr [VStr "ata2"; VStr "actype"; VStr "customization"; VStr "doctypebc"]);
         ("queryWithAggregation", VStr "false")] in
    response <- fetch E (Request "GET" (searchUrl +:+ "?" +:+ params)
                           Content.accept_json None) None ;;
    if negb (ok response)
    then throw (Error ("Search failed with status " +:+ pretty (status response)))
    else
      data <- lift (json response) ;;
      results <- lift (read data "results") ;;
      ret (VObj [("success", VBool true); ("data", data)]).

(** The body of the [try] of one attempt: [inl] is the value the function
    returns, [inr] the new [lastError] after a non-OK response. *)
Definition attempt_try (a : attempt) : M unit (val + error) :=
  response <- fetch E (attempt_request a) None ;;
  if ok response then
    data <- lift (json response) ;;
    ret (inl (VObj [("success", VBool true); ("data", data)]))
  else
    ret (inr (Error ("HTTP " +:+ pretty (status response) +:+ ": " +:+ statusText response))).

(** [for (const attempt of attempts) { ... }] with [lastError] threaded. *)
Fixpoint walk (l : list attempt) (lastError : option error) : M unit (val + option error) :=
  match l with
  | [] => ret (inr lastError)
  | a :: rest =>
      r <- try_catch (attempt_try a) (fun e => ret (inr e)) ;;
      match r with
      | inl result => ret (inl result)
      | inr e => walk rest (Some e)
      end
  end.

(** [async function fetchContent(dataModuleId)] *)
Definition fetchContent (dataModuleId : val) : M unit val :=
  if negb (truthy dataModuleId)
  then throw (Error "dataModuleId is required")
  else
    detection <- detectAirNavX (VBool false) ;;
    if negb (truthy (opt_get detection "success"))
    then throw (Error "AirNavX not available")
    else
      r <- walk (attempts (opt_get detection "host") (opt_get detection "port")
                   dataModuleId) None ;;
      match r with
      | inl result => ret result
      | inr lastError => throw (default (Error "Failed to fetch content") lastError)
      end.

Definition dispatch (method params : val) : M unit val :=
  if is_str method "detect" then
    detectAirNavX (or_else (opt_get params "detailed") (VBool false))
  else if is_str method "search" then
    searchTasks (opt_get params "query") (opt_get params "page")
  else if is_str method "fetchContent" then
    fetchContent (opt_get params "dataModuleId")
  else throw (Error ("Unknown method: " +:+ to_string method)).

(** The [message] listener installed by [setupMessageBridge]. *)
Definition on_message (event : message_event) : M unit unit :=
  if negb (from_window event) then ret tt
  else
    type <- lift (get (data event) "type") ;;
    let method := opt_get (data event) "method" in
    let params := opt_get (data event) "params" in
    let requestId := opt_get (data event) "requestId" in
    if negb (is_str type (MESSAGE_PREFIX +:+ "REQUEST")) then ret tt
    else if negb (truthy method) then ret tt
    else
      try_catch
        (result <- dispatch method params ;;
         post (Content.response_ok requestId result))
        (fun e =>
           post (VObj [("type", VStr (MESSAGE_PREFIX +:+ "RESPONSE"));
                       ("requestId", requestId); ("error", VStr (err_message e))])).

End WithEnv.

End ContentOld.

(** ** The background service worker (coordinator) *)

Module Background.

Definition AIRNAVX_CANDIDATE_PORTS : list Z := [59720; 51798; 54320; 52000; 50000; 53000].
Definition AIRNAVX_HOSTS : list string := ["127.0.0.1"; "localhost"].
Definition DETECTION_TIMEOUT : Z := 2000.
Definition CACHE_DURATION : Z := 5 * 60 * 1000.

(** The object [{ host, port }]. *)
Record endpoint : Type := Endpoint {
  host : string;
  port : Z
}.

(** [detectedAirNavX] and [lastDetectionTime] ([None] is [null]), the
    content of [chrome.storage.local] and the badge of the action. *)
Record vars : Type := Vars {
  detectedAirNavX : option endpoint;
  lastDetectionTime : option Z;
  stored : gmap string val;
  badge_text : option string;
  badge_color : option string
}.

Definition init : vars := Vars None None ∅ None None.

Definition set_detection (d : option endpoint) (t : Z) (c : vars) : vars :=
  Vars d (Some t) (stored c) (badge_text c) (badge_color c).

Definition set_badge (text color : string) (c : vars) : vars :=
  Vars (detectedAirNavX c) (lastDetectionTime c) (stored c) (Some text) (Some color).

Definition probe (h : string) (p : Z) : request :=
  Request "GET" (Content.testUrl h p) [("Accept", "application/json")] None.

(** The options object of [fetchFromAirNavX]; [VUndef] is a missing key
    and takes the default of the destructuring. *)
Record options : Type := Options {
  opt_method : val;
  opt_params : val;
  opt_body : val;
  opt_timeout : option Z
}.

Section WithEnv.
Variable E : env.

(** [await chrome.storage.local.set(items)] *)
Definition storage_local_set (items : list (string * val)) : M vars unit :=
  t <- now ;;
  match storage_set E t items with
  | Some e => throw e
  | None =>
      c <- get_local ;;
      set_local (Vars (detectedAirNavX c) (lastDetectionTime c)
                   (list_to_map items ∪ stored c) (badge_text c) (badge_color c))
  end.

(** [chrome.action.setBadgeText] followed by [setBadgeBackgroundColor]. *)
Definition update_badge (text color : string) : M vars unit :=
  c <- get_local ;;
  set_local (set_badge text color c).

(** The cache test at the head of [detectAirNavX]. *)
Definition cache_hit (forceRefresh : val) (c : vars) (t : Z) : bool :=
  negb (truthy forceRefresh)
  && bool_decide (is_Some (detectedAirNavX c))
  && match lastDetectionTime c with
     | Some last => negb (last =? 0) && (t - last <? CACHE_DURATION)
     | None => false
     end.

(** The body of the [try] for one (host, port) pair: [Some found] is the
    [return] of the function, [None] goes on with the next port. *)
Definition probe_try (h : string) (p : Z) : M vars (option endpoint) :=
  response <- fetch E (probe h p) (Some DETECTION_TIMEOUT) ;;
  if ok response then
    (t <- now ;;
     c <- get_local ;;
     set_local (set_detection (Some (Endpoint h p)) t c) ;;;
     storage_local_set
       [("airnavx_host", VStr h); ("airnavx_port", VNum p); ("last_detection", VNum t)] ;;;
     update_badge "✓" "#10B981" ;;;
     ret (Some (Endpoint h p)))
  else ret None.

(** The two nested loops over hosts and ports, and what follows them. *)
Definition sweep : M vars (option endpoint) :=
  r <- for_of AIRNAVX_HOSTS (fun h =>
         for_of AIRNAVX_CANDIDATE_PORTS (fun p =>
           try_catch (probe_try h p) (fun _ => ret None))) ;;
  match r with
  | Some found => ret (Some found)
  | None =>
      t <- now ;;
      c <- get_local ;;
      set_local (set_detection None t c) ;;;
      update_badge "✗" "#DC2626" ;;;
      ret None
  end.

(** [async function detectAirNavX(forceRefresh = false)] *)
Definition detectAirNavX (forceRefresh : val) : M vars (option endpoint) :=
  t0 <- now ;;
  c <- get_local ;;
  if cache_hit forceRefresh c t0 then ret (detectedAirNavX c) else sweep.

(** [new URLSearchParams(params).toString()] for what [params] may hold:
    an object, a query string, or an array of pairs (two-item arrays or
    two-character strings). *)
Definition query_string (params : val) : error + string :=
  match params with
  | VObj fields => inr (Url.search_params fields)
  | VStr s => inr (Url.search_params (parse_query E s))
  | VArr items =>
      (fix pairs (l : list val) (acc : list (string * val)) : error + string :=
         match l with
         | [] => inr (Url.search_params acc)
         | VArr [k; v] :: l' => pairs l' (acc ++ [(to_string k, VStr (to_string v))])
         | VStr (String k (String v EmptyString)) :: l' =>
             pairs l' (acc ++ [(String k EmptyString, VStr (String v EmptyString))])
         | _ => inl (TypeError "Failed to construct 'URLSearchParams'")
         end) items []
  | _ => inr ""
  end.

(** The URL built by [fetchFromAirNavX]. *)
Definition build_url (ep : endpoint) (endpointPath params : val) : error + string :=
  let url := Url.origin (VStr (host ep)) (VNum (port ep)) +:+ to_string endpointPath in
  match params with
  | VNull => inl (TypeError "Cannot convert undefined or null to object")
  | _ =>
      if 0 <? keys_length params
      then match query_string params with
           | inl e => inl e
           | inr queryString => inr (url +:+ "?" +:+ queryString)
           end
      else inr url
  end.

(** The [body] entry of [fetchOptions]. *)
Definition attached_body (method body : val) : option val :=
  if truthy body then
    if is_str method "POST" || is_str method "PUT" then Some body else None
  else None.

(** [async function fetchFromAirNavX(endpoint, options = {})].  The method
    is logged as the options give it. *)
Definition fetchFromAirNavX (endpointPath : val) (o : options) : M vars val :=
  airnavx <- detectAirNavX (VBool false) ;;
  match airnavx with
  | None => throw (Error "AirNavX not detected. Please ensure AirNavX is running.")
  | Some ep =>
      let method := match opt_method o with VUndef => VStr "GET" | m => m end in
      let params := match opt_params o with VUndef => VObj [] | p => p end in
      let body := match opt_body o with VUndef => VNull | b => b end in
      let timeout := default 30000 (opt_timeout o) in
      url <- lift (build_url ep endpointPath params) ;;
      let req := Request (to_string method) url [("Accept", "application/json")]
                   (attached_body method body) in
      try_catch
        (response <- fetch E req (Some timeout) ;;
         if negb (ok response)
         then throw (Error ("HTTP " +:+ pretty (status response) +:+ ": "
                            +:+ statusText response))
         else
           data <- lift (json response) ;;
           ret (VObj [("success", VBool true); ("data", data);
                      ("host", VStr (host ep)); ("port", VNum (port ep))]))
        (fun e =>
           if String.eqb (err_name e) "AbortError"
           then throw (Error "Request timeout - AirNavX not responding")
           else throw e)
  end.

(** What the [onInstalled] and [onStartup] listeners and the five-minute
    interval run. *)
Definition refresh : M vars (option endpoint) := detectAirNavX (VBool true).

Definition failure (msg : string) : val :=
  VObj [("success", VBool false); ("error", VStr msg)].

(** [async function handleDetect(request, sendResponse)] *)
Definition handleDetect (request : val) : M vars unit :=
  try_catch
    (r <- detectAirNavX (or_else (opt_get request "forceRefresh") (VBool false)) ;;
     match r with
     | Some ep =>
         post (VObj [("success", VBool true); ("host", VStr (host ep));
                     ("port", VNum (port ep));
                     ("message", VStr ("AirNavX detected at " +:+ host ep +:+ ":"
                                       +:+ pretty (port ep)))])
     | None =>
         post (VObj [("success", VBool false);
                     ("error", VStr "AirNavX not found. Please ensure it is running.");
                     ("searched_ports", VArr (map VNum AIRNAVX_CANDIDATE_PORTS))])
     end)
    (fun e => post (failure (err_message e))).

(** [async function handleSearch(request, sendResponse)] *)
Definition handleSearch (request : val) : M vars unit :=
  try_catch
    (let query := opt_get request "query" in
     let page := match opt_get request "page" with VUndef => VNum 1 | p => p end in
     if negb (truthy query) then post (failure "Query parameter required")
     else
       result <- fetchFromAirNavX (VStr "/airnavx/api/viewer/search")
                   (Options (VStr "GET")
                      (VObj [("q", query); ("page", page);
                             ("aggregationList",
                              VArr [VStr "ata2"; VStr "actype"; VStr "customization";
                                    VStr "doctypebc"]);
                             ("queryWithAggregation", VStr "false")])
                      VUndef None) ;;
       post result)
    (fun e => post (failure (err_message e))).

(** [async function handleFetchContent(request, sendResponse)] *)
Definition handleFetchContent (request : val) : M vars unit :=
  try_catch
    (let dataModuleId := opt_get request "dataModuleId" in
     if negb (truthy dataModuleId) then post (failure "dataModuleId required")
     else
       result <- fetchFromAirNavX (VStr "/airnavx/api/dataModule/content")
                   (Options (VStr "POST")
                      (VObj [("dataModuleId", dataModuleId); ("forHatch", VStr "false");
                             ("forPrint", VStr "false")])
                      (VObj []) (Some 30000)) ;;
       post result)
    (fun e => post (failure (err_message e))).

(** [async function handleCustomFetch(request, sendResponse)] *)
Definition handleCustomFetch (request : val) : M vars unit :=
  try_catch
    (let endpointPath := opt_get request "endpoint" in
     if negb (truthy endpointPath) then post (failure "endpoint required")
     else
       result <- fetchFromAirNavX endpointPath
                   (Options (or_else (opt_get request "method") (VStr "GET"))
                      (or_else (opt_get request "params") (VObj []))
                      (or_else (opt_get request "body") VNull) None) ;;
       post result)
    (fun e => post (failure (err_message e))).

Definition of_option {A} (f : A -> val) (o : option A) : val :=
  match o with
  | Some a => f a
  | None => VNull
  end.

(** [async function handleGetStatus(request, sendResponse)] *)
Definition handleGetStatus (request : val) : M vars unit :=
  c <- get_local ;;
  post (VObj [("success", VBool true);
              ("status",
               VObj [("detected", VBool (bool_decide (is_Some (detectedAirNavX c))));
                     ("host", match detectedAirNavX c with
                              | Some ep => or_else (VStr (host ep)) VNull
                              | None => VNull
                              end);
                     ("port", match detectedAirNavX c with
                              | Some ep => or_else (VNum (port ep)) VNull
                              | None => VNull
                              end);
                     ("lastCheck", of_option VNum (lastDetectionTime c));
                     ("cacheExpiry",
                      match lastDetectionTime c with
                      | Some last =>
                          if negb (last =? 0) then VNum (last + CACHE_DURATION) else VNull
                      | None => VNull
                      end)])]).

(** The [chrome.runtime.onMessage] listener; the handlers' calls of
    [sendResponse] land in the outbox.  The result is the value the
    listener returns (whether the channel is kept open). *)
Definition on_message (request : val) : M vars bool :=
  action <- lift (get request "action") ;;
  if is_str action "detect" then (handleDetect request ;;; ret true)
  else if is_str action "search" then (handleSearch request ;;; ret true)
  else if is_str action "fetchContent" then (handleFetchContent request ;;; ret true)
  else if is_str action "customFetch" then (handleCustomFetch request ;;; ret true)
  else if is_str action "getStatus" then (handleGetStatus request ;;; ret true)
  else (post (failure "Unknown action") ;;; ret false).

End WithEnv.

End Background.

(** ** The injected page script (caller-side client) *)

Module Injected.

(** How a promise returned by [sendMessage] was settled. *)
Inductive settlement : Type :=
  | Resolved (result : val)
  | Rejected (e : error).

Inductive console_entry : Type :=
  | Log (text : string)
  | Warn (text : string)
  | ErrorLog (text : string).

(** [requestCounter]; [pendingRequests], whose entry for a request id holds
    the [resolve]/[reject] pair of one promise, named here by the id of the
    call that created it; the promises settled so far (a promise absent
    from [promises] is still pending); the [setTimeout] calls made, as
    (due time, request id); and the console. *)
Record vars : Type := Vars {
  requestCounter : Z;
  pendingRequests : gmap Z Z;
  promises : gmap Z settlement;
  timers : list (Z * Z);
  console : list console_entry
}.

Definition init : vars := Vars 0 ∅ ∅ [] [].

(** [resolve(v)] or [reject(e)] on promise [p]: only the first call on a
    promise has an effect. *)
Definition settle (p : Z) (o : settlement) (c : vars) : vars :=
  match promises c !! p with
  | Some _ => c
  | None =>
      Vars (requestCounter c) (pendingRequests c) (<[p := o]> (promises c))
        (timers c) (console c)
  end.

Definition print (e : console_entry) (c : vars) : vars :=
  Vars (requestCounter c) (pendingRequests c) (promises c) (timers c) (console c ++ [e]).

(** [pendingRequests.get(requestId)]: the keys of the map are numbers. *)
Definition pending_get (requestId : val) (c : vars) : option Z :=
  match requestId with
  | VNum n => pendingRequests c !! n
  | _ => None
  end.

(** [pendingRequests.delete(requestId)] *)
Definition pending_delete (requestId : val) (c : vars) : vars :=
  match requestId with
  | VNum n =>
      Vars (requestCounter c) (delete n (pendingRequests c)) (promises c)
        (timers c) (console c)
  | _ => c
  end.

Definition update (f : vars -> vars) : M vars unit :=
  c <- get_local ;;
  set_local (f c).

(** The [message] listener. *)
Definition on_message (event : message_event) : M vars unit :=
  if negb (from_window event) then ret tt
  else
    type <- lift (get (data event) "type") ;;
    let requestId := opt_get (data event) "requestId" in
    let result := opt_get (data event) "result" in
    let error := opt_get (data event) "error" in
    if negb (is_str type (MESSAGE_PREFIX +:+ "RESPONSE")) then ret tt
    else
      update (print (Log "📨 Received RESPONSE:")) ;;;
      c <- get_local ;;
      match pending_get requestId c with
      | Some pending =>
          (if truthy error then
             update (print (ErrorLog "❌ Request failed:")) ;;;
             update (settle pending (Rejected (Error (to_string error))))
           else
             update (print (Log "✅ Request succeeded")) ;;;
             update (settle pending (Resolved result))) ;;;
          update (pending_delete requestId)
      | None =>
          update (print (Warn "⚠️ Received response for unknown request:"))
      end.

Definition request_message (method params : val) (requestId : Z) : val :=
  VObj [("type", VStr (MESSAGE_PREFIX +:+ "REQUEST")); ("method", method);
        ("params", params); ("requestId", VNum requestId)].

(** [window.postMessage({ type, method, params, requestId }, '*')]: the
    message is cloned before it is queued, and the call throws when
    [params] cannot be. *)
Definition postMessage (method : val) (params : arg) (requestId : Z) : M vars unit :=
  match params with
  | Data params => post (request_message method params requestId)
  | Uncloneable message => throw (DataCloneError message)
  end.

(** [function sendMessage(method, params)]: the executor of the promise
    runs at once, and an exception that escapes it rejects the promise;
    the result names the promise returned. *)
Definition sendMessage (method : val) (params : arg) : M vars Z :=
  c <- get_local ;;
  let requestId := requestCounter c + 1 in
  try_catch
    (set_local (Vars requestId (pendingRequests c) (promises c) (timers c) (console c)) ;;;
     update (print (Log "📤 Sending REQUEST to content script:")) ;;;
     update (fun c => Vars (requestCounter c) (<[requestId := requestId]> (pendingRequests c))
                        (promises c) (timers c) (console c)) ;;;
     postMessage method params requestId ;;;
     t <- now ;;
     update (fun c => Vars (requestCounter c) (pendingRequests c) (promises c)
                        (timers c ++ [(t + 30000, requestId)]) (console c)))
    (fun e => update (settle requestId (Rejected e))) ;;;
  ret requestId.

(** The callback given to [setTimeout] by the call with id [requestId]. *)
Definition on_timeout (requestId : Z) : M vars unit :=
  c <- get_local ;;
  if bool_decide (is_Some (pendingRequests c !! requestId)) then
    update (print (ErrorLog "⏱️ Request timeout:")) ;;;
    update (pending_delete (VNum requestId)) ;;;
    update (settle requestId (Rejected (Error "Request timeout")))
  else ret tt.

(** [window.AirNavXBridge] *)
Definition detect (detailed : arg) : M vars Z :=
  let detailed := match detailed with Data VUndef => Data (VBool false) | _ => detailed end in
  update (print (Log "🔍 API: detect() called")) ;;;
  sendMessage (VStr "detect") (object_of [("detailed", detailed)]).

Definition search (query page : arg) : M vars Z :=
  let page := match page with Data VUndef => Data (VNum 1) | _ => page end in
  update (print (Log "🔍 API: search() called with query:")) ;;;
  sendMessage (VStr "search") (object_of [("query", query); ("page", page)]).

Definition fetchContent (dataModuleId : arg) : M vars Z :=
  update (print (Log "📄 API: fetchContent() called for:")) ;;;
  sendMessage (VStr "fetchContent") (object_of [("dataModuleId", dataModuleId)]).

(** What the page's event loop runs: a call of the client, a [message]
    event, or the timer callback of one call. *)
Inductive event : Type :=
  | Call (method : val) (params : arg)
  | Message (ev : message_event)
  | Timer (requestId : Z).

(** Run one task; an exception escaping a listener ends that task only. *)
Definition handle (e : event) (s : state vars) : state vars :=
  match e with
  | Call method params => snd (sendMessage method params s)
  | Message ev => snd (on_message ev s)
  | Timer requestId => snd (on_timeout requestId s)
  end.

(** A task runs at its own time; the page runs its tasks one by one. *)
Definition handle_at (te : Z * event) (s : state vars) : state vars :=
  handle (snd te) (State (fst te) (trace s) (outbox s) (local s)).

Definition run (tasks : list (Z * event)) (s : state vars) : state vars :=
  fold_left (fun s te => handle_at te s) tasks s.

(** A [RESPONSE] message for request [id] coming from the window, and the
    events that can settle the call [id]: such a message or its timer. *)
Definition is_reply_for (id : Z) (ev : message_event) : bool :=
  from_window ev
  && match get (data ev) "type" with
     | inr type => is_str type (MESSAGE_PREFIX +:+ "RESPONSE")
     | inl _ => false
     end
  && match opt_get (data ev) "requestId" with
     | VNum n => n =? id
     | _ => false
     end.

Definition decides (id : Z) (e : event) : bool :=
  match e with
  | Call _ _ => false
  | Message ev => is_reply_for id ev
  | Timer requestId => requestId =? id
  end.

(** How a reply settles the promise of its call. *)
Definition outcome_of (ev : message_event) : settlement :=
  if truthy (opt_get (data ev) "error")
  then Rejected (Error (to_string (opt_get (data ev) "error")))
  else Resolved (opt_get (data ev) "result").

End Injected.

(** ** Scenarios: concrete environments and messages *)

Module Scenario.

Definition refused : reply := Reply 5 (inl (TypeError "Failed to fetch")).

Definition answer (code : Z) (reason : string) (payload : val) : reply :=
  Reply 20 (inr (Response code reason (Some "application/json") (BodyOk "" (Some payload)))).

Definition no_query (s : string) : list (string * val) := [].

(** Nothing listens on any candidate port. *)
Definition silent : env :=
  Env (fun _ _ => refused) (fun _ _ => None) (fun _ => "1970-01-01T00:00:00.000Z") no_query.

(** The service answers 200 to every request sent to [origin], nothing
    else is reachable. *)
Definition serving (origin : string) : env :=
  Env (fun _ req =>
         if String.prefix origin (req_url req)
         then answer 200 "OK" (VObj [("results", VArr [])])
         else refused)
      (fun _ _ => None) (fun _ => "1970-01-01T00:00:00.000Z") no_query.

(** As [serving], with a storage area whose writes are rejected. *)
Definition serving_storage_down (origin : string) : env :=
  Env (net (serving origin))
      (fun _ _ => Some (Error "storage unavailable"))
      (toISOString (serving origin)) no_query.

(** The service is found, but its content routes answer 405 to a POST and
    404 to anything else. *)
Definition content_missing (origin : string) : env :=
  Env (fun _ req =>
         if String.prefix origin (req_url req)
         then if includes "/api/viewer/search" (req_url req)
              then answer 200 "OK" (VObj [("results", VArr [])])
              else if String.eqb (req_method req) "POST"
                   then answer 405 "Method Not Allowed" VNull
                   else answer 404 "Not Found" VNull
         else refused)
      (fun _ _ => None) (fun _ => "1970-01-01T00:00:00.000Z") no_query.

(** A script context started at time [t]. *)
Definition start {C} (t : Z) (c : C) : state C := State t [] [] c.

(** A [REQUEST] message of the page with an arbitrary method. *)
Definition request (method params requestId : val) : message_event :=
  MessageEvent true
    (VObj [("type", VStr (MESSAGE_PREFIX +:+ "REQUEST")); ("method", method);
           ("params", params); ("requestId", requestId)]).

(** A [RESPONSE] message for request [id]. *)
Definition reply_to (id : Z) (result error : val) : message_event :=
  MessageEvent true
    (VObj [("type", VStr (MESSAGE_PREFIX +:+ "RESPONSE")); ("requestId", VNum id);
           ("result", result); ("error", error)]).

(** The service is found; of its content routes only [/airnavx/api/content/]
    answers 200, the others 404. *)
Definition fifth_route_only (origin : string) : env :=
  Env (fun _ req =>
         if String.prefix origin (req_url req)
         then if includes "/api/viewer/search" (req_url req)
                 || includes "/airnavx/api/content/" (req_url req)
              then answer 200 "OK" (VObj [("results", VArr [])])
              else answer 404 "Not Found" VNull
         else refused)
      (fun _ _ => None) (fun _ => "1970-01-01T00:00:00.000Z") no_query.

(** The environments and states of the concrete runs below. *)
Definition only_51800 : env := serving "http://127.0.0.1:51800/".
Definition on_51798 : env := serving "http://127.0.0.1:51798/".
Definition rejecting_51798 : env := content_missing "http://127.0.0.1:51798/".
Definition storage_down_59720 : env := serving_storage_down "http://127.0.0.1:59720/".

(** A worker whose cache holds 127.0.0.1:51798, found one second ago. *)
Definition worker_cached : state Background.vars :=
  State 5000 [] []
    (Background.Vars (Some (Background.Endpoint "127.0.0.1" 51798)) (Some 4000) ∅ None None).

Definition fetch_request : val :=
  VObj [("action", VStr "fetchContent"); ("dataModuleId", VStr "DMC X/1")].

(** A content script whose cache holds the same endpoint, found one
    second ago. *)
Definition relay_cached : state Content.vars :=
  State 5000 [] [] (Content.Vars (Content.found "127.0.0.1" 51798) 4000).

(** The requests of a run that follow its first [n] ones. *)
Definition requests_after {C} (n : nat) (run : outcome val * state C) : list Sys.request :=
  map sent (drop n (trace (snd run))).

(** The status codes answered to the requests of a run after its first
    [n] ones (0 when no response came). *)
Definition statuses_after {C} (n : nat) (run : outcome val * state C) : list Z :=
  map (fun ev => match got ev with inr r => status r | inl _ => 0 end)
    (drop n (trace (snd run))).

End Scenario.

(** ** Vocabulary: request logs and sweeps *)

Module Trace.
(** A probe or an attempt counts as successful when a response came back
    with a 2xx status. *)
Definition succeeded (ev : fetch_event) : bool :=
  match got ev with
  | inr r => ok r
  | inl _ => false
  end.

(** The candidate pairs in the order the nested loops visit them. *)
Definition pairs {H P} (hosts : list H) (ports : list P) : list (H * P) :=
  flat_map (fun h => map (pair h) ports) hosts.

(** [swept req hit candidates evs o]: the events [evs] are the requests of
    the candidates, in order, up to and including the first one that
    [hit] ([o = Some x]), or of all of them when none did ([o = None]). *)
Inductive swept {A} (req : A -> request) (hit : A -> fetch_event -> bool) :
    list A -> list fetch_event -> option A -> Prop :=
  | swept_nil : swept req hit [] [] None
  | swept_hit x rest ev :
      sent ev = req x -> hit x ev = true ->
      swept req hit (x :: rest) [ev] (Some x)
  | swept_miss x rest ev evs o :
      sent ev = req x -> hit x ev = false ->
      swept req hit rest evs o ->
      swept req hit (x :: rest) (ev :: evs) o.

End Trace.

(** ** Vocabulary: the detection of the content script *)

Module ContentSpec.
Import Trace.

Definition candidates : list (string * Z) :=
  pairs Content.hostsToTest Content.candidatePorts.

Definition probe_of (hp : string * Z) : request := Content.probe (fst hp) (snd hp).

Definition found_of (hp : string * Z) : val := Content.found (fst hp) (snd hp).

(** In the content script a probe hits when its response is 2xx. *)
Definition hit (hp : string * Z) (ev : fetch_event) : bool := succeeded ev.

(** What the sweep returns for the outcome of its loops. *)
Definition result_of (o : option (string * Z)) : val :=
  match o with
  | Some hp => found_of hp
  | None => Content.not_found
  end.

Definition probe_body (E : env) (hp : string * Z) : M Content.vars (option val) :=
  try_catch (Content.probe_try E (fst hp) (snd hp)) (fun _ => ret None).

End ContentSpec.

(** ** Vocabulary: the detection and the calls of the service worker *)

Module BackgroundSpec.
Import Trace.

Definition candidates : list (string * Z) :=
  pairs Background.AIRNAVX_HOSTS Background.AIRNAVX_CANDIDATE_PORTS.

Definition probe_of (hp : string * Z) : request := Background.probe (fst hp) (snd hp).

Definition endpoint_of (hp : string * Z) : Background.endpoint :=
  Background.Endpoint (fst hp) (snd hp).

(** The items written to the storage area after a successful probe. *)
Definition items (hp : string * Z) (t : Z) : list (string * val) :=
  [("airnavx_host", VStr (fst hp)); ("airnavx_port", VNum (snd hp));
   ("last_detection", VNum t)].

(** In the worker a probe ends the sweep when its response is 2xx and the
    storage write that follows is accepted. *)
Definition hit (E : env) (hp : string * Z) (ev : fetch_event) : bool :=
  succeeded ev
  && bool_decide (storage_set E (settled_at ev) (items hp (settled_at ev)) = None).

(** The worker's variables after a hit at time [t]. *)
Definition hit_local (hp : string * Z) (t : Z) (c : Background.vars) : Background.vars :=
  Background.Vars (Some (endpoint_of hp)) (Some t)
    (list_to_map (items hp t) ∪ Background.stored c) (Some "✓") (Some "#10B981").

(** What a probe that does not end the sweep leaves alone. *)
Definition kept (c c' : Background.vars) : Prop :=
  Background.stored c' = Background.stored c.

Definition probe_body (E : env) (hp : string * Z) : M Background.vars (option Background.endpoint) :=
  try_catch (Background.probe_try E (fst hp) (snd hp)) (fun _ => ret None).

(** The options after the defaults of the destructuring. *)
Definition method_of (o : Background.options) : val :=
  match Background.opt_method o with VUndef => VStr "GET" | m => m end.

Definition params_of (o : Background.options) : val :=
  match Background.opt_params o with VUndef => VObj [] | p => p end.

Definition body_of (o : Background.options) : val :=
  match Background.opt_body o with VUndef => VNull | b => b end.

Definition timeout_of (o : Background.options) : Z :=
  default 30000 (Background.opt_timeout o).

(** What the [catch] of [fetchFromAirNavX] rethrows. *)
Definition rethrown (e : error) : error :=
  if String.eqb (err_name e) "AbortError"
  then Error "Request timeout - AirNavX not responding"
  else e.

(** The outcome of the call for the way its one request settled. *)
Definition answer_of (ep : Background.endpoint) (ev : fetch_event) : outcome val :=
  match got ev with
  | inl e => Throw (rethrown e)
  | inr r =>
      if ok r then
        match json r with
        | inl e => Throw (rethrown e)
        | inr data =>
            Ret (VObj [("success", VBool true); ("data", data);
                       ("host", VStr (Background.host ep));
                       ("port", VNum (Background.port ep))])
        end
      else Throw (Error ("HTTP " +:+ pretty (status r) +:+ ": " +:+ statusText r))
  end.

End BackgroundSpec.

(** ** Vocabulary: the fallback attempts *)

Module AttemptSpec.
(** The payload an attempt delivers: the response was 2xx and its body
    could be read. *)
Definition payload (ev : fetch_event) : option val :=
  match got ev with
  | inr r => if ok r then match Content.read_body r with
                          | inr data => Some data
                          | inl _ => None
                          end
             else None
  | inl _ => None
  end.

Definition delivered (a : attempt) (ev : fetch_event) : bool :=
  bool_decide (is_Some (payload ev)).

(** The reason recorded for an attempt that delivered nothing. *)
Definition reason (ev : fetch_event) : string :=
  match got ev with
  | inl e => Content.catch_message e
  | inr r => if ok r then match Content.read_body r with
                          | inl e => Content.catch_message e
                          | inr _ => ""
                          end
             else Content.http_error r
  end.

Definition success (a : attempt) (data : val) : val :=
  VObj [("success", VBool true); ("data", data); ("method", a_name a)].

(** The same for the earlier script, which always reads the body as JSON
    and keeps the error itself. *)
Definition payload_old (ev : fetch_event) : option val :=
  match got ev with
  | inr r => if ok r then match json r with
                          | inr data => Some data
                          | inl _ => None
                          end
             else None
  | inl _ => None
  end.

Definition delivered_old (a : attempt) (ev : fetch_event) : bool :=
  bool_decide (is_Some (payload_old ev)).

Definition error_old (ev : fetch_event) : error :=
  match got ev with
  | inl e => e
  | inr r => if ok r then match json r with
                          | inl e => e
                          | inr _ => Error ""
                          end
             else Error ("HTTP " +:+ pretty (status r) +:+ ": " +:+ statusText r)
  end.

Definition success_old (data : val) : val :=
  VObj [("success", VBool true); ("data", data)].

(** The requests of the seven attempts of the content script, in order,
    for the origin [base], the encoded id [id] and the id itself. *)
Definition listed_requests (base id : string) (dataModuleId : val) : list request :=
  [ Request "GET" (base +:+ "/airnavx/api/dataModule/content?dataModuleId=" +:+ id)
      Content.accept_json None;
    Request "GET" (base +:+ "/airnavx/api/dataModule/content?dataModuleId=" +:+ id
                        +:+ "&forHatch=false&forPrint=false")
      Content.accept_json None;
    Request "GET" (base +:+ "/airnavx/api/dataModule/content?dmCode=" +:+ id)
      Content.accept_json None;
    Request "GET" (base +:+ "/airnavx/api/dataModule/content?id=" +:+ id)
      Content.accept_json None;
    Request "GET" (base +:+ "/airnavx/api/content/" +:+ id) Content.accept_json None;
    Request "GET" (base +:+ "/airnavx/api/viewer/content?dataModuleId=" +:+ id)
      Content.accept_json None;
    Request "POST" (base +:+ "/airnavx/api/dataModule/content")
      [("Accept", "application/json"); ("Content-Type", "application/json")]
      (Some (VObj [("dataModuleId", dataModuleId); ("forHatch", VBool false);
                   ("forPrint", VBool false)])) ].

(** The requests of the three attempts of the earlier script. *)
Definition listed_requests_old (base id : string) (dataModuleId : val) : list request :=
  [ Request "POST" (base +:+ "/airnavx/api/dataModule/content")
      [("Accept", "application/json"); ("Content-Type", "application/json")]
      (Some (VObj [("dataModuleId", dataModuleId); ("forHatch", VBool false);
                   ("forPrint", VBool false)]));
    Request "POST" (base +:+ "/airnavx/api/dataModule/content?dataModuleId=" +:+ id
                         +:+ "&forHatch=false&forPrint=false")
      Content.accept_json None;
    Request "GET" (base +:+ "/airnavx/api/dataModule/content?dataModuleId=" +:+ id)
      Content.accept_json None ].

End AttemptSpec.

(** ** Vocabulary: the caller-side client *)

Module InjectedSpec.
Import Injected.

(** A message the listener acts on: it comes from the window and is
    tagged as a response. *)
Definition is_response (ev : message_event) : bool :=
  from_window ev
  && match get (data ev) "type" with
     | inr type => is_str type (MESSAGE_PREFIX +:+ "RESPONSE")
     | inl _ => false
     end.

(** What handling a response does to the variables of the script. *)
Definition received (ev : message_event) (c : vars) : vars :=
  let requestId := opt_get (data ev) "requestId" in
  let c1 := print (Log "📨 Received RESPONSE:") c in
  match pending_get requestId c1 with
  | Some p =>
      pending_delete requestId
        (if truthy (opt_get (data ev) "error")
         then settle p (Rejected (Error (to_string (opt_get (data ev) "error"))))
                (print (ErrorLog "❌ Request failed:") c1)
         else settle p (Resolved (opt_get (data ev) "result"))
                (print (Log "✅ Request succeeded") c1))
  | None => print (Warn "⚠️ Received response for unknown request:") c1
  end.

(** What the timer callback of call [id] does to them. *)
Definition timed_out (id : Z) (c : vars) : vars :=
  if bool_decide (is_Some (pendingRequests c !! id)) then
    settle id (Rejected (Error "Request timeout"))
      (pending_delete (VNum id) (print (ErrorLog "⏱️ Request timeout:") c))
  else c.

(** What a call does to them at time [t]. *)
Definition called (t : Z) (c : vars) : vars :=
  let id := requestCounter c + 1 in
  Vars id (<[id := id]> (pendingRequests c)) (promises c)
    (timers c ++ [(t + 30000, id)])
    (console c ++ [Log "📤 Sending REQUEST to content script:"]).

(** What a call whose message cannot be cloned does to them: the entry is
    stored, the promise is rejected with what [postMessage] threw, and no
    timer is started. *)
Definition refused (message : string) (c : vars) : vars :=
  let id := requestCounter c + 1 in
  settle id (Rejected (DataCloneError message))
    (Vars id (<[id := id]> (pendingRequests c)) (promises c) (timers c)
       (console c ++ [Log "📤 Sending REQUEST to content script:"])).

(** What every state of the script satisfies: a pending entry belongs to
    a call already issued, which it names; only promises of issued calls
    are settled. *)
Definition sound (c : vars) : Prop :=
  (forall id p, pendingRequests c !! id = Some p -> p = id /\ id <= requestCounter c) /\
  (forall id, is_Some (promises c !! id) -> id <= requestCounter c).

(** The invariant of the script as long as every message could be cloned:
    a pending entry belongs to a call already issued whose promise is not
    settled and which the entry names; only promises of issued calls are
    settled. *)
Definition wf (c : vars) : Prop :=
  (forall id p, pendingRequests c !! id = Some p ->
                p = id /\ id <= requestCounter c /\ promises c !! id = None) /\
  (forall id, is_Some (promises c !! id) -> id <= requestCounter c).


(** [settled_by_first id s1]: from [s1] on, the call [id] stays pending
    through any tasks that are neither a reply for it nor its timer; its
    timer then rejects it with the timeout error, a reply then settles it
    with the reply's outcome; either way the entry is removed and nothing
    that comes later changes the settlement. *)
Definition settled_by_first (id : Z) (s1 : state vars) : Prop :=
  forall tasks,
    Forall (fun te => decides id (snd te) = false) tasks ->
    pendingRequests (local (run tasks s1)) !! id = Some id /\
    promises (local (run tasks s1)) !! id = None /\
    (forall t later,
        pendingRequests (local (run later (handle_at (t, Timer id) (run tasks s1)))) !! id
        = None /\
        promises (local (run later (handle_at (t, Timer id) (run tasks s1)))) !! id
        = Some (Rejected (Error "Request timeout"))) /\
    (forall t ev later,
        is_reply_for id ev = true ->
        pendingRequests (local (run later (handle_at (t, Message ev) (run tasks s1)))) !! id
        = None /\
        promises (local (run later (handle_at (t, Message ev) (run tasks s1)))) !! id
        = Some (outcome_of ev)).

End InjectedSpec.

(** ** Vocabulary: what a computation leaves alone, adds or takes *)

Module Effects.

(** [keeps R m]: from any state, the state [m] ends in is related by [R]
    to the state it started in, whether [m] returns or throws. *)
Definition keeps {C A} (R : state C -> state C -> Prop) (m : M C A) : Prop :=
  forall s, R s (snd (m s)).

(** No message is posted. *)
Definition quiet {C} (s s' : state C) : Prop := outbox s' = outbox s.

(** The requests issued are new entries at the end of the log, each of
    them satisfying [P]; the entries already there stay. *)
Definition issues {C} (P : request -> Prop) (s s' : state C) : Prop :=
  exists evs, trace s' = trace s ++ evs /\ Forall (fun ev => P (sent ev)) evs.

(** The URL of [req] starts with the origin of one of the [candidates]
    followed by one of the [paths]. *)
Definition targets (candidates : list (string * Z)) (paths : list string)
    (req : request) : bool :=
  existsb
    (fun hp =>
       existsb
         (fun path =>
            String.prefix (Url.origin (VStr (fst hp)) (VNum (snd hp)) +:+ path) (req_url req))
         paths)
    candidates.

(** [m] takes no more than [d] milliseconds, and the clock never goes
    back. *)
Definition within {C A} (d : Z) (m : M C A) : Prop :=
  forall s, clock s <= clock (snd (m s)) <= clock s + d.

End Effects.

(** ** Vocabulary: the relay as a message handler *)

Module RelaySpec.

(** What the relay reads in a message. *)
Definition method_of (ev : message_event) : val := opt_get (data ev) "method".
Definition params_of (ev : message_event) : val := opt_get (data ev) "params".
Definition id_of (ev : message_event) : val := opt_get (data ev) "requestId".

(** The messages the relay acts on: sent by the window itself, tagged as
    a request, naming a method. *)
Definition is_request (ev : message_event) : bool :=
  from_window ev
  && match get (data ev) "type" with
     | inr type => is_str type (MESSAGE_PREFIX +:+ "REQUEST")
     | inl _ => false
     end
  && truthy (method_of ev).

(** The message posted for the outcome of the dispatch, the [catch] being
    entered at time [t]. *)
Definition reply_of (E : env) (ev : message_event) (o : outcome val) (t : Z) : val :=
  match o with
  | Ret result => Content.response_ok (id_of ev) result
  | Throw e =>
      Content.response_error (id_of ev) (err_message e) (method_of ev) (params_of ev)
        (toISOString E t)
  end.


(** The invariant of the relay: its cache is empty, or holds the
    not-found object, or the object of one of the fourteen candidates. *)
Definition cache_ok (c : Content.vars) : Prop :=
  Content.airnavxCache c = VNull \/
  Content.airnavxCache c = Content.not_found \/
  exists hp, hp ∈ ContentSpec.candidates /\ Content.airnavxCache c = ContentSpec.found_of hp.

(** One step of the relay: the invariant is kept and every request issued
    satisfies [P]. *)
Definition step_ok (P : request -> Prop) (s s' : state Content.vars) : Prop :=
  cache_ok (local s) -> cache_ok (local s') /\ Effects.issues P s s'.

End RelaySpec.

(** ** The event loop of the relay *)

Module Relay.

(** The relay runs its listener on the messages of the page, one by one,
    each at its own time; an exception escaping the listener ends that
    task only. *)
Definition handle_at (E : env) (te : Z * message_event) (s : state Content.vars) :
    state Content.vars :=
  snd (Content.on_message E (snd te) (State (fst te) (trace s) (outbox s) (local s))).

Definition run (E : env) (events : list (Z * message_event)) (s : state Content.vars) :
    state Content.vars :=
  fold_left (fun s te => handle_at E te s) events s.

End Relay.

(** ** Vocabulary: the worker as a message handler *)

Module WorkerSpec.


(** The endpoints the worker may record: the twelve candidate pairs. *)
Definition is_candidate (ep : Background.endpoint) : Prop :=
  (Background.host ep, Background.port ep) ∈ BackgroundSpec.candidates.

(** What the storage area holds after a detection that found [ep] at time
    [t]. *)
Definition record_of (ep : Background.endpoint) (t : Z) : gmap string val :=
  list_to_map (BackgroundSpec.items (Background.host ep, Background.port ep) t).

(** The storage area is empty or holds the full record of one candidate. *)
Definition stored_ok (m : gmap string val) : Prop :=
  m = ∅ \/ exists ep t, is_candidate ep /\ m = record_of ep t.

(** The invariant of the worker between two handlers.  With an endpoint
    recorded: it is a candidate, the badge is the green check mark, and
    the storage area holds the record of that very endpoint, written at
    the time of the detection.  Without one: either no detection has run
    yet and nothing is set, or the badge is the red cross; the storage
    area may still hold the record of an endpoint found earlier. *)
Definition consistent (c : Background.vars) : Prop :=
  match Background.detectedAirNavX c with
  | Some ep =>
      is_candidate ep /\
      Background.badge_text c = Some "✓" /\ Background.badge_color c = Some "#10B981" /\
      exists t, Background.lastDetectionTime c = Some t /\
                Background.stored c = record_of ep t
  | None =>
      stored_ok (Background.stored c) /\
      ((Background.badge_text c = None /\ Background.badge_color c = None /\
        Background.lastDetectionTime c = None /\ Background.stored c = ∅)
       \/
       (Background.badge_text c = Some "✗" /\ Background.badge_color c = Some "#DC2626" /\
        is_Some (Background.lastDetectionTime c)))
  end.

(** One step of the worker: the invariant is kept and every request
    issued satisfies [P]. *)
Definition step_ok (P : request -> Prop) (s s' : state Background.vars) : Prop :=
  consistent (local s) -> consistent (local s') /\ Effects.issues P s s'.

(** The endpoint recorded in [detectedAirNavX], if any, is a candidate.
    Nothing is asked of the other variables, the storage area or the
    badge. *)
Definition recorded_ok (c : Background.vars) : Prop :=
  match Background.detectedAirNavX c with
  | Some ep => is_candidate ep
  | None => True
  end.

(** One step of the worker, as far as the recorded endpoint goes. *)
Definition records (s s' : state Background.vars) : Prop :=
  recorded_ok (local s) -> recorded_ok (local s').

End WorkerSpec.

(** ** The event loop of the worker *)

Module Worker.

(** What the worker runs: the listener of [chrome.runtime.onMessage] on an
    incoming message, or the refresh of the [onInstalled] and [onStartup]
    listeners and of the five-minute interval. *)
Inductive task : Type :=
  | Incoming (request : val)
  | Refresh.

(** Run one task; an exception escaping a listener ends that task only. *)
Definition handle (E : env) (e : task) (s : state Background.vars) : state Background.vars :=
  match e with
  | Incoming request => snd (Background.on_message E request s)
  | Refresh => snd (Background.refresh E s)
  end.

(** A task starts at its own time; the worker runs its tasks one by one. *)
Definition handle_at (E : env) (te : Z * task) (s : state Background.vars) :
    state Background.vars :=
  handle E (snd te) (State (fst te) (trace s) (outbox s) (local s)).

Definition run (E : env) (tasks : list (Z * task)) (s : state Background.vars) :
    state Background.vars :=
  fold_left (fun s te => handle_at E te s) tasks s.

(** The paths the callers of [customFetch] asked for. *)
Definition custom_paths (tasks : list (Z * task)) : list string :=
  flat_map
    (fun te =>
       match snd te with
       | Incoming request =>
           if is_str (opt_get request "action") "customFetch"
           then [to_string (opt_get request "endpoint")]
           else []
       | Refresh => []
       end)
    tasks.

End Worker.

(** ** Vocabulary: a call through the bridge *)

Module BridgeSpec.

(** How the client settles a call for the outcome of the relay's
    dispatch: the error response carries the message of the error only,
    and the client takes a response for an error when that message is
    truthy. *)
Definition settlement_of (o : outcome val) : Injected.settlement :=
  match o with
  | Ret result => Injected.Resolved result
  | Throw e =>
      if String.eqb (err_message e) ""
      then Injected.Resolved VUndef
      else Injected.Rejected (Error (err_message e))
  end.

(** [round_trip E call served c r]: the client, in state [c], makes the
    call; it posts one request; the relay, in state [r], receiving that
    request runs [served] and posts one reply; the client, receiving that
    reply while the call is pending, settles the call with the outcome of
    [served], for good. *)
Definition round_trip (E : env) (call : M Injected.vars Z) (served : M Content.vars val)
    (c : state Injected.vars) (r : state Content.vars) : Prop :=
  exists id c1 request reply,
    call c = (Ret id, c1) /\
    outbox c1 = outbox c ++ [request] /\
    Content.on_message E (MessageEvent true request) r
    = (Ret tt,
       State (clock (snd (served r))) (trace (snd (served r))) (outbox r ++ [reply])
         (local (snd (served r)))) /\
    forall tasks t later,
      Forall (fun te => Injected.decides id (snd te) = false) tasks ->
      Injected.promises
        (local (Injected.run later
                  (Injected.handle_at (t, Injected.Message (MessageEvent true reply))
                     (Injected.run tasks c1)))) !! id
      = Some (settlement_of (fst (served r))).

(** [refusal call message c]: the client, in state [c], makes the call;
    it posts nothing and starts no timer, and the promise of the call is
    rejected with the [DataCloneError] carrying [message], for good. *)
Definition refusal (call : M Injected.vars Z) (message : string)
    (c : state Injected.vars) : Prop :=
  exists id c1,
    call c = (Ret id, c1) /\
    outbox c1 = outbox c /\
    Injected.timers (local c1) = Injected.timers (local c) /\
    forall tasks,
      Injected.promises (local (Injected.run tasks c1)) !! id
      = Some (Injected.Rejected (DataCloneError message)).

End BridgeSpec.

(** ** Vocabulary: the search *)

Module SearchSpec.

(** The page asked for: page 1 when the caller gives none. *)
Definition page_of (page : val) : val :=
  match page with
  | VUndef => VNum 1
  | _ => page
  end.

(** The query string of a search for [query] on page [page]. *)
Definition query_of (query page : val) : string :=
  Url.search_params
    [("q", query); ("page", page);
     ("aggregationList",
      VArr [VStr "ata2"; VStr "actype"; VStr "customization"; VStr "doctypebc"]);
     ("queryWithAggregation", VStr "false")].

(** The request of a search sent to the service at [origin]. *)
Definition request_of (origin : string) (query page : val) : request :=
  Request "GET" ((origin +:+ "/airnavx/api/viewer/search") +:+ "?" +:+ query_of query page)
    [("Accept", "application/json")] None.

(** What the search of the relay makes of the way its request settled: a
    2xx response whose body is JSON gives the result, unless that body is
    [null]. *)
Definition relay_answer (ev : fetch_event) : outcome val :=
  match got ev with
  | inl e => Throw e
  | inr r =>
      if ok r then
        match json r with
        | inl e => Throw e
        | inr data =>
            match read data "results" with
            | inl e => Throw e
            | inr _ => Ret (VObj [("success", VBool true); ("data", data)])
            end
        end
      else Throw (Error ("Search failed with status " +:+ pretty (status r)))
  end.

End SearchSpec.

(** ** Scenarios: a slow service, a null body *)

Module Slow.

(** The service answers every request with 200 and an empty result list,
    [n] milliseconds after the request. *)
Definition answering_after (n : Z) : env :=
  Env (fun _ _ =>
         Reply n (inr (Response 200 "OK" (Some "application/json")
                         (BodyOk "" (Some (VObj [("results", VArr [])]))))))
      (fun _ _ => None) (fun _ => "1970-01-01T00:00:00.000Z") Scenario.no_query.

(** The service answers every request at once with 200 and the JSON text
    [null]. *)
Definition null_body : env :=
  Env (fun _ _ =>
         Reply 0 (inr (Response 200 "OK" (Some "application/json")
                         (BodyOk "null" (Some VNull)))))
      (fun _ _ => None) (fun _ => "1970-01-01T00:00:00.000Z") Scenario.no_query.

(** A relay that has just found the service on 127.0.0.1:59720, at time
    [t]. *)
Definition relay_cached (t : Z) : state Content.vars :=
  State t [] [] (Content.Vars (Content.found "127.0.0.1" 59720) t).

End Slow.

(** ** Vocabulary: the requests of the client *)

Module ClientSpec.

(** The requests the calls among [tasks] post, in order, when the first
    of them gets the id [next]: a call whose message cannot be cloned
    takes an id and posts nothing. *)
Fixpoint requests_of (next : Z) (tasks : list (Z * Injected.event)) : list val :=
  match tasks with
  | [] => []
  | (_, Injected.Call method (Data params)) :: rest =>
      Injected.request_message method params next :: requests_of (next + 1) rest
  | (_, Injected.Call _ (Uncloneable _)) :: rest => requests_of (next + 1) rest
  | _ :: rest => requests_of next rest
  end.

(** The number of calls among [tasks]. *)
Fixpoint calls (tasks : list (Z * Injected.event)) : nat :=
  match tasks with
  | [] => 0%nat
  | (_, Injected.Call _ _) :: rest => S (calls rest)
  | _ :: rest => calls rest
  end.

(** The number of calls among [tasks] whose message can be cloned. *)
Fixpoint posted (tasks : list (Z * Injected.event)) : nat :=
  match tasks with
  | [] => 0%nat
  | (_, Injected.Call _ (Data _)) :: rest => S (posted rest)
  | _ :: rest => posted rest
  end.

End ClientSpec.

(** ** The popup *)

Module Popup.

(** The properties of the elements of the popup page that the script
    assigns. *)
Record dom : Type := Dom {
  detectBtn_disabled : bool;
  detectBtn_innerHTML : string;
  testBtn_disabled : bool;
  testBtn_innerHTML : string;
  statusDot_className : string;
  statusText_textContent : string;
  statusText_style_color : string;
  connectionInfo_style_display : string;
  hostValue_textContent : string;
  portValue_textContent : string;
  testResults_style_display : string;
  testOutput_textContent : string
}.

(** One assignment to a property of an element. *)
Inductive assignment : Type :=
  | DetectBtnDisabled (b : bool)
  | DetectBtnInnerHTML (s : string)
  | TestBtnDisabled (b : bool)
  | TestBtnInnerHTML (s : string)
  | StatusDotClassName (s : string)
  | StatusTextContent (s : string)
  | StatusTextColor (s : string)
  | ConnectionInfoDisplay (s : string)
  | HostValueText (s : string)
  | PortValueText (s : string)
  | TestResultsDisplay (s : string)
  | TestOutputText (s : string).

Definition assign (a : assignment) (d : dom) : dom :=
  match a with
  | DetectBtnDisabled b =>
      Dom b (detectBtn_innerHTML d) (testBtn_disabled d) (testBtn_innerHTML d)
        (statusDot_className d) (statusText_textContent d) (statusText_style_color d)
        (connectionInfo_style_display d) (hostValue_textContent d) (portValue_textContent d)
        (testResults_style_display d) (testOutput_textContent d)
  | DetectBtnInnerHTML s =>
      Dom (detectBtn_disabled d) s (testBtn_disabled d) (testBtn_innerHTML d)
        (statusDot_className d) (statusText_textContent d) (statusText_style_color d)
        (connectionInfo_style_display d) (hostValue_textContent d) (portValue_textContent d)
        (testResults_style_display d) (testOutput_textContent d)
  | TestBtnDisabled b =>
      Dom (detectBtn_disabled d) (detectBtn_innerHTML d) b (testBtn_innerHTML d)
        (statusDot_className d) (statusText_textContent d) (statusText_style_color d)
        (connectionInfo_style_display d) (hostValue_textContent d) (portValue_textContent d)
        (testResults_style_display d) (testOutput_textContent d)
  | TestBtnInnerHTML s =>
      Dom (detectBtn_disabled d) (detectBtn_innerHTML d) (testBtn_disabled d) s
        (statusDot_className d) (statusText_textContent d) (statusText_style_color d)
        (connectionInfo_style_display d) (hostValue_textContent d) (portValue_textContent d)
        (testResults_style_display d) (testOutput_textContent d)
  | StatusDotClassName s =>
      Dom (detectBtn_disabled d) (detectBtn_innerHTML d) (testBtn_disabled d)
        (testBtn_innerHTML d) s (statusText_textContent d) (statusText_style_color d)
        (connectionInfo_style_display d) (hostValue_textContent d) (portValue_textContent d)
        (testResults_style_display d) (testOutput_textContent d)
  | StatusTextContent s =>
      Dom (detectBtn_disabled d) (detectBtn_innerHTML d) (testBtn_disabled d)
        (testBtn_innerHTML d) (statusDot_className d) s (statusText_style_color d)
        (connectionInfo_style_display d) (hostValue_textContent d) (portValue_textContent d)
        (testResults_style_display d) (testOutput_textContent d)
  | StatusTextColor s =>
      Dom (detectBtn_disabled d) (detectBtn_innerHTML d) (testBtn_disabled d)
        (testBtn_innerHTML d) (statusDot_className d) (statusText_textContent d) s
        (connectionInfo_style_display d) (hostValue_textContent d) (portValue_textContent d)
        (testResults_style_display d) (testOutput_textContent d)
  | ConnectionInfoDisplay s =>
      Dom (detectBtn_disabled d) (detectBtn_innerHTML d) (testBtn_disabled d)
        (testBtn_innerHTML d) (statusDot_className d) (statusText_textContent d)
        (statusText_style_color d) s (hostValue_textContent d) (portValue_textContent d)
        (testResults_style_display d) (testOutput_textContent d)
  | HostValueText s =>
      Dom (detectBtn_disabled d) (detectBtn_innerHTML d) (testBtn_disabled d)
        (testBtn_innerHTML d) (statusDot_className d) (statusText_textContent d)
        (statusText_style_color d) (connectionInfo_style_display d) s
        (portValue_textContent d) (testResults_style_display d) (testOutput_textContent d)
  | PortValueText s =>
      Dom (detectBtn_disabled d) (detectBtn_innerHTML d) (testBtn_disabled d)
        (testBtn_innerHTML d) (statusDot_className d) (statusText_textContent d)
        (statusText_style_color d) (connectionInfo_style_display d)
        (hostValue_textContent d) s (testResults_style_display d) (testOutput_textContent d)
  | TestResultsDisplay s =>
      Dom (detectBtn_disabled d) (detectBtn_innerHTML d) (testBtn_disabled d)
        (testBtn_innerHTML d) (statusDot_className d) (statusText_textContent d)
        (statusText_style_color d) (connectionInfo_style_display d)
        (hostValue_textContent d) (portValue_textContent d) s (testOutput_textContent d)
  | TestOutputText s =>
      Dom (detectBtn_disabled d) (detectBtn_innerHTML d) (testBtn_disabled d)
        (testBtn_innerHTML d) (statusDot_className d) (statusText_textContent d)
        (statusText_style_color d) (connectionInfo_style_display d)
        (hostValue_textContent d) (portValue_textContent d) (testResults_style_display d) s
  end.

(** The popup and the worker it talks to: the page of the popup and the
    variables of the worker.  The clock and the request log are those of
    the worker; the outbox collects what the worker hands to
    [sendResponse]. *)
Record world : Type := World {
  page : dom;
  worker : Background.vars
}.

(** The number of UTF-16 code units of a text held as UTF-8 bytes: one
    per character, two for a character of four bytes. *)
Fixpoint utf16_length (s : string) : Z :=
  match s with
  | EmptyString => 0
  | String c rest =>
      (let n := Ascii.N_of_ascii c in
       if (n <? 128)%N then 1 else if (n <? 192)%N then 0 else if (n <? 240)%N then 1 else 2)
      + utf16_length rest
  end.

(** [v?.length] *)
Definition length_of (v : val) : val :=
  match v with
  | VArr items => VNum (Z.of_nat (length items))
  | VStr s => VNum (utf16_length s)
  | VObj fields => lookup_field "length" fields
  | _ => VUndef
  end.

(** [element.textContent = v]: [null] and [undefined] give the empty
    text, any other value its string. *)
Definition text_of (v : val) : string :=
  match v with
  | VUndef | VNull => ""
  | _ => to_string v
  end.

Definition dquote : string := String (Ascii.ascii_of_nat 34) "".

(** The markup shown in a button while its handler runs. *)
Definition loading (label : string) : string :=
  "<div class=" +:+ dquote +:+ "loading" +:+ dquote +:+ "></div> " +:+ label.

(** [try { m } finally { f }] *)
Definition finally {C A} (m : M C A) (f : M C unit) : M C A :=
  fun s =>
    match m s with
    | (r, s') =>
        match f s' with
        | (Ret _, s'') => (r, s'')
        | (Throw e, s'') => (Throw e, s'')
        end
    end.

(** An assignment to a property of an element of the page. *)
Definition render (a : assignment) : M world unit :=
  c <- get_local ;;
  set_local (World (assign a (page c)) (worker c)).

(** The text shown after a successful test. *)
Definition success_text (resultsCount host port : val) : string :=
  "✅ Connection successful!" +:+ Content.newline +:+ Content.newline
  +:+ "Search test returned " +:+ to_string resultsCount +:+ " results."
  +:+ Content.newline +:+ Content.newline
  +:+ "Host: " +:+ to_string host +:+ Content.newline
  +:+ "Port: " +:+ to_string port.

Section WithEnv.
Variable E : env.

(** [function sendMessage(message)], awaited: the listener of the worker
    runs on the message, and the promise resolves with the first value
    handed to [sendResponse], or with [undefined] when the listener ended
    without an answer. *)
Definition sendMessage (message : val) : M world val :=
  fun s =>
    let w := snd (Background.on_message E message
                    (State (clock s) (trace s) [] (worker (local s)))) in
    (Ret (default VUndef (head (outbox w))),
     State (clock w) (trace w) (outbox s ++ outbox w) (World (page (local s)) (local w))).

(** [async function checkStatus()] *)
Definition checkStatus : M world unit :=
  try_catch
    (result <- sendMessage (VObj [("action", VStr "getStatus")]) ;;
     success <- lift (read result "success") ;;
     online <- (if truthy success
                then status <- lift (read result "status") ;;
                     detected <- lift (read status "detected") ;;
                     ret (truthy detected)
                else ret false) ;;
     if (online : bool) then
       render (StatusDotClassName "status-dot online") ;;;
       render (StatusTextContent "Connected") ;;;
       render (StatusTextColor "#10B981") ;;;
       status <- lift (read result "status") ;;
       host <- lift (read status "host") ;;
       render (HostValueText (text_of host)) ;;;
       status <- lift (read result "status") ;;
       port <- lift (read status "port") ;;
       render (PortValueText (text_of port)) ;;;
       render (ConnectionInfoDisplay "block") ;;;
       render (TestBtnDisabled false)
     else
       render (StatusDotClassName "status-dot offline") ;;;
       render (StatusTextContent "Not Connected") ;;;
       render (StatusTextColor "#DC2626") ;;;
       render (ConnectionInfoDisplay "none") ;;;
       render (TestBtnDisabled true))
    (fun error =>
       render (StatusDotClassName "status-dot offline") ;;;
       render (StatusTextContent "Error") ;;;
       render (StatusTextColor "#DC2626")).

(** The [DOMContentLoaded] listener, up to the registration of the click
    handlers. *)
Definition on_load : M world unit := checkStatus.

(** The click handler of the detect button. *)
Definition on_detect_click : M world unit :=
  render (DetectBtnDisabled true) ;;;
  render (DetectBtnInnerHTML (loading "Detecting...")) ;;;
  finally
    (try_catch
       (result <- sendMessage (VObj [("action", VStr "detect"); ("forceRefresh", VBool true)]) ;;
        checkStatus)
       (fun error => ret tt))
    (render (DetectBtnDisabled false) ;;;
     render (DetectBtnInnerHTML "🔍 Detect AirNavX")).

(** The click handler of the test button. *)
Definition on_test_click : M world unit :=
  render (TestBtnDisabled true) ;;;
  render (TestBtnInnerHTML (loading "Testing...")) ;;;
  finally
    (try_catch
       (searchResult <- sendMessage (VObj [("action", VStr "search"); ("query", VStr "test");
                                           ("page", VNum 1)]) ;;
        render (TestResultsDisplay "block") ;;;
        success <- lift (read searchResult "success") ;;
        if truthy success then
          data <- lift (read searchResult "data") ;;
          let resultsCount := or_else (length_of (opt_get data "results")) (VNum 0) in
          host <- lift (read searchResult "host") ;;
          port <- lift (read searchResult "port") ;;
          render (TestOutputText (success_text resultsCount host port))
        else
          error <- lift (read searchResult "error") ;;
          render (TestOutputText ("❌ Test failed:" +:+ Content.newline +:+ to_string error)))
       (fun error =>
          render (TestOutputText ("❌ Test error:" +:+ Content.newline +:+ err_message error))))
    (render (TestBtnDisabled false) ;;;
     render (TestBtnInnerHTML "🧪 Test Connection")).

End WithEnv.

End Popup.

(** ** Vocabulary: what the popup shows *)

Module PopupSpec.

(** The state of the worker when a message of the popup reaches it. *)
Definition worker_state (s : state Popup.world) : state Background.vars :=
  State (clock s) (trace s) [] (Popup.worker (local s)).

(** The page once the status says that [ep] is detected: green dot,
    [Connected], the host and the port shown, the test button enabled. *)
Definition shown_online (ep : Background.endpoint) (d : Popup.dom) : Popup.dom :=
  Popup.Dom (Popup.detectBtn_disabled d) (Popup.detectBtn_innerHTML d)
    false (Popup.testBtn_innerHTML d)
    "status-dot online" "Connected" "#10B981" "block"
    (Background.host ep) (pretty (Background.port ep))
    (Popup.testResults_style_display d) (Popup.testOutput_textContent d).

(** The page once the status says that nothing is detected: red dot,
    [Not Connected], the connection details hidden (the host and port
    texts stay as they were), the test button disabled. *)
Definition shown_offline (d : Popup.dom) : Popup.dom :=
  Popup.Dom (Popup.detectBtn_disabled d) (Popup.detectBtn_innerHTML d)
    true (Popup.testBtn_innerHTML d)
    "status-dot offline" "Not Connected" "#DC2626" "none"
    (Popup.hostValue_textContent d) (Popup.portValue_textContent d)
    (Popup.testResults_style_display d) (Popup.testOutput_textContent d).

Definition shown (o : option Background.endpoint) (d : Popup.dom) : Popup.dom :=
  match o with
  | Some ep => shown_online ep d
  | None => shown_offline d
  end.

(** The detect button back to rest. *)
Definition detect_idle (d : Popup.dom) : Popup.dom :=
  Popup.assign (Popup.DetectBtnInnerHTML "🔍 Detect AirNavX")
    (Popup.assign (Popup.DetectBtnDisabled false) d).

(** The test button back to rest, enabled. *)
Definition test_idle (d : Popup.dom) : Popup.dom :=
  Popup.assign (Popup.TestBtnInnerHTML "🧪 Test Connection")
    (Popup.assign (Popup.TestBtnDisabled false) d).

(** The text the test shows for the reply of the worker. *)
Definition test_output (reply : val) : string :=
  if truthy (opt_get reply "success")
  then Popup.success_text
         (or_else (Popup.length_of (opt_get (opt_get reply "data") "results")) (VNum 0))
         (opt_get reply "host") (opt_get reply "port")
  else "❌ Test failed:" +:+ Content.newline +:+ to_string (opt_get reply "error").

(** The page after a test that got [reply]. *)
Definition tested (reply : val) (d : Popup.dom) : Popup.dom :=
  test_idle
    (Popup.assign (Popup.TestOutputText (test_output reply))
       (Popup.assign (Popup.TestResultsDisplay "block") d)).

(** A popup just opened at time [t] on a worker in state [w]: nothing is
    assigned yet. *)
Definition opened (t : Z) (w : Background.vars) : state Popup.world :=
  State t [] [] (Popup.World (Popup.Dom false "" false "" "" "" "" "" "" "" "" "") w).

End PopupSpec.

(** ** The texts callers put into URLs *)

Module UrlSpec.

(** The characters that give a URL its structure: the start of the query
    and of the fragment, the separators of parameters, of names from
    values and of path segments, and the space. *)
Definition is_separator (c : Ascii.ascii) : bool := Url.one_of "?&=#/ " c.

(** The separators of a text, in the order they occur. *)
Definition separators (s : string) : list Ascii.ascii :=
  List.filter is_separator (String.list_ascii_of_string s).

(** The path segments that the URL parser behind [fetch] does not keep as
    they are: the single-dot segments [.] and [%2e], which it drops, and
    the double-dot segments [..], [.%2e], [%2e.] and [%2e%2e], which make
    it drop the segment before them as well ([%2e] in either case). *)
Definition is_dot_segment (segment : string) : bool :=
  existsb (String.eqb segment)
    ["."; "%2e"; "%2E";
     ".."; ".%2e"; ".%2E"; "%2e."; "%2E."; "%2e%2e"; "%2e%2E"; "%2E%2e"; "%2E%2E"].

End UrlSpec.

(** * Properties *)

(** ** Sample runs *)

(** [encodeURIComponent] and the serializer of [URLSearchParams]. *)
Example encodeURIComponent_sample :
  Url.encodeURIComponent "DMC-A320 /x?y=1&z" = "DMC-A320%20%2Fx%3Fy%3D1%26z".
Proof. reflexivity. Qed.

Example search_params_sample :
  Url.search_params
    [("q", VStr "32-11 11"); ("page", VNum 1);
     ("aggregationList", VArr [VStr "ata2"; VStr "actype"]);
     ("queryWithAggregation", VStr "false")]
  = "q=32-11+11&page=1&aggregationList=ata2%2Cactype&queryWithAggregation=false".
Proof. vm_compute. reflexivity. Qed.

(** The service listens on 127.0.0.1:51798: the first probe is refused,
    the second answers, the detection stops there; a second detection
    issues no request. *)
Example detection_scenario :
  fst (Content.detectAirNavX Scenario.on_51798 (VBool false)
         (Scenario.start 1000 Content.init))
  = Ret (Content.found "127.0.0.1" 51798) /\
  map (fun ev => req_url (sent ev))
    (trace (snd (Content.detectAirNavX Scenario.on_51798 (VBool false)
                   (Scenario.start 1000 Content.init))))
  = [Content.testUrl "127.0.0.1" 59720; Content.testUrl "127.0.0.1" 51798] /\
  Content.detectAirNavX Scenario.on_51798 (VBool false)
    (snd (Content.detectAirNavX Scenario.on_51798 (VBool false)
            (Scenario.start 1000 Content.init)))
  = (Ret (Content.found "127.0.0.1" 51798),
     snd (Content.detectAirNavX Scenario.on_51798 (VBool false)
            (Scenario.start 1000 Content.init))).
Proof. vm_compute. repeat split; reflexivity. Qed.

(** The first four GET variants answer 404, the fifth 200 with a JSON
    body: the result names the fifth attempt, and the last two attempts
    are not issued. *)
Example fifth_attempt_scenario :
  fst (Content.fetchContent (Scenario.fifth_route_only "http://127.0.0.1:51798/")
         (VStr "X") (Scenario.start 1000 Content.init))
  = Ret (VObj [("success", VBool true); ("data", VObj [("results", VArr [])]);
               ("method", VStr "GET alternative endpoint")]) /\
  Scenario.statuses_after 2
    (Content.fetchContent (Scenario.fifth_route_only "http://127.0.0.1:51798/")
       (VStr "X") (Scenario.start 1000 Content.init))
  = [404; 404; 404; 404; 200].
Proof. vm_compute. repeat split; reflexivity. Qed.

(** A search through the relay: one response, carrying the request id and
    the service's payload. *)
Example search_scenario :
  outbox (snd (Content.on_message Scenario.on_51798
                 (Scenario.request (VStr "search")
                    (VObj [("query", VStr "32-11-11"); ("page", VNum 1)]) (VNum 1))
                 (Scenario.start 1000 Content.init)))
  = [Content.response_ok (VNum 1)
       (VObj [("success", VBool true); ("data", VObj [("results", VArr [])])])].
Proof. vm_compute. reflexivity. Qed.

(** A call answered after 120 ms: the promise is resolved with the result
    and the timer, 30 s after the call, finds nothing to do. *)
Example reply_scenario :
  Injected.promises
    (local (Injected.run
              [(0, Injected.Call (VStr "detect") (VObj [("detailed", VBool false)]));
               (120, Injected.Message (Scenario.reply_to 1 (Content.found "127.0.0.1" 51798)
                                         VUndef));
               (30000, Injected.Timer 1)]
              (Scenario.start 0 Injected.init)))
  = {[ 1 := Injected.Resolved (Content.found "127.0.0.1" 51798) ]} /\
  Injected.pendingRequests
    (local (Injected.run
              [(0, Injected.Call (VStr "detect") (VObj [("detailed", VBool false)]));
               (120, Injected.Message (Scenario.reply_to 1 (Content.found "127.0.0.1" 51798)
                                         VUndef));
               (30000, Injected.Timer 1)]
              (Scenario.start 0 Injected.init)))
  = ∅.
Proof. split; reflexivity. Qed.

(** A call never answered in time: the timer rejects it, and the reply
    that comes later only earns a warning. *)
Example timeout_scenario :
  Injected.promises
    (local (Injected.run
              [(0, Injected.Call (VStr "detect") (VObj [("detailed", VBool false)]));
               (30000, Injected.Timer 1);
               (31000, Injected.Message (Scenario.reply_to 1 (Content.found "127.0.0.1" 51798)
                                           VUndef))]
              (Scenario.start 0 Injected.init)))
  = {[ 1 := Injected.Rejected (Error "Request timeout") ]} /\
  last (Injected.console
          (local (Injected.run
                    [(0, Injected.Call (VStr "detect") (VObj [("detailed", VBool false)]));
                     (30000, Injected.Timer 1);
                     (31000, Injected.Message
                               (Scenario.reply_to 1 (Content.found "127.0.0.1" 51798) VUndef))]
                    (Scenario.start 0 Injected.init))))
  = Some (Injected.Warn "⚠️ Received response for unknown request:").
Proof. split; reflexivity. Qed.

(** ** The effect monad and the loops *)

Import Trace.

Lemma fetch_step {C} (E : env) (req : request) (d : option Z) (s : state C) :
  exists ev,
    sent ev = req /\ abort_after ev = d /\ at_time ev = clock s /\
    (clock s <= settled_at ev \/ exists n, d = Some n /\ n < 0) /\
    fetch E req d s
    = (match got ev with inl e => Throw e | inr r => Ret r end,
       State (settled_at ev) (trace s ++ [ev]) (outbox s) (local s)).
Proof.
  unfold fetch.
  set (r := net E (clock s) req).
  set (aborted := match d with Some n => n <=? Z.max 0 (latency r) | None => false end).
  set (settled := if aborted then inl AbortError else result r).
  set (t' := if aborted then clock s + default 0 d else clock s + Z.max 0 (latency r)).
  exists (Fetched (clock s) req d t' settled).
  repeat split; try reflexivity.
  - simpl. subst t' aborted. destruct d as [n|]; simpl; [| left; lia].
    destruct (Z.leb_spec n (Z.max 0 (latency r))); [| left; lia].
    destruct (Z.ltb_spec n 0); [right; eauto | left; lia].
  - simpl. destruct settled; reflexivity.
Qed.

Section ForOf.
Context {C A B : Type}.
Implicit Types (body : A -> M C (option B)) (s : state C).

Lemma for_of_app body l1 l2 s :
  for_of (l1 ++ l2) body s
  = match for_of l1 body s with
    | (Ret None, s') => for_of l2 body s'
    | other => other
    end.
Proof.
  revert s. induction l1 as [|x l1 IH]; intros s; simpl.
  - reflexivity.
  - unfold bind. destruct (body x s) as [[[b|]|e] s']; try reflexivity.
    apply IH.
Qed.

Lemma for_of_map {A'} (f : A' -> A) body l s :
  for_of (map f l) body s = for_of l (fun x => body (f x)) s.
Proof.
  revert s. induction l as [|x l IH]; intros s; simpl; [reflexivity|].
  unfold bind. destruct (body (f x) s) as [[[b|]|e] s']; try reflexivity.
  apply IH.
Qed.

End ForOf.

Lemma for_of_nested {C H P B} (hosts : list H) (ports : list P)
    (body : H -> P -> M C (option B)) (s : state C) :
  for_of hosts (fun h => for_of ports (body h)) s
  = for_of (pairs hosts ports) (fun hp => body (fst hp) (snd hp)) s.
Proof.
  revert s. induction hosts as [|h hosts IH]; intros s; simpl; [reflexivity|].
  rewrite for_of_app, for_of_map. simpl. unfold bind at 1.
  destruct (for_of ports (body h) s) as [[[b|]|e] s']; try reflexivity.
  apply IH.
Qed.

(** The generic sweep: a loop whose body issues one request per candidate
    and returns exactly when that request [hit]; a miss leaves the local
    state as [miss_local] says, a hit as [hit_local] says. *)
Section Sweep.
Context {C A B : Type}.
Variables (body : A -> M C (option B)) (req : A -> request) (res : A -> B).
Variable hit : A -> fetch_event -> bool.
Variable hit_local : A -> Z -> C -> C.
Variable kept : C -> C -> Prop.

Hypothesis kept_refl : forall c, kept c c.
Hypothesis kept_trans : forall c1 c2 c3, kept c1 c2 -> kept c2 c3 -> kept c1 c3.

Hypothesis body_step : forall x s, exists ev s',
  trace s' = trace s ++ [ev] /\ sent ev = req x /\ outbox s' = outbox s /\
  clock s <= clock s' /\
  (hit x ev = true /\ body x s = (Ret (Some (res x)), s') /\
     local s' = hit_local x (clock s') (local s)
   \/ hit x ev = false /\ body x s = (Ret None, s') /\ kept (local s) (local s')).

Lemma for_of_swept l s :
  exists evs o s',
    for_of l body s = (Ret (res <$> o), s') /\
    trace s' = trace s ++ evs /\ swept req hit l evs o /\
    outbox s' = outbox s /\ clock s <= clock s' /\
    match o with
    | Some x => exists c, kept (local s) c /\ local s' = hit_local x (clock s') c
    | None => kept (local s) (local s')
    end.
Proof.
  revert s. induction l as [|x l IH]; intros s.
  - exists [], None, s. simpl. rewrite app_nil_r.
    split; [reflexivity|]. split; [reflexivity|]. split; [constructor|].
    split; [reflexivity|]. split; [lia | apply kept_refl].
  - destruct (body_step x s) as (ev & s1 & Htr & Hsent & Hout & Hclk & Hcase).
    destruct Hcase as [(Hok & Hrun & Hloc) | (Hko & Hrun & Hloc)].
    + exists [ev], (Some x), s1. simpl. unfold bind. rewrite Hrun.
      repeat split; auto. constructor; auto. eauto.
    + destruct (IH s1) as (evs & o & s' & Hrun' & Htr' & Hsw & Hout' & Hclk' & Hloc').
      exists (ev :: evs), o, s'. simpl. unfold bind. rewrite Hrun.
      repeat split.
      * exact Hrun'.
      * rewrite Htr', Htr, <- app_assoc. reflexivity.
      * constructor; auto.
      * congruence.
      * lia.
      * destruct o as [y|].
        -- destruct Hloc' as (c & Hk & Hl). exists c. eauto.
        -- eauto.
Qed.

End Sweep.

(** What [swept] says, spelled out. *)
Lemma swept_prefix {A} (req : A -> request) hit l evs o :
  swept req hit l evs o -> map sent evs = map req (take (length evs) l).
Proof.
  induction 1; simpl; [reflexivity | congruence | congruence].
Qed.

Lemma swept_found {A} (req : A -> request) hit l evs x :
  swept req hit l evs (Some x) ->
  exists before after failed ev,
    l = before ++ x :: after /\ evs = failed ++ [ev] /\
    map sent failed = map req before /\
    Forall2 (fun y e => hit y e = false) before failed /\
    sent ev = req x /\ hit x ev = true.
Proof.
  remember (Some x) as o eqn:Ho. induction 1 as [|y rest ev|y rest ev evs o ? ? ? IH].
  - discriminate.
  - injection Ho as ->. exists [], rest, [], ev. simpl. repeat split; auto.
  - destruct (IH Ho) as (before & after & failed & ev' & -> & -> & Hmap & Hall & Hs & Hok).
    exists (y :: before), after, (ev :: failed), ev'. simpl.
    repeat split; auto; congruence.
Qed.

Lemma swept_exhausted {A} (req : A -> request) hit l evs :
  swept req hit l evs None ->
  map sent evs = map req l /\ Forall2 (fun y e => hit y e = false) l evs.
Proof.
  remember None as o eqn:Ho. induction 1 as [| |y rest ev evs o ? ? ? IH].
  - split; [reflexivity | constructor].
  - discriminate.
  - destruct (IH Ho) as [Hmap Hall]. simpl. split; [congruence | constructor; auto].
Qed.

(** ** The detection sweep of the content script *)

Section ContentSweep.
Import ContentSpec.

Variable E : env.

Lemma content_probe_step (hp : string * Z) (s : state Content.vars) : exists ev s',
  trace s' = trace s ++ [ev] /\ sent ev = probe_of hp /\ outbox s' = outbox s /\
  clock s <= clock s' /\
  (hit hp ev = true /\ probe_body E hp s = (Ret (Some (found_of hp)), s') /\
   local s' = (fun x t (_ : Content.vars) => Content.Vars (found_of x) t) hp (clock s') (local s)
   \/
   hit hp ev = false /\ probe_body E hp s = (Ret None, s') /\ local s = local s').
Proof.
  destruct hp as [h p].
  destruct (fetch_step E (Content.probe h p) (Some 2000) s)
    as (ev & Hsent & _ & _ & Hclk & Hrun).
  set (t' := settled_at ev) in *.
  assert (Ht : clock s <= t') by (destruct Hclk as [?|(n & [= <-] & ?)]; lia).
  unfold probe_body, try_catch, Content.probe_try, bind. simpl fst. simpl snd. rewrite Hrun.
  destruct (got ev) as [e|r] eqn:Hgot.
  - exists ev, (State t' (trace s ++ [ev]) (outbox s) (local s)).
    unfold hit, succeeded. rewrite Hgot. simpl. auto 10.
  - destruct (ok r) eqn:Hok.
    + exists ev, (State t' (trace s ++ [ev]) (outbox s)
                    (Content.Vars (Content.found h p) t')).
      unfold hit, succeeded. rewrite Hgot. simpl.
      split; [reflexivity|]. split; [exact Hsent|].
      split; [reflexivity|]. split; [exact Ht|]. left. auto.
    + exists ev, (State t' (trace s ++ [ev]) (outbox s) (local s)).
      unfold hit, succeeded. rewrite Hgot. simpl. auto 10.
Qed.

(** The sweep never throws; its requests follow the candidate list up to
    the first success; the outcome is cached with the time of its end. *)
Lemma content_sweep_spec (s : state Content.vars) : exists evs o s',
  Content.sweep E s = (Ret (result_of o), s') /\
  trace s' = trace s ++ evs /\ swept probe_of hit candidates evs o /\
  outbox s' = outbox s /\ clock s <= clock s' /\
  local s' = Content.Vars (result_of o) (clock s').
Proof.
  unfold Content.sweep, bind. rewrite for_of_nested.
  destruct (for_of_swept (probe_body E) probe_of found_of hit
              (fun x t _ => Content.Vars (found_of x) t) eq
              (fun c => eq_refl) (fun c1 c2 c3 H1 H2 => eq_trans H1 H2)
              content_probe_step candidates s)
    as (evs & o & s1 & Hrun & Htr & Hsw & Hout & Hclk & Hloc).
  fold candidates. change (fun hp => try_catch _ _) with (probe_body E). rewrite Hrun.
  destruct o as [hp|]; simpl.
  - exists evs, (Some hp), s1. destruct Hloc as (c & _ & Hloc). auto 10.
  - exists evs, None,
      (State (clock s1) (trace s1) (outbox s1) (Content.Vars Content.not_found (clock s1))).
    unfold ret, now, set_local, bind. simpl. auto 10.
Qed.

(** The results of a detection are objects, hence truthy. *)
Lemma result_of_truthy o : truthy (result_of o) = true.
Proof. destruct o; reflexivity. Qed.

(** A detection either answers from a valid cache without touching the
    state, or runs the sweep. *)
Lemma content_detect_cases (detailed : val) (s : state Content.vars) :
  Content.detectAirNavX E detailed s
  = if Content.cache_hit (local s) (clock s)
    then (Ret (Content.airnavxCache (local s)), s)
    else Content.sweep E s.
Proof.
  unfold Content.detectAirNavX, bind, now, get_local. simpl.
  destruct (Content.cache_hit (local s) (clock s)); reflexivity.
Qed.

(** After any detection the value returned is the one in the cache. *)
Lemma content_detect_cached (detailed : val) (s : state Content.vars) : exists r s',
  Content.detectAirNavX E detailed s = (Ret r, s') /\
  Content.airnavxCache (local s') = r /\ truthy r = true /\ outbox s' = outbox s.
Proof.
  rewrite content_detect_cases. destruct (Content.cache_hit (local s) (clock s)) eqn:Hhit.
  - exists (Content.airnavxCache (local s)), s. repeat split.
    unfold Content.cache_hit in Hhit. apply andb_prop in Hhit. tauto.
  - destruct (content_sweep_spec s) as (evs & o & s' & Hrun & _ & _ & Hout & _ & Hloc).
    exists (result_of o), s'. rewrite Hloc. simpl.
    repeat split; auto using result_of_truthy.
Qed.

End ContentSweep.

(** ** The detection sweep of the service worker *)

Section BackgroundSweep.
Import BackgroundSpec.

Variable E : env.

Lemma background_probe_step (hp : string * Z) (s : state Background.vars) : exists ev s',
  trace s' = trace s ++ [ev] /\ sent ev = probe_of hp /\ outbox s' = outbox s /\
  clock s <= clock s' /\
  (hit E hp ev = true /\ probe_body E hp s = (Ret (Some (endpoint_of hp)), s') /\
   local s' = hit_local hp (clock s') (local s)
   \/
   hit E hp ev = false /\ probe_body E hp s = (Ret None, s') /\ kept (local s) (local s')).
Proof.
  destruct hp as [h p].
  destruct (fetch_step E (Background.probe h p) (Some Background.DETECTION_TIMEOUT) s)
    as (ev & Hsent & _ & _ & Hclk & Hrun).
  set (t' := settled_at ev) in *.
  assert (Ht : clock s <= t').
  { destruct Hclk as [?|(n & [= <-] & ?)]; [lia|]. unfold Background.DETECTION_TIMEOUT in *. lia. }
  unfold probe_body, try_catch, Background.probe_try, bind. simpl fst. simpl snd. rewrite Hrun.
  destruct (got ev) as [e|r] eqn:Hgot.
  - exists ev, (State t' (trace s ++ [ev]) (outbox s) (local s)).
    unfold hit, succeeded, kept. rewrite Hgot. simpl. auto 10.
  - destruct (ok r) eqn:Hok.
    + unfold Background.storage_local_set, Background.update_badge, bind, now, get_local,
        set_local, ret, throw. simpl.
      destruct (storage_set E t' [("airnavx_host", VStr h); ("airnavx_port", VNum p);
                                  ("last_detection", VNum t')]) as [e|] eqn:Hst.
      * exists ev, (State t' (trace s ++ [ev]) (outbox s)
                      (Background.set_detection (Some (Background.Endpoint h p)) t' (local s))).
        unfold hit, succeeded, kept, items. rewrite Hgot, Hok. simpl. fold t'. rewrite Hst.
        simpl. auto 10.
      * exists ev, (State t' (trace s ++ [ev]) (outbox s) (hit_local (h, p) t' (local s))).
        unfold hit, succeeded, items. rewrite Hgot, Hok. simpl. fold t'. rewrite Hst.
        simpl. split; [reflexivity|]. split; [exact Hsent|].
        split; [reflexivity|]. split; [exact Ht|]. left. auto.
    + exists ev, (State t' (trace s ++ [ev]) (outbox s) (local s)).
      unfold hit, succeeded, kept. rewrite Hgot, Hok. simpl. auto 10.
Qed.

(** The sweep never throws; its requests follow the candidate list up to
    the first hit; the outcome and the time of its end are recorded. *)
Lemma background_sweep_spec (s : state Background.vars) : exists evs o s',
  Background.sweep E s = (Ret (endpoint_of <$> o), s') /\
  trace s' = trace s ++ evs /\ swept probe_of (hit E) candidates evs o /\
  outbox s' = outbox s /\ clock s <= clock s' /\
  Background.detectedAirNavX (local s') = endpoint_of <$> o /\
  Background.lastDetectionTime (local s') = Some (clock s').
Proof.
  unfold Background.sweep, bind. rewrite for_of_nested.
  destruct (for_of_swept (probe_body E) probe_of endpoint_of (hit E) hit_local kept
              (fun c => eq_refl)
              (fun c1 c2 c3 (H1 : kept c1 c2) (H2 : kept c2 c3) => eq_trans H2 H1)
              background_probe_step candidates s)
    as (evs & o & s1 & Hrun & Htr & Hsw & Hout & Hclk & Hloc).
  fold candidates. change (fun hp => try_catch _ _) with (probe_body E). rewrite Hrun.
  destruct o as [hp|]; simpl.
  - exists evs, (Some hp), s1. destruct Hloc as (c & _ & Hloc). rewrite Hloc. simpl. auto 10.
  - exists evs, None,
      (State (clock s1) (trace s1) (outbox s1)
         (Background.set_badge "✗" "#DC2626"
            (Background.set_detection None (clock s1) (local s1)))).
    unfold Background.update_badge, ret, now, set_local, get_local, bind. simpl. auto 10.
Qed.

(** A detection either answers from the cache without touching the state,
    or runs the sweep. *)
Lemma background_detect_cases (forceRefresh : val) (s : state Background.vars) :
  Background.detectAirNavX E forceRefresh s
  = if Background.cache_hit forceRefresh (local s) (clock s)
    then (Ret (Background.detectedAirNavX (local s)), s)
    else Background.sweep E s.
Proof.
  unfold Background.detectAirNavX, bind, now, get_local. simpl.
  destruct (Background.cache_hit forceRefresh (local s) (clock s)); reflexivity.
Qed.

(** Every sweep starts with the first candidate, whatever happens next. *)
Lemma sweep_probes_first (s : state Background.vars) : exists ev evs,
  trace (snd (Background.sweep E s)) = trace s ++ ev :: evs /\
  sent ev = Background.probe "127.0.0.1" 59720.
Proof.
  destruct (background_sweep_spec s) as (evs & o & s' & Hrun & Htr & Hsw & _).
  rewrite Hrun. simpl. rewrite Htr.
  inversion Hsw; subst; eauto.
Qed.

(** *** The pass-through call *)

(** Once the detection has given an endpoint, the call issues exactly one
    request, whatever its outcome. *)
Lemma fetchFromAirNavX_detected (endpointPath : val) (o : Background.options)
    (s s0 : state Background.vars) (ep : Background.endpoint) (url : string) :
  Background.detectAirNavX E (VBool false) s = (Ret (Some ep), s0) ->
  Background.build_url E ep endpointPath (params_of o) = inr url ->
  exists ev,
    sent ev = Request (to_string (method_of o)) url [("Accept", "application/json")]
                (Background.attached_body (method_of o) (body_of o)) /\
    abort_after ev = Some (timeout_of o) /\
    Background.fetchFromAirNavX E endpointPath o s
    = (answer_of ep ev, State (settled_at ev) (trace s0 ++ [ev]) (outbox s0) (local s0)).
Proof.
  intros Hdet Hurl.
  unfold Background.fetchFromAirNavX. unfold bind at 1. rewrite Hdet.
  fold (method_of o) (params_of o) (body_of o) (timeout_of o).
  unfold bind at 1. rewrite Hurl. simpl lift. unfold ret at 1.
  destruct (fetch_step E
              (Request (to_string (method_of o)) url [("Accept", "application/json")]
                 (Background.attached_body (method_of o) (body_of o)))
              (Some (timeout_of o)) s0) as (ev & Hsent & Hab & _ & _ & Hrun).
  exists ev. split; [exact Hsent|]. split; [exact Hab|].
  unfold try_catch, bind. rewrite Hrun. unfold answer_of.
  destruct (got ev) as [e|r].
  - unfold rethrown. destruct (String.eqb (err_name e) "AbortError"); reflexivity.
  - destruct (ok r); simpl; [| reflexivity].
    destruct (json r) as [e|data]; simpl; [| reflexivity].
    unfold rethrown. destruct (String.eqb (err_name e) "AbortError"); reflexivity.
Qed.

(** When the detection finds nothing, the call throws before any request
    of its own. *)
Lemma fetchFromAirNavX_not_detected (endpointPath : val) (o : Background.options)
    (s s0 : state Background.vars) :
  Background.detectAirNavX E (VBool false) s = (Ret None, s0) ->
  Background.fetchFromAirNavX E endpointPath o s
  = (Throw (Error "AirNavX not detected. Please ensure AirNavX is running."), s0).
Proof.
  intros Hdet. unfold Background.fetchFromAirNavX, bind. rewrite Hdet. reflexivity.
Qed.

End BackgroundSweep.

(** ** Discovery: order, short circuit, caching *)

(** X1.  The content script's sweep: the probes follow the candidate list,
    the first 2xx response ends the sweep, and a sweep without any 2xx
    response returns the not-found object instead of throwing. *)
Lemma content_sweep_short_circuit (E : env) (s : state Content.vars) :
  exists evs s',
    trace s' = trace s ++ evs /\
    map sent evs = map ContentSpec.probe_of (take (length evs) ContentSpec.candidates) /\
    ((exists before hp after failed ev,
        ContentSpec.candidates = before ++ hp :: after /\
        evs = failed ++ [ev] /\ length failed = length before /\
        Forall (fun e => succeeded e = false) failed /\
        succeeded ev = true /\ sent ev = ContentSpec.probe_of hp /\
        Content.sweep E s = (Ret (Content.found (fst hp) (snd hp)), s'))
     \/
     (length evs = length ContentSpec.candidates /\
      Forall (fun e => succeeded e = false) evs /\
      Content.sweep E s = (Ret Content.not_found, s'))).
Proof.
  destruct (content_sweep_spec E s) as (evs & o & s' & Hrun & Htr & Hsw & _).
  exists evs, s'. split; [exact Htr|]. split; [eapply swept_prefix; eassumption|].
  destruct o as [hp|].
  - left. apply swept_found in Hsw.
    destruct Hsw as (before & after & failed & ev & Hl & Hevs & Hmap & Hall & Hsent & Hok).
    exists before, hp, after, failed, ev. repeat split; auto.
    + apply (f_equal length) in Hmap. rewrite !length_map in Hmap. exact Hmap.
    + clear -Hall. induction Hall; constructor; auto.
  - right. apply swept_exhausted in Hsw. destruct Hsw as [Hmap Hall]. repeat split.
    + apply (f_equal length) in Hmap. rewrite !length_map in Hmap. exact Hmap.
    + clear -Hall. induction Hall; constructor; auto.
    + exact Hrun.
Qed.

(** The worker's sweep has the same shape, where a probe ends the sweep
    when its response is 2xx and the storage write after it is accepted. *)
Lemma background_sweep_shape (E : env) (s : state Background.vars) :
  exists evs s',
    trace s' = trace s ++ evs /\
    map sent evs = map BackgroundSpec.probe_of (take (length evs) BackgroundSpec.candidates) /\
    ((exists before hp after failed ev,
        BackgroundSpec.candidates = before ++ hp :: after /\
        evs = failed ++ [ev] /\
        Forall2 (fun x e => BackgroundSpec.hit E x e = false) before failed /\
        BackgroundSpec.hit E hp ev = true /\ sent ev = BackgroundSpec.probe_of hp /\
        Background.sweep E s = (Ret (Some (BackgroundSpec.endpoint_of hp)), s'))
     \/
     (length evs = length BackgroundSpec.candidates /\
      Forall2 (fun x e => BackgroundSpec.hit E x e = false) BackgroundSpec.candidates evs /\
      Background.sweep E s = (Ret None, s'))).
Proof.
  destruct (background_sweep_spec E s) as (evs & o & s' & Hrun & Htr & Hsw & _).
  exists evs, s'. split; [exact Htr|]. split; [eapply swept_prefix; eassumption|].
  destruct o as [hp|].
  - left. apply swept_found in Hsw.
    destruct Hsw as (before & after & failed & ev & Hl & Hevs & Hmap & Hall & Hsent & Hok).
    exists before, hp, after, failed, ev. repeat split; auto.
  - right. apply swept_exhausted in Hsw. destruct Hsw as [Hmap Hall]. repeat split; auto.
    apply (f_equal length) in Hmap. rewrite !length_map in Hmap. exact Hmap.
Qed.

(** X2.  With a storage area that accepts every write, the worker's sweep
    ends at the first 2xx response, like the content script's, and a
    sweep without any 2xx response returns [null] instead of throwing. *)
Lemma background_sweep_short_circuit (E : env) (s : state Background.vars) :
  (forall t kv, storage_set E t kv = None) ->
  exists evs s',
    trace s' = trace s ++ evs /\
    map sent evs = map BackgroundSpec.probe_of (take (length evs) BackgroundSpec.candidates) /\
    ((exists before hp after failed ev,
        BackgroundSpec.candidates = before ++ hp :: after /\
        evs = failed ++ [ev] /\ length failed = length before /\
        Forall (fun e => succeeded e = false) failed /\
        succeeded ev = true /\ sent ev = BackgroundSpec.probe_of hp /\
        Background.sweep E s = (Ret (Some (BackgroundSpec.endpoint_of hp)), s'))
     \/
     (length evs = length BackgroundSpec.candidates /\
      Forall (fun e => succeeded e = false) evs /\
      Background.sweep E s = (Ret None, s'))).
Proof.
  intros Hst.
  assert (Hhit : forall x e, BackgroundSpec.hit E x e = succeeded e).
  { intros x e. unfold BackgroundSpec.hit. rewrite Hst.
    rewrite bool_decide_eq_true_2 by reflexivity. apply andb_true_r. }
  destruct (background_sweep_shape E s) as (evs & s' & Htr & Hord & Hcase).
  exists evs, s'. split; [exact Htr|]. split; [exact Hord|].
  destruct Hcase as [(before & hp & after & failed & ev & Hl & Hevs & Hall & Hok & Hsent & Hrun)
                    | (Hlen & Hall & Hrun)].
  - left. exists before, hp, after, failed, ev. rewrite Hhit in Hok.
    repeat split; auto.
    + symmetry. eapply Forall2_length; eassumption.
    + clear -Hall Hhit. induction Hall; constructor; auto. rewrite <- Hhit with (x := x). auto.
  - right. repeat split; auto.
    clear -Hall Hhit. induction Hall; constructor; auto. rewrite <- Hhit with (x := x). auto.
Qed.

(** C8.  At the failing input the service answers 200 on the first pair
    (127.0.0.1:59720) and the storage write of the worker is rejected: the
    sweep does not stop there, it goes through all twelve pairs and
    returns [null], leaving [detectedAirNavX] empty. *)
Theorem background_sweep_resumes_after_storage_rejection :
  fst (Background.detectAirNavX Scenario.storage_down_59720 (VBool false)
         (Scenario.start 1000 Background.init))
  = Ret None /\
  map sent (trace (snd (Background.detectAirNavX Scenario.storage_down_59720 (VBool false)
                          (Scenario.start 1000 Background.init))))
  = map BackgroundSpec.probe_of BackgroundSpec.candidates /\
  map succeeded (trace (snd (Background.detectAirNavX Scenario.storage_down_59720
                               (VBool false) (Scenario.start 1000 Background.init))))
  = [true; false; false; false; false; false; false; false; false; false; false; false] /\
  Background.detectedAirNavX
    (local (snd (Background.detectAirNavX Scenario.storage_down_59720 (VBool false)
                   (Scenario.start 1000 Background.init))))
  = None.
Proof. vm_compute. repeat split; reflexivity. Qed.

(** With a storage area that accepts the writes the same service is found
    at once. *)
Lemma background_sweep_short_circuit_witness :
  (forall t kv, storage_set (Scenario.serving "http://127.0.0.1:59720/") t kv = None) /\
  exists evs s',
    trace s' = trace (Scenario.start 1000 Background.init) ++ evs /\
    map sent evs = map BackgroundSpec.probe_of (take (length evs) BackgroundSpec.candidates) /\
    ((exists before hp after failed ev,
        BackgroundSpec.candidates = before ++ hp :: after /\
        evs = failed ++ [ev] /\ length failed = length before /\
        Forall (fun e => succeeded e = false) failed /\
        succeeded ev = true /\ sent ev = BackgroundSpec.probe_of hp /\
        Background.sweep (Scenario.serving "http://127.0.0.1:59720/")
          (Scenario.start 1000 Background.init)
        = (Ret (Some (BackgroundSpec.endpoint_of hp)), s'))
     \/
     (length evs = length BackgroundSpec.candidates /\
      Forall (fun e => succeeded e = false) evs /\
      Background.sweep (Scenario.serving "http://127.0.0.1:59720/")
        (Scenario.start 1000 Background.init)
      = (Ret None, s'))).
Proof.
  split; [reflexivity|].
  apply (background_sweep_short_circuit (Scenario.serving "http://127.0.0.1:59720/")).
  reflexivity.
Defined.

(** The content script serves any cached outcome, found or not, for 30 s,
    whatever the argument of the call. *)
Lemma content_cache_serves (E : env) (d1 d2 : val) (s : state Content.vars) :
  exists r s1,
    Content.detectAirNavX E d1 s = (Ret r, s1) /\
    forall s2,
      local s2 = local s1 ->
      clock s2 - Content.airnavxCacheTimestamp (local s1) < Content.CACHE_DURATION ->
      Content.detectAirNavX E d2 s2 = (Ret r, s2).
Proof.
  destruct (content_detect_cached E d1 s) as (r & s1 & Hrun & Hcache & Htruthy & _).
  exists r, s1. split; [exact Hrun|]. intros s2 Hloc Hwin.
  rewrite content_detect_cases. unfold Content.cache_hit.
  rewrite Hloc, Hcache, Htruthy. simpl.
  destruct (Z.ltb_spec (clock s2 - Content.airnavxCacheTimestamp (local s1))
              Content.CACHE_DURATION); [reflexivity | lia].
Qed.

(** The worker serves a found endpoint from its cache for five minutes. *)
Lemma background_cache_serves_found (E : env) (f : val) (s s1 : state Background.vars)
    (ep : Background.endpoint) :
  0 < clock s ->
  Background.detectAirNavX E f s = (Ret (Some ep), s1) ->
  exists t,
    Background.lastDetectionTime (local s1) = Some t /\
    forall s2,
      local s2 = local s1 -> clock s2 - t < Background.CACHE_DURATION ->
      Background.detectAirNavX E (VBool false) s2 = (Ret (Some ep), s2).
Proof.
  intros Hpos Hrun. rewrite background_detect_cases in Hrun.
  assert (Hstate : exists t, Background.detectedAirNavX (local s1) = Some ep /\
                             Background.lastDetectionTime (local s1) = Some t /\ t <> 0).
  { destruct (Background.cache_hit f (local s) (clock s)) eqn:Hhit.
    - injection Hrun as Hep <-. unfold Background.cache_hit in Hhit.
      destruct (Background.lastDetectionTime (local s)) as [t|];
        [| rewrite andb_false_r in Hhit; discriminate].
      exists t. split; [exact Hep|]. split; [reflexivity|].
      apply andb_prop in Hhit as [_ Hhit]. apply andb_prop in Hhit as [Hnz _].
      apply negb_true_iff in Hnz. apply Z.eqb_neq in Hnz. exact Hnz.
    - destruct (background_sweep_spec E s)
        as (evs & o & s' & Hsw & _ & _ & _ & Hclk & Hdet & Hlast).
      rewrite Hsw in Hrun. injection Hrun as Ho <-.
      exists (clock s'). rewrite Hdet, Ho. split; [reflexivity|]. split; [exact Hlast | lia]. }
  destruct Hstate as (t & Hdet & Hlast & Hnz). exists t. split; [exact Hlast|].
  intros s2 Hloc Hwin. rewrite background_detect_cases. unfold Background.cache_hit.
  rewrite Hloc, Hdet, Hlast. simpl.
  apply Z.eqb_neq in Hnz. rewrite Hnz. simpl.
  destruct (Z.ltb_spec (clock s2 - t) Background.CACHE_DURATION); [reflexivity | lia].
Qed.

(** The worker never answers from the cache when the last sweep found
    nothing, nor when a refresh is forced. *)
Lemma background_cache_bypassed (E : env) (f : val) (s : state Background.vars) :
  Background.detectedAirNavX (local s) = None \/ truthy f = true ->
  Background.detectAirNavX E f s = Background.sweep E s.
Proof.
  intros H. rewrite background_detect_cases. unfold Background.cache_hit.
  destruct H as [H|H]; rewrite H; simpl.
  - rewrite andb_false_r. reflexivity.
  - reflexivity.
Qed.

(** C2 (amended).  Content script: every outcome, found or not found, is
    cached and a call within the 30 s window does no network I/O, whatever
    its argument (there is no forced refresh).  Worker: a found endpoint
    is served from the cache for five minutes by [probe(false)]; a
    not-found outcome is never served from the cache; [probe(true)] always
    runs the sweep, which probes the first candidate at least. *)
Theorem cache_behaviour (E : env) :
  (forall d1 d2 s, exists r s1,
      Content.detectAirNavX E d1 s = (Ret r, s1) /\
      forall s2,
        local s2 = local s1 ->
        clock s2 - Content.airnavxCacheTimestamp (local s1) < Content.CACHE_DURATION ->
        Content.detectAirNavX E d2 s2 = (Ret r, s2))
  /\
  (forall f s s1 ep,
      0 < clock s ->
      Background.detectAirNavX E f s = (Ret (Some ep), s1) ->
      exists t,
        Background.lastDetectionTime (local s1) = Some t /\
        forall s2,
          local s2 = local s1 -> clock s2 - t < Background.CACHE_DURATION ->
          Background.detectAirNavX E (VBool false) s2 = (Ret (Some ep), s2))
  /\
  (forall f s,
      Background.detectedAirNavX (local s) = None \/ truthy f = true ->
      Background.detectAirNavX E f s = Background.sweep E s /\
      exists ev evs,
        trace (snd (Background.detectAirNavX E f s)) = trace s ++ ev :: evs /\
        sent ev = Background.probe "127.0.0.1" 59720).
Proof.
  split; [| split].
  - intros d1 d2 s. apply content_cache_serves.
  - intros f s s1 ep. apply background_cache_serves_found.
  - intros f s H. pose proof (background_cache_bypassed E f s H) as Heq.
    split; [exact Heq|]. rewrite Heq. apply sweep_probes_first.
Qed.

(** The forced refresh of the worker at a state whose cache is valid: the
    sweep runs all the same. *)
Lemma cache_behaviour_witness :
  Background.cache_hit (VBool false) (local Scenario.worker_cached)
    (clock Scenario.worker_cached) = true /\
  truthy (VBool true) = true /\
  Background.detectAirNavX Scenario.on_51798 (VBool true) Scenario.worker_cached
  = Background.sweep Scenario.on_51798 Scenario.worker_cached /\
  exists ev evs,
    trace (snd (Background.detectAirNavX Scenario.on_51798 (VBool true)
                  Scenario.worker_cached))
    = trace Scenario.worker_cached ++ ev :: evs /\
    sent ev = Background.probe "127.0.0.1" 59720.
Proof.
  split; [reflexivity|]. split; [reflexivity|].
  apply (proj2 (proj2 (cache_behaviour Scenario.on_51798)) (VBool true) Scenario.worker_cached).
  right. reflexivity.
Defined.

(** C2, as stated, fails in the worker: nothing answers, the first
    [probe(false)] sweeps the twelve pairs, returns [null] and records the
    time; a second [probe(false)] at once, well within the five minutes,
    sweeps the twelve pairs again. *)
Lemma not_found_is_not_cached_by_worker :
  fst (Background.detectAirNavX Scenario.silent (VBool false)
         (Scenario.start 1000 Background.init))
  = Ret None /\
  Background.lastDetectionTime
    (local (snd (Background.detectAirNavX Scenario.silent (VBool false)
                   (Scenario.start 1000 Background.init))))
  = Some 1060 /\
  clock (snd (Background.detectAirNavX Scenario.silent (VBool false)
                (Scenario.start 1000 Background.init)))
  = 1060 /\
  length (trace (snd (Background.detectAirNavX Scenario.silent (VBool false)
                        (Scenario.start 1000 Background.init))))
  = 12%nat /\
  length (trace (snd (Background.detectAirNavX Scenario.silent (VBool false)
                        (snd (Background.detectAirNavX Scenario.silent (VBool false)
                                (Scenario.start 1000 Background.init))))))
  = 24%nat.
Proof. vm_compute. repeat split; reflexivity. Qed.

(** The content script has no forced refresh: [detect(true)] right after a
    sweep answers from the cache and leaves the state as it is. *)
Example content_detect_true_uses_cache :
  length (trace (snd (Content.detectAirNavX Scenario.silent (VBool true)
                        (Scenario.start 1000 Content.init))))
  = 14%nat /\
  snd (Content.detectAirNavX Scenario.silent (VBool true)
         (snd (Content.detectAirNavX Scenario.silent (VBool true)
                 (Scenario.start 1000 Content.init))))
  = snd (Content.detectAirNavX Scenario.silent (VBool true)
           (Scenario.start 1000 Content.init)).
Proof. vm_compute. repeat split; reflexivity. Qed.

(** ** The fetch-by-id of the worker *)

(** The worker's fetch-by-id once the detection has given an endpoint:
    one POST, the id and the flags in the query string, the empty object
    as body, no further attempt, and one reply. *)
Lemma background_fetch_by_id_single_request (E : env) (request : val)
    (s s0 : state Background.vars) (ep : Background.endpoint) :
  truthy (opt_get request "dataModuleId") = true ->
  Background.detectAirNavX E (VBool false) s = (Ret (Some ep), s0) ->
  exists ev s' reply,
    Background.handleFetchContent E request s = (Ret tt, s') /\
    trace s' = trace s0 ++ [ev] /\
    outbox s' = outbox s0 ++ [reply] /\
    abort_after ev = Some 30000 /\
    sent ev
    = Request "POST"
        ((Url.origin (VStr (Background.host ep)) (VNum (Background.port ep))
          +:+ "/airnavx/api/dataModule/content") +:+ "?"
         +:+ Url.search_params [("dataModuleId", opt_get request "dataModuleId");
                                ("forHatch", VStr "false"); ("forPrint", VStr "false")])
        [("Accept", "application/json")] (Some (VObj [])).
Proof.
  intros Hid Hdet.
  set (o := Background.Options (VStr "POST")
              (VObj [("dataModuleId", opt_get request "dataModuleId");
                     ("forHatch", VStr "false"); ("forPrint", VStr "false")])
              (VObj []) (Some 30000)).
  destruct (fetchFromAirNavX_detected E
              (VStr "/airnavx/api/dataModule/content") o s s0 ep _ Hdet eq_refl)
    as (ev & Hsent & Hab & Hrun).
  unfold Background.handleFetchContent, try_catch, bind. rewrite Hid. cbn [negb]. cbv beta iota.
  fold o. rewrite Hrun.
  destruct (BackgroundSpec.answer_of ep ev) as [res|e].
  - eexists ev, (State _ _ _ _), res. split; [reflexivity|]. simpl.
    rewrite Hsent, Hab. auto.
  - eexists ev, (State _ _ _ _), (Background.failure (err_message e)).
    split; [reflexivity|]. simpl. rewrite Hsent, Hab. auto.
Qed.

(** ** The pass-through call *)

Lemma is_str_eq (v : val) (s : string) : is_str v s = true <-> v = VStr s.
Proof.
  destruct v; simpl; try (split; [discriminate | intros [=]]).
  rewrite String.eqb_eq. split; [intros -> | intros [= ->]]; reflexivity.
Qed.

(** The body is attached exactly when it is truthy and the method is the
    string POST or PUT. *)
Lemma attached_body_iff (method body b : val) :
  Background.attached_body method body = Some b
  <-> b = body /\ truthy body = true /\ (method = VStr "POST" \/ method = VStr "PUT").
Proof.
  unfold Background.attached_body. rewrite <- !is_str_eq.
  destruct (truthy body), (is_str method "POST"), (is_str method "PUT"); simpl;
    split; try discriminate; try (intros [= <-]; auto);
    intros (-> & ? & [?|?]); auto; discriminate.
Qed.

(** C7 (amended).  Once the detection has given an endpoint, the
    pass-through call issues exactly one request: its URL is the
    endpoint's origin followed by the path and, when the parameter object
    has at least one key, by [?] and the encoded parameters; its body is
    the given value exactly when that value is truthy and the method is
    POST or PUT.  An empty object is truthy, so it is attached. *)
Theorem pass_through_request (E : env) (endpointPath : val) (o : Background.options)
    (s s0 : state Background.vars) (ep : Background.endpoint)
    (fields : list (string * val)) :
  Background.detectAirNavX E (VBool false) s = (Ret (Some ep), s0) ->
  BackgroundSpec.params_of o = VObj fields ->
  exists ev,
    trace (snd (Background.fetchFromAirNavX E endpointPath o s)) = trace s0 ++ [ev] /\
    req_method (sent ev) = to_string (BackgroundSpec.method_of o) /\
    req_url (sent ev)
    = (let url := Url.origin (VStr (Background.host ep)) (VNum (Background.port ep))
                  +:+ to_string endpointPath in
       match fields with
       | [] => url
       | _ :: _ => url +:+ "?" +:+ Url.search_params fields
       end) /\
    (forall b,
        req_body (sent ev) = Some b
        <-> b = BackgroundSpec.body_of o /\ truthy (BackgroundSpec.body_of o) = true /\
            (BackgroundSpec.method_of o = VStr "POST"
             \/ BackgroundSpec.method_of o = VStr "PUT")) /\
    (BackgroundSpec.body_of o = VObj [] ->
     BackgroundSpec.method_of o = VStr "POST" ->
     req_body (sent ev) = Some (VObj [])).
Proof.
  intros Hdet Hparams.
  assert (Hurl : exists url,
             Background.build_url E ep endpointPath (BackgroundSpec.params_of o) = inr url /\
             url = match fields with
                   | [] => Url.origin (VStr (Background.host ep)) (VNum (Background.port ep))
                           +:+ to_string endpointPath
                   | _ :: _ => (Url.origin (VStr (Background.host ep))
                                  (VNum (Background.port ep))
                                +:+ to_string endpointPath)
                               +:+ "?" +:+ Url.search_params fields
                   end).
  { rewrite Hparams. unfold Background.build_url. destruct fields as [|kv rest].
    - eexists. split; reflexivity.
    - eexists. split; [| reflexivity]. simpl keys_length.
      destruct (Z.ltb_spec 0 (Z.of_nat (length (kv :: rest)))); [reflexivity|].
      simpl in *. lia. }
  destruct Hurl as (url & Hbuild & Hshape).
  destruct (fetchFromAirNavX_detected E endpointPath o s s0 ep url Hdet Hbuild)
    as (ev & Hsent & _ & Hrun).
  exists ev. rewrite Hrun, Hsent. simpl.
  split; [reflexivity|]. split; [reflexivity|]. split; [exact Hshape|].
  split; [intros b; apply attached_body_iff|].
  intros -> ->. reflexivity.
Qed.

(** The worker's own fetch-by-id options, with 127.0.0.1:51798 cached. *)
Lemma pass_through_request_witness :
  Background.detectAirNavX Scenario.on_51798 (VBool false) Scenario.worker_cached
  = (Ret (Some (Background.Endpoint "127.0.0.1" 51798)), Scenario.worker_cached) /\
  exists ev,
    trace (snd (Background.fetchFromAirNavX Scenario.on_51798
                  (VStr "/airnavx/api/dataModule/content")
                  (Background.Options (VStr "POST")
                     (VObj [("dataModuleId", VStr "DMC X/1")]) (VObj []) None)
                  Scenario.worker_cached))
    = trace Scenario.worker_cached ++ [ev] /\
    req_method (sent ev) = "POST" /\
    req_url (sent ev)
    = "http://127.0.0.1:51798/airnavx/api/dataModule/content?dataModuleId=DMC+X%2F1" /\
    req_body (sent ev) = Some (VObj []).
Proof.
  split; [reflexivity|].
  destruct (pass_through_request Scenario.on_51798 (VStr "/airnavx/api/dataModule/content")
              (Background.Options (VStr "POST") (VObj [("dataModuleId", VStr "DMC X/1")])
                 (VObj []) None)
              Scenario.worker_cached Scenario.worker_cached
              (Background.Endpoint "127.0.0.1" 51798)
              [("dataModuleId", VStr "DMC X/1")] eq_refl eq_refl)
    as (ev & Htr & Hm & Hurl & _ & Hbody).
  exists ev. split; [exact Htr|]. split; [exact Hm|]. split; [exact Hurl|].
  apply Hbody; reflexivity.
Defined.

(** C7, as stated, fails: the worker's fetch-by-id passes the empty object
    as body, and the one content request it issues carries it (as the text
    of the empty object), although that body has no key. *)
Lemma empty_body_is_attached :
  map req_body
    (map sent
       (drop 2 (trace (snd (Background.on_message Scenario.on_51798 Scenario.fetch_request
                              (Scenario.start 1000 Background.init))))))
  = [Some (VObj [])] /\
  keys_length (VObj []) = 0 /\
  Background.attached_body (VStr "POST") (VObj []) = Some (VObj []).
Proof. vm_compute. repeat split; reflexivity. Qed.

(** ** The fallback attempts *)

Section Attempts.
Import AttemptSpec.

Variable E : env.

Lemma attempt_step (a : attempt) (s : state Content.vars) : exists ev,
  sent ev = Content.attempt_request a /\ abort_after ev = Some 10000 /\
  try_catch (Content.attempt_try E a) (Content.attempt_catch a) s
  = (Ret (match payload ev with
          | Some data => inl (success a data)
          | None => inr (Content.error_line a (reason ev))
          end),
     State (settled_at ev) (trace s ++ [ev]) (outbox s) (local s)).
Proof.
  destruct (fetch_step E (Content.attempt_request a) (Some 10000) s)
    as (ev & Hsent & Hab & _ & _ & Hrun).
  exists ev. split; [exact Hsent|]. split; [exact Hab|].
  unfold try_catch, Content.attempt_try, Content.attempt_catch, bind. rewrite Hrun.
  unfold payload, reason. destruct (got ev) as [e|r]; [reflexivity|].
  destruct (ok r); [| reflexivity].
  destruct (Content.read_body r) as [e|data]; reflexivity.
Qed.

(** The loop of the content script: the requests follow the list up to
    the first attempt that delivers; the result is that attempt's payload
    under its name, or one line per attempt, in order. *)
Lemma walk_spec (l : list attempt) (errors : list string) (s : state Content.vars) :
  exists evs o s' res,
    Content.walk E l errors s = (Ret res, s') /\
    trace s' = trace s ++ evs /\ outbox s' = outbox s /\ local s' = local s /\
    swept Content.attempt_request delivered l evs o /\
    match o with
    | Some a => exists ev data,
        last evs = Some ev /\ payload ev = Some data /\ res = inl (success a data)
    | None => res = inr (errors ++ zip_with Content.error_line l (map reason evs))
    end.
Proof.
  revert errors s. induction l as [|a rest IH]; intros errors s.
  - exists [], None, s, (inr errors). simpl. rewrite !app_nil_r.
    repeat split; constructor.
  - destruct (attempt_step a s) as (ev & Hsent & _ & Hrun).
    simpl. unfold bind. rewrite Hrun.
    destruct (payload ev) as [data|] eqn:Hpay.
    + eexists [ev], (Some a), (State _ _ _ _), _. split; [reflexivity|]. simpl.
      repeat split.
      * constructor; [exact Hsent|]. unfold delivered. rewrite Hpay.
        apply bool_decide_eq_true_2. eauto.
      * exists ev, data. auto.
    + destruct (IH (errors ++ [Content.error_line a (reason ev)])
                  (State (settled_at ev) (trace s ++ [ev]) (outbox s) (local s)))
        as (evs & o & s' & res & Hrun' & Htr & Hout & Hloc & Hsw & Hres).
      exists (ev :: evs), o, s', res. split; [exact Hrun'|].
      simpl in Htr, Hout, Hloc. rewrite <- app_assoc in Htr.
      split; [exact Htr|]. split; [exact Hout|]. split; [exact Hloc|].
      split.
      * constructor; [exact Hsent | | exact Hsw]. unfold delivered. rewrite Hpay.
        apply bool_decide_eq_false_2. intros [x Hx]. discriminate.
      * destruct o as [b|].
        -- destruct Hres as (ev' & data & Hlast & Hp & Hr). exists ev', data.
           split; [| auto]. rewrite last_cons, Hlast. reflexivity.
        -- rewrite Hres. simpl. rewrite <- app_assoc. reflexivity.
Qed.

Lemma attempt_step_old (a : attempt) (s : state unit) : exists ev,
  sent ev = ContentOld.attempt_request a /\ abort_after ev = None /\
  try_catch (ContentOld.attempt_try E a) (fun e => ret (inr e)) s
  = (Ret (match payload_old ev with
          | Some data => inl (success_old data)
          | None => inr (error_old ev)
          end),
     State (settled_at ev) (trace s ++ [ev]) (outbox s) (local s)).
Proof.
  destruct (fetch_step E (ContentOld.attempt_request a) None s)
    as (ev & Hsent & Hab & _ & _ & Hrun).
  exists ev. split; [exact Hsent|]. split; [exact Hab|].
  unfold try_catch, ContentOld.attempt_try, bind. rewrite Hrun.
  unfold payload_old, error_old. destruct (got ev) as [e|r]; [reflexivity|].
  destruct (ok r); [| reflexivity].
  destruct (json r) as [e|data]; reflexivity.
Qed.

(** The loop of the earlier script: same order and short circuit, but
    only the error of the last attempt survives. *)
Lemma walk_old_spec (l : list attempt) (lastError : option error) (s : state unit) :
  exists evs o s' res,
    ContentOld.walk E l lastError s = (Ret res, s') /\
    trace s' = trace s ++ evs /\ outbox s' = outbox s /\
    swept ContentOld.attempt_request delivered_old l evs o /\
    match o with
    | Some a => exists ev data,
        last evs = Some ev /\ payload_old ev = Some data /\ res = inl (success_old data)
    | None => res = inr (match last evs with
                         | Some ev => Some (error_old ev)
                         | None => lastError
                         end)
    end.
Proof.
  revert lastError s. induction l as [|a rest IH]; intros lastError s.
  - exists [], None, s, (inr lastError). simpl. rewrite !app_nil_r.
    repeat split; constructor.
  - destruct (attempt_step_old a s) as (ev & Hsent & _ & Hrun).
    simpl. unfold bind. rewrite Hrun.
    destruct (payload_old ev) as [data|] eqn:Hpay.
    + eexists [ev], (Some a), (State _ _ _ _), _. split; [reflexivity|]. simpl.
      repeat split.
      * constructor; [exact Hsent|]. unfold delivered_old. rewrite Hpay.
        apply bool_decide_eq_true_2. eauto.
      * exists ev, data. auto.
    + destruct (IH (Some (error_old ev))
                  (State (settled_at ev) (trace s ++ [ev]) (outbox s) (local s)))
        as (evs & o & s' & res & Hrun' & Htr & Hout & Hsw & Hres).
      exists (ev :: evs), o, s', res. split; [exact Hrun'|].
      simpl in Htr, Hout. rewrite <- app_assoc in Htr.
      split; [exact Htr|]. split; [exact Hout|].
      split.
      * constructor; [exact Hsent | | exact Hsw]. unfold delivered_old. rewrite Hpay.
        apply bool_decide_eq_false_2. intros [x Hx]. discriminate.
      * destruct o as [b|].
        -- destruct Hres as (ev' & data & Hlast & Hp & Hr). exists ev', data.
           split; [| auto]. rewrite last_cons, Hlast. reflexivity.
        -- rewrite Hres. rewrite last_cons. destruct (last evs); reflexivity.
Qed.

End Attempts.

(** How [fetchContent] uses its loop once the detection has succeeded. *)
Lemma fetchContent_after_detection (E : env) (id d : val) (s s0 : state Content.vars) :
  truthy id = true ->
  Content.detectAirNavX E (VBool false) s = (Ret d, s0) ->
  truthy (opt_get d "success") = true ->
  Content.fetchContent E id s
  = match Content.walk E (Content.attempts (opt_get d "host") (opt_get d "port") id) [] s0 with
    | (Ret (inl result), s') => (Ret result, s')
    | (Ret (inr errors), s') => (Throw (Content.detailedError 7 errors), s')
    | (Throw e, s') => (Throw e, s')
    end.
Proof.
  intros Hid Hdet Hok. unfold Content.fetchContent. rewrite Hid. cbn [negb]. cbv beta iota.
  unfold bind at 1. rewrite Hdet, Hok. cbn [negb]. cbv beta iota.
  unfold bind.
  destruct (Content.walk E _ [] s0) as [[[r|errors]|e] s']; reflexivity.
Qed.

Lemma fetchContent_old_after_detection (E : env) (id d : val) (s s0 : state unit) :
  truthy id = true ->
  ContentOld.detectAirNavX E (VBool false) s = (Ret d, s0) ->
  truthy (opt_get d "success") = true ->
  ContentOld.fetchContent E id s
  = match ContentOld.walk E (ContentOld.attempts (opt_get d "host") (opt_get d "port") id)
            None s0 with
    | (Ret (inl result), s') => (Ret result, s')
    | (Ret (inr lastError), s') =>
        (Throw (default (Error "Failed to fetch content") lastError), s')
    | (Throw e, s') => (Throw e, s')
    end.
Proof.
  intros Hid Hdet Hok. unfold ContentOld.fetchContent. rewrite Hid. cbn [negb]. cbv beta iota.
  unfold bind at 1. rewrite Hdet, Hok. cbn [negb]. cbv beta iota.
  unfold bind.
  destruct (ContentOld.walk E _ None s0) as [[[r|errors]|e] s']; reflexivity.
Qed.

Lemma Forall2_false_Forall {A} (hit : A -> fetch_event -> bool) (P : fetch_event -> Prop)
    (l : list A) (evs : list fetch_event) :
  (forall x e, hit x e = false -> P e) ->
  Forall2 (fun x e => hit x e = false) l evs -> Forall P evs.
Proof. intros H. induction 1; constructor; eauto. Qed.

Lemma not_delivered (a : attempt) (ev : fetch_event) :
  AttemptSpec.delivered a ev = false -> AttemptSpec.payload ev = None.
Proof.
  unfold AttemptSpec.delivered. intros H. apply bool_decide_eq_false_1 in H.
  destruct (AttemptSpec.payload ev); [exfalso; eauto | reflexivity].
Qed.

Lemma not_delivered_old (a : attempt) (ev : fetch_event) :
  AttemptSpec.delivered_old a ev = false -> AttemptSpec.payload_old ev = None.
Proof.
  unfold AttemptSpec.delivered_old. intros H. apply bool_decide_eq_false_1 in H.
  destruct (AttemptSpec.payload_old ev); [exfalso; eauto | reflexivity].
Qed.

(** C3 (amended).  In both content scripts the loop over [n] attempts
    stops at the first attempt that delivers a payload: the requests
    issued are those of attempts [1..k] and none of [k+1..n].  When no
    attempt delivers, the current script ends with one [name: reason]
    line per attempt, [n] lines in attempt order, which [fetchContent]
    throws as one aggregate error; the earlier script ends with the error
    of the last attempt alone. *)
Theorem fallback_walk (E : env) (l : list attempt) :
  (forall s, exists evs s',
      trace s' = trace s ++ evs /\
      ((exists before a after failed ev data,
          l = before ++ a :: after /\ evs = failed ++ [ev] /\
          map sent evs = map Content.attempt_request (before ++ [a]) /\
          Forall (fun e => AttemptSpec.payload e = None) failed /\
          AttemptSpec.payload ev = Some data /\
          Content.walk E l [] s = (Ret (inl (AttemptSpec.success a data)), s'))
       \/
       (map sent evs = map Content.attempt_request l /\
        Forall (fun e => AttemptSpec.payload e = None) evs /\
        length (zip_with Content.error_line l (map AttemptSpec.reason evs)) = length l /\
        Content.walk E l [] s
        = (Ret (inr (zip_with Content.error_line l (map AttemptSpec.reason evs))), s'))))
  /\
  (forall id d s s0,
      truthy id = true ->
      Content.detectAirNavX E (VBool false) s = (Ret d, s0) ->
      truthy (opt_get d "success") = true ->
      forall errors s',
        Content.walk E (Content.attempts (opt_get d "host") (opt_get d "port") id) [] s0
        = (Ret (inr errors), s') ->
        Content.fetchContent E id s = (Throw (Content.detailedError 7 errors), s'))
  /\
  (forall s, exists evs s',
      trace s' = trace s ++ evs /\
      ((exists before a after failed ev data,
          l = before ++ a :: after /\ evs = failed ++ [ev] /\
          map sent evs = map ContentOld.attempt_request (before ++ [a]) /\
          Forall (fun e => AttemptSpec.payload_old e = None) failed /\
          AttemptSpec.payload_old ev = Some data /\
          ContentOld.walk E l None s = (Ret (inl (AttemptSpec.success_old data)), s'))
       \/
       (map sent evs = map ContentOld.attempt_request l /\
        Forall (fun e => AttemptSpec.payload_old e = None) evs /\
        ContentOld.walk E l None s
        = (Ret (inr (AttemptSpec.error_old <$> last evs)), s'))))
  /\
  (forall id d s s0,
      truthy id = true ->
      ContentOld.detectAirNavX E (VBool false) s = (Ret d, s0) ->
      truthy (opt_get d "success") = true ->
      forall lastError s',
        ContentOld.walk E (ContentOld.attempts (opt_get d "host") (opt_get d "port") id)
          None s0
        = (Ret (inr (Some lastError)), s') ->
        ContentOld.fetchContent E id s = (Throw lastError, s')).
Proof.
  split; [| split; [| split]].
  - intros s.
    destruct (walk_spec E l [] s)
      as (evs & o & s' & res & Hrun & Htr & _ & _ & Hsw & Hres).
    exists evs, s'. split; [exact Htr|].
    destruct o as [a|].
    + left. destruct Hres as (ev & data & Hlast & Hpay & ->).
      apply swept_found in Hsw.
      destruct Hsw as (before & after & failed & ev' & Hl & Hevs & Hmap & Hall & Hsent & _).
      assert (ev' = ev) as ->.
      { rewrite Hevs, last_snoc in Hlast. congruence. }
      exists before, a, after, failed, ev, data.
      split; [exact Hl|]. split; [exact Hevs|]. split.
      { rewrite Hevs, !map_app. simpl. congruence. }
      split; [| auto].
      eapply Forall2_false_Forall; [| exact Hall]. apply not_delivered.
    + right. apply swept_exhausted in Hsw. destruct Hsw as [Hmap Hall].
      split; [exact Hmap|]. split.
      { eapply Forall2_false_Forall; [| exact Hall]. apply not_delivered. }
      split; [| rewrite Hrun, Hres; reflexivity].
      apply (f_equal length) in Hmap. rewrite !length_map in Hmap.
      rewrite length_zip_with, length_map. lia.
  - intros id d s s0 Hid Hdet Hok errors s' Hwalk.
    rewrite (fetchContent_after_detection E id d s s0 Hid Hdet Hok), Hwalk. reflexivity.
  - intros s.
    destruct (walk_old_spec E l None s)
      as (evs & o & s' & res & Hrun & Htr & _ & Hsw & Hres).
    exists evs, s'. split; [exact Htr|].
    destruct o as [a|].
    + left. destruct Hres as (ev & data & Hlast & Hpay & ->).
      apply swept_found in Hsw.
      destruct Hsw as (before & after & failed & ev' & Hl & Hevs & Hmap & Hall & Hsent & _).
      assert (ev' = ev) as ->.
      { rewrite Hevs, last_snoc in Hlast. congruence. }
      exists before, a, after, failed, ev, data.
      split; [exact Hl|]. split; [exact Hevs|]. split.
      { rewrite Hevs, !map_app. simpl. congruence. }
      split; [| auto].
      eapply Forall2_false_Forall; [| exact Hall]. apply not_delivered_old.
    + right. apply swept_exhausted in Hsw. destruct Hsw as [Hmap Hall].
      split; [exact Hmap|]. split.
      { eapply Forall2_false_Forall; [| exact Hall]. apply not_delivered_old. }
      rewrite Hrun, Hres. destruct (last evs); reflexivity.
  - intros id d s s0 Hid Hdet Hok lastError s' Hwalk.
    rewrite (fetchContent_old_after_detection E id d s s0 Hid Hdet Hok), Hwalk. reflexivity.
Qed.

(** The content script against a service that refuses every content route:
    the aggregate error of the seven attempts. *)
Lemma fallback_walk_witness :
  truthy (VStr "DMC X/1") = true /\
  fst (Content.fetchContent Scenario.rejecting_51798 (VStr "DMC X/1")
         (Scenario.start 1000 Content.init))
  = Throw (Content.detailedError 7
             ["GET with dataModuleId param: HTTP 404: Not Found";
              "GET with all params: HTTP 404: Not Found";
              "GET with dmCode param: HTTP 404: Not Found";
              "GET with id param: HTTP 404: Not Found";
              "GET alternative endpoint: HTTP 404: Not Found";
              "GET viewer endpoint: HTTP 404: Not Found";
              "POST with JSON body: HTTP 405: Method Not Allowed"]).
Proof.
  split; [reflexivity|].
  destruct (fallback_walk Scenario.rejecting_51798 []) as (_ & H & _ & _).
  rewrite (H (VStr "DMC X/1") (Content.found "127.0.0.1" 51798)
             (Scenario.start 1000 Content.init)
             (snd (Content.detectAirNavX Scenario.rejecting_51798 (VBool false)
                     (Scenario.start 1000 Content.init)))
             eq_refl eq_refl eq_refl
             ["GET with dataModuleId param: HTTP 404: Not Found";
              "GET with all params: HTTP 404: Not Found";
              "GET with dmCode param: HTTP 404: Not Found";
              "GET with id param: HTTP 404: Not Found";
              "GET alternative endpoint: HTTP 404: Not Found";
              "GET viewer endpoint: HTTP 404: Not Found";
              "POST with JSON body: HTTP 405: Method Not Allowed"]
             (snd (Content.walk Scenario.rejecting_51798
                     (Content.attempts (VStr "127.0.0.1") (VNum 51798) (VStr "DMC X/1")) []
                     (snd (Content.detectAirNavX Scenario.rejecting_51798 (VBool false)
                             (Scenario.start 1000 Content.init)))))
             eq_refl).
  reflexivity.
Defined.

(** C3, as stated, fails in the earlier content script: its three attempts
    are answered 405, 405 and 404, and the error thrown is the last one
    alone. *)
Lemma old_script_keeps_last_error_only :
  Scenario.statuses_after 2
    (ContentOld.fetchContent Scenario.rejecting_51798 (VStr "DMC X/1")
       (Scenario.start 1000 tt))
  = [405; 405; 404] /\
  fst (ContentOld.fetchContent Scenario.rejecting_51798 (VStr "DMC X/1")
         (Scenario.start 1000 tt))
  = Throw (Error "HTTP 404: Not Found").
Proof. vm_compute. repeat split; reflexivity. Qed.

(** C4 (amended).  The current content script tries, in this order: GET
    with the id under [dataModuleId]; the same with the two flags; GET
    under [dmCode]; GET under [id]; GET with the id as a path segment of
    [/api/content/]; GET on the viewer route; POST with a JSON body holding
    the id and the two flags.  Whatever the network does, the requests of a
    fetch-by-id after the detection are an initial part of that list.
    The earlier content script tries POST with the JSON body, then POST
    with the id and the flags in the query and no body, then GET with the
    id under [dataModuleId]. *)
Theorem attempt_order (E : env) (id : val) :
  (forall h p,
      map Content.attempt_request (Content.attempts h p id)
      = AttemptSpec.listed_requests (Url.origin h p) (Url.encodeURIComponent (to_string id)) id /\
      map a_name (Content.attempts h p id)
      = [VStr "GET with dataModuleId param"; VStr "GET with all params";
         VStr "GET with dmCode param"; VStr "GET with id param";
         VStr "GET alternative endpoint"; VStr "GET viewer endpoint";
         VStr "POST with JSON body"])
  /\
  (forall d s s0,
      truthy id = true ->
      Content.detectAirNavX E (VBool false) s = (Ret d, s0) ->
      truthy (opt_get d "success") = true ->
      exists evs,
        trace (snd (Content.fetchContent E id s)) = trace s0 ++ evs /\
        map sent evs
        = take (length evs)
            (AttemptSpec.listed_requests (Url.origin (opt_get d "host") (opt_get d "port"))
               (Url.encodeURIComponent (to_string id)) id))
  /\
  (forall h p,
      map ContentOld.attempt_request (ContentOld.attempts h p id)
      = AttemptSpec.listed_requests_old (Url.origin h p) (Url.encodeURIComponent (to_string id)) id)
  /\
  (forall d s s0,
      truthy id = true ->
      ContentOld.detectAirNavX E (VBool false) s = (Ret d, s0) ->
      truthy (opt_get d "success") = true ->
      exists evs,
        trace (snd (ContentOld.fetchContent E id s)) = trace s0 ++ evs /\
        map sent evs
        = take (length evs)
            (AttemptSpec.listed_requests_old (Url.origin (opt_get d "host") (opt_get d "port"))
               (Url.encodeURIComponent (to_string id)) id)).
Proof.
  split; [| split; [| split]].
  - intros h p. split; reflexivity.
  - intros d s s0 Hid Hdet Hok.
    rewrite (fetchContent_after_detection E id d s s0 Hid Hdet Hok).
    destruct (walk_spec E
                (Content.attempts (opt_get d "host") (opt_get d "port") id) [] s0)
      as (evs & o & s' & res & Hrun & Htr & _ & _ & Hsw & _).
    exists evs. rewrite Hrun. split.
    + destruct res; exact Htr.
    + apply swept_prefix in Hsw. rewrite Hsw, <- firstn_map. reflexivity.
  - intros h p. reflexivity.
  - intros d s s0 Hid Hdet Hok.
    rewrite (fetchContent_old_after_detection E id d s s0 Hid Hdet Hok).
    destruct (walk_old_spec E
                (ContentOld.attempts (opt_get d "host") (opt_get d "port") id) None s0)
      as (evs & o & s' & res & Hrun & Htr & _ & Hsw & _).
    exists evs. rewrite Hrun. split.
    + destruct res; exact Htr.
    + apply swept_prefix in Hsw. rewrite Hsw, <- firstn_map. reflexivity.
Qed.

(** The requests of the content script against a service that refuses
    every content route. *)
Lemma attempt_order_witness :
  truthy (VStr "DMC X/1") = true /\
  exists evs,
    trace (snd (Content.fetchContent Scenario.rejecting_51798 (VStr "DMC X/1")
                  (Scenario.start 1000 Content.init)))
    = trace (snd (Content.detectAirNavX Scenario.rejecting_51798 (VBool false)
                    (Scenario.start 1000 Content.init))) ++ evs /\
    map sent evs
    = take (length evs)
        (AttemptSpec.listed_requests "http://127.0.0.1:51798" "DMC%20X%2F1"
           (VStr "DMC X/1")).
Proof.
  split; [reflexivity|].
  destruct (attempt_order Scenario.rejecting_51798 (VStr "DMC X/1")) as (_ & H & _).
  apply (H (Content.found "127.0.0.1" 51798) (Scenario.start 1000 Content.init)
           (snd (Content.detectAirNavX Scenario.rejecting_51798 (VBool false)
                   (Scenario.start 1000 Content.init)))
           eq_refl eq_refl eq_refl).
Defined.

(** C4, as stated, fails in the earlier content script: after its two
    probes it tries POST, POST, GET, the POST with the JSON body first. *)
Lemma old_script_posts_first :
  Scenario.requests_after 2
    (ContentOld.fetchContent Scenario.rejecting_51798 (VStr "DMC X/1")
       (Scenario.start 1000 tt))
  = AttemptSpec.listed_requests_old "http://127.0.0.1:51798" "DMC%20X%2F1" (VStr "DMC X/1") /\
  map req_method
    (AttemptSpec.listed_requests_old "http://127.0.0.1:51798" "DMC%20X%2F1" (VStr "DMC X/1"))
  = ["POST"; "POST"; "GET"].
Proof. vm_compute. repeat split; reflexivity. Qed.

(** ** The two paths compared *)

(** C1 (amended).  Both paths sweep the hosts 127.0.0.1 then localhost
    with the same probe request, in list order, starting with
    127.0.0.1:59720 and stopping at the first probe that ends the sweep;
    the worker's port list is the content script's without 51800; the
    cache windows are 30 s and 5 min.  For fetch-by-id the content script,
    once its detection has succeeded, walks its list of seven attempts in
    order up to the first one that delivers a payload.  The worker does
    not walk an attempt list: once its detection has given an endpoint it
    issues exactly one request, a POST of the content route with the id
    and the two flags in the query string and the empty object as body,
    and sends one reply. *)
Theorem relay_and_coordinator_compared (E : env) :
  Background.AIRNAVX_HOSTS = Content.hostsToTest /\
  Background.AIRNAVX_CANDIDATE_PORTS
  = filter (fun p => p <> 51800) Content.candidatePorts /\
  (forall h p, Background.probe h p = Content.probe h p) /\
  (forall s, exists evs o s',
      Content.sweep E s = (Ret (ContentSpec.result_of o), s') /\
      trace s' = trace s ++ evs /\
      swept ContentSpec.probe_of ContentSpec.hit ContentSpec.candidates evs o /\
      exists ev rest, evs = ev :: rest /\ sent ev = Content.probe "127.0.0.1" 59720) /\
  (forall s, exists evs o s',
      Background.sweep E s = (Ret (BackgroundSpec.endpoint_of <$> o), s') /\
      trace s' = trace s ++ evs /\
      swept BackgroundSpec.probe_of (BackgroundSpec.hit E) BackgroundSpec.candidates evs o /\
      exists ev rest, evs = ev :: rest /\ sent ev = Background.probe "127.0.0.1" 59720) /\
  Content.CACHE_DURATION = 30000 /\ Background.CACHE_DURATION = 300000 /\
  (forall id d s s0,
      truthy id = true ->
      Content.detectAirNavX E (VBool false) s = (Ret d, s0) ->
      truthy (opt_get d "success") = true ->
      exists evs o,
        trace (snd (Content.fetchContent E id s)) = trace s0 ++ evs /\
        swept Content.attempt_request AttemptSpec.delivered
          (Content.attempts (opt_get d "host") (opt_get d "port") id) evs o /\
        map Content.attempt_request
          (Content.attempts (opt_get d "host") (opt_get d "port") id)
        = AttemptSpec.listed_requests (Url.origin (opt_get d "host") (opt_get d "port"))
            (Url.encodeURIComponent (to_string id)) id) /\
  (forall request s s0 ep,
      truthy (opt_get request "dataModuleId") = true ->
      Background.detectAirNavX E (VBool false) s = (Ret (Some ep), s0) ->
      exists ev s' reply,
        Background.handleFetchContent E request s = (Ret tt, s') /\
        trace s' = trace s0 ++ [ev] /\
        outbox s' = outbox s0 ++ [reply] /\
        abort_after ev = Some 30000 /\
        sent ev
        = Request "POST"
            ((Url.origin (VStr (Background.host ep)) (VNum (Background.port ep))
              +:+ "/airnavx/api/dataModule/content") +:+ "?"
             +:+ Url.search_params [("dataModuleId", opt_get request "dataModuleId");
                                    ("forHatch", VStr "false"); ("forPrint", VStr "false")])
            [("Accept", "application/json")] (Some (VObj []))).
Proof.
  split; [reflexivity|]. split; [reflexivity|]. split; [reflexivity|].
  split; [| split; [| split; [reflexivity | split; [reflexivity | split]]]].
  - intros s. destruct (content_sweep_spec E s) as (evs & o & s' & Hrun & Htr & Hsw & _).
    exists evs, o, s'. split; [exact Hrun|]. split; [exact Htr|]. split; [exact Hsw|].
    inversion Hsw; subst; eauto.
  - intros s. destruct (background_sweep_spec E s) as (evs & o & s' & Hrun & Htr & Hsw & _).
    exists evs, o, s'. split; [exact Hrun|]. split; [exact Htr|]. split; [exact Hsw|].
    inversion Hsw; subst; eauto.
  - intros id d s s0 Hid Hdet Hok.
    rewrite (fetchContent_after_detection E id d s s0 Hid Hdet Hok).
    destruct (walk_spec E
                (Content.attempts (opt_get d "host") (opt_get d "port") id) [] s0)
      as (evs & o & s' & res & Hrun & Htr & _ & _ & Hsw & _).
    exists evs, o. rewrite Hrun. split; [destruct res; exact Htr|].
    split; [exact Hsw | reflexivity].
  - intros request s s0 ep Hid Hdet.
    exact (background_fetch_by_id_single_request E request s s0 ep Hid Hdet).
Qed.

(** The same request for a content served by the content script and by
    the worker, each with 127.0.0.1:51798 in its cache, against a service
    that refuses every content route: seven attempts against one POST. *)
Lemma relay_and_coordinator_compared_witness :
  truthy (opt_get Scenario.fetch_request "dataModuleId") = true /\
  Background.detectAirNavX Scenario.rejecting_51798 (VBool false) Scenario.worker_cached
  = (Ret (Some (Background.Endpoint "127.0.0.1" 51798)), Scenario.worker_cached) /\
  (exists ev s' reply,
      Background.handleFetchContent Scenario.rejecting_51798 Scenario.fetch_request
        Scenario.worker_cached
      = (Ret tt, s') /\
      trace s' = trace Scenario.worker_cached ++ [ev] /\
      outbox s' = outbox Scenario.worker_cached ++ [reply] /\
      req_method (sent ev) = "POST" /\
      req_url (sent ev)
      = "http://127.0.0.1:51798/airnavx/api/dataModule/content?dataModuleId=DMC+X%2F1&forHatch=false&forPrint=false" /\
      req_body (sent ev) = Some (VObj [])) /\
  (exists evs o,
      trace (snd (Content.fetchContent Scenario.rejecting_51798 (VStr "DMC X/1")
                    Scenario.relay_cached))
      = evs /\
      swept Content.attempt_request AttemptSpec.delivered
        (Content.attempts (VStr "127.0.0.1") (VNum 51798) (VStr "DMC X/1")) evs o /\
      length evs = 7%nat).
Proof.
  split; [reflexivity|]. split; [reflexivity|].
  destruct (relay_and_coordinator_compared Scenario.rejecting_51798)
    as (_ & _ & _ & _ & _ & _ & _ & Hrelay & Hworker).
  split.
  - destruct (Hworker Scenario.fetch_request Scenario.worker_cached Scenario.worker_cached
                (Background.Endpoint "127.0.0.1" 51798) eq_refl eq_refl)
      as (ev & s' & reply & Hrun & Htr & Hout & _ & Hsent).
    exists ev, s', reply. rewrite Hsent. repeat split; assumption.
  - destruct (Hrelay (VStr "DMC X/1") (Content.found "127.0.0.1" 51798)
                Scenario.relay_cached
                Scenario.relay_cached eq_refl eq_refl eq_refl)
      as (evs & o & Htr & Hsw & _).
    change (trace Scenario.relay_cached ++ evs) with evs in Htr.
    exists evs, o. split; [exact Htr|]. split; [exact Hsw|].
    rewrite <- Htr. vm_compute. reflexivity.
Defined.

(** C1, as stated, fails: the service listens on 127.0.0.1:51800 only; the
    content script finds it, the worker, whose list lacks that port, does
    not.  And where every content route is refused, the content script
    issues seven content requests after its two probes, the worker one
    POST. *)
Lemma relay_finds_what_coordinator_misses :
  fst (Content.detectAirNavX Scenario.only_51800 (VBool false)
         (Scenario.start 1000 Content.init))
  = Ret (Content.found "127.0.0.1" 51800) /\
  fst (Background.detectAirNavX Scenario.only_51800 (VBool false)
         (Scenario.start 1000 Background.init))
  = Ret None /\
  map req_method
    (Scenario.requests_after 2
       (Content.fetchContent Scenario.rejecting_51798 (VStr "DMC X/1")
          (Scenario.start 1000 Content.init)))
  = ["GET"; "GET"; "GET"; "GET"; "GET"; "GET"; "POST"] /\
  map req_method
    (map sent
       (drop 2 (trace (snd (Background.on_message Scenario.rejecting_51798
                              Scenario.fetch_request
                              (Scenario.start 1000 Background.init))))))
  = ["POST"].
Proof. vm_compute. repeat split; reflexivity. Qed.

(** ** The caller-side client *)

Section Client.
Import Injected InjectedSpec.

Lemma sendMessage_eq (method params : val) (s : state vars) :
  sendMessage method params s
  = (Ret (requestCounter (local s) + 1),
     State (clock s) (trace s)
       (outbox s ++ [request_message method params (requestCounter (local s) + 1)])
       (called (clock s) (local s))).
Proof. reflexivity. Qed.

(** A call whose message cannot be cloned: [postMessage] throws inside
    the executor, which rejects the promise; nothing is posted. *)
Lemma sendMessage_refused_eq (method : val) (message : string) (s : state vars) :
  sendMessage method (Uncloneable message) s
  = (Ret (requestCounter (local s) + 1),
     State (clock s) (trace s) (outbox s) (refused message (local s))).
Proof. reflexivity. Qed.

Lemma on_timeout_eq (id : Z) (s : state vars) :
  on_timeout id s = (Ret tt, State (clock s) (trace s) (outbox s) (timed_out id (local s))).
Proof.
  unfold on_timeout, timed_out, bind, get_local.
  destruct (bool_decide (is_Some (pendingRequests (local s) !! id))); [reflexivity|].
  destruct s; reflexivity.
Qed.

Lemma on_message_response (ev : message_event) (s : state vars) :
  is_response ev = true ->
  on_message ev s = (Ret tt, State (clock s) (trace s) (outbox s) (received ev (local s))).
Proof.
  unfold is_response, on_message, received. intros H.
  apply andb_prop in H as [Hw Ht]. rewrite Hw. cbn [negb]. cbv beta iota.
  destruct (get (data ev) "type") as [e|type]; [discriminate|].
  unfold bind at 1. simpl lift. unfold ret at 1. rewrite Ht. cbn [negb]. cbv beta iota.
  unfold bind, update, get_local, set_local. simpl.
  destruct (pending_get (opt_get (data ev) "requestId")
              (print (Log "📨 Received RESPONSE:") (local s))) as [p|]; [| reflexivity].
  destruct (truthy (opt_get (data ev) "error")); reflexivity.
Qed.

Lemma on_message_ignored (ev : message_event) (s : state vars) :
  is_response ev = false -> snd (on_message ev s) = s.
Proof.
  unfold is_response, on_message. intros H.
  destruct (from_window ev); [| reflexivity]. simpl in H. cbn [negb]. cbv beta iota.
  destruct (get (data ev) "type") as [e|type]; [reflexivity|].
  unfold bind at 1. simpl lift. unfold ret at 1. rewrite H. reflexivity.
Qed.

(** The handlers leave the clock and the request log alone: the client
    never touches the network. *)
Lemma handle_no_network (e : event) (s : state vars) :
  trace (handle e s) = trace s /\ clock (handle e s) = clock s.
Proof.
  destruct e as [m [p|message] | ev | id]; unfold handle.
  - rewrite sendMessage_eq. auto.
  - rewrite sendMessage_refused_eq. auto.
  - destruct (is_response ev) eqn:H.
    + rewrite on_message_response by exact H. auto.
    + rewrite on_message_ignored by exact H. auto.
  - rewrite on_timeout_eq. auto.
Qed.

(** The variables after one task. *)
Lemma handle_local (e : event) (s : state vars) :
  local (handle e s)
  = match e with
    | Call _ (Data _) => called (clock s) (local s)
    | Call _ (Uncloneable message) => refused message (local s)
    | Message ev => if is_response ev then received ev (local s) else local s
    | Timer id => timed_out id (local s)
    end.
Proof.
  destruct e as [m [p|message] | ev | id]; unfold handle.
  - rewrite sendMessage_eq. reflexivity.
  - rewrite sendMessage_refused_eq. reflexivity.
  - destruct (is_response ev) eqn:H.
    + rewrite on_message_response by exact H. reflexivity.
    + rewrite on_message_ignored by exact H. reflexivity.
  - rewrite on_timeout_eq. reflexivity.
Qed.

(** *** The invariants *)

Lemma wf_init : wf init.
Proof.
  split; simpl; intros id; [intros p H | intros [x H]];
    rewrite lookup_empty in H; discriminate.
Qed.

Lemma wf_sound (c : vars) : wf c -> sound c.
Proof.
  intros [Hp Hs]. split; [| exact Hs].
  intros id p H. destruct (Hp id p H) as (? & ? & _). auto.
Qed.

(** A fresh id has no promise yet. *)
Lemma sound_fresh (c : vars) (id : Z) :
  sound c -> requestCounter c < id -> promises c !! id = None.
Proof.
  intros [_ Hs] Hlt. destruct (promises c !! id) eqn:Hx; [| reflexivity].
  assert (id <= requestCounter c) by (apply Hs; eauto). lia.
Qed.

Lemma settle_lookup (p : Z) (o : settlement) (c : vars) (id : Z) :
  promises (settle p o c) !! id
  = if decide (p = id) then Some (default o (promises c !! p)) else promises c !! id.
Proof.
  unfold settle. destruct (promises c !! p) as [x|] eqn:Hx; simpl.
  - destruct (decide (p = id)) as [<-|]; [exact Hx | reflexivity].
  - destruct (decide (p = id)) as [<-|Hne].
    + apply lookup_insert_eq.
    + apply lookup_insert_ne. exact Hne.
Qed.

Lemma settle_pending (p : Z) (o : settlement) (c : vars) :
  pendingRequests (settle p o c) = pendingRequests c
  /\ requestCounter (settle p o c) = requestCounter c.
Proof. unfold settle. destruct (promises c !! p); auto. Qed.

Lemma settle_timers (p : Z) (o : settlement) (c : vars) :
  timers (settle p o c) = timers c /\ console (settle p o c) = console c.
Proof. unfold settle. destruct (promises c !! p); auto. Qed.

Lemma called_sound (t : Z) (c : vars) : sound c -> sound (called t c).
Proof.
  intros [Hp Hs]. split; simpl.
  - intros id p H. destruct (decide (requestCounter c + 1 = id)) as [<-|Hne].
    + rewrite lookup_insert_eq in H. injection H as <-. split; [reflexivity | lia].
    + rewrite lookup_insert_ne in H by exact Hne.
      destruct (Hp id p H) as (-> & ?). split; [reflexivity | lia].
  - intros id H. specialize (Hs id H). lia.
Qed.

(** What a refused call leaves: the counter, the entry, the rejection. *)
Lemma refused_fields (message : string) (c : vars) :
  requestCounter (refused message c) = requestCounter c + 1 /\
  pendingRequests (refused message c)
  = <[requestCounter c + 1 := requestCounter c + 1]> (pendingRequests c) /\
  timers (refused message c) = timers c /\
  forall id,
    promises (refused message c) !! id
    = if decide (requestCounter c + 1 = id)
      then Some (default (Rejected (DataCloneError message))
                   (promises c !! (requestCounter c + 1)))
      else promises c !! id.
Proof.
  unfold refused.
  match goal with
  | |- context [settle ?p ?o ?c'] =>
      destruct (settle_pending p o c') as [-> ->];
      destruct (settle_timers p o c') as [-> _]
  end.
  split; [reflexivity|]. split; [reflexivity|]. split; [reflexivity|].
  intros id. rewrite settle_lookup. reflexivity.
Qed.

Lemma refused_sound (message : string) (c : vars) : sound c -> sound (refused message c).
Proof.
  intros [Hp Hs]. destruct (refused_fields message c) as (Hc & Hpend & _ & Hprom).
  split.
  - intros id p H. rewrite Hpend in H. rewrite Hc.
    destruct (decide (requestCounter c + 1 = id)) as [<-|Hne].
    + rewrite lookup_insert_eq in H. injection H as <-. split; [reflexivity | lia].
    + rewrite lookup_insert_ne in H by exact Hne.
      destruct (Hp id p H) as (-> & ?). split; [reflexivity | lia].
  - intros id H. rewrite Hprom in H. rewrite Hc.
    destruct (decide (requestCounter c + 1 = id)) as [<-|Hne]; [lia|].
    specialize (Hs id H). lia.
Qed.

(** A response for a request that is pending, with a promise not yet
    settled, settles the promise and removes the entry. *)
Lemma received_pending (ev : message_event) (c : vars) (id : Z) :
  opt_get (data ev) "requestId" = VNum id ->
  pendingRequests c !! id = Some id ->
  promises c !! id = None ->
  pendingRequests (received ev c) !! id = None /\
  promises (received ev c) !! id = Some (outcome_of ev).
Proof.
  intros Hrid Hpend Hnone.
  unfold received, outcome_of. rewrite Hrid. simpl pending_get. rewrite Hpend.
  destruct (truthy (opt_get (data ev) "error")); simpl.
  - destruct (settle_pending id (Rejected (Error (to_string (opt_get (data ev) "error"))))
                (print (ErrorLog "❌ Request failed:")
                   (print (Log "📨 Received RESPONSE:") c))) as [-> _].
    simpl. rewrite lookup_delete_eq, settle_lookup. simpl. rewrite Hnone.
    destruct (decide (id = id)); [auto | congruence].
  - destruct (settle_pending id (Resolved (opt_get (data ev) "result"))
                (print (Log "✅ Request succeeded")
                   (print (Log "📨 Received RESPONSE:") c))) as [-> _].
    simpl. rewrite lookup_delete_eq, settle_lookup. simpl. rewrite Hnone.
    destruct (decide (id = id)); [auto | congruence].
Qed.

(** A response for a request that is not pending only writes to the
    console. *)
Lemma received_unknown (ev : message_event) (c : vars) :
  pending_get (opt_get (data ev) "requestId") c = None ->
  received ev c
  = Vars (requestCounter c) (pendingRequests c) (promises c) (timers c)
      (console c ++ [Log "📨 Received RESPONSE:";
                     Warn "⚠️ Received response for unknown request:"]).
Proof.
  intros H. unfold received.
  replace (pending_get (opt_get (data ev) "requestId")
             (print (Log "📨 Received RESPONSE:") c)) with (@None Z)
    by (destruct (opt_get (data ev) "requestId"); auto).
  unfold print. simpl. rewrite <- app_assoc. reflexivity.
Qed.

(** What a response for the pending request [n] leaves. *)
Lemma received_fields (ev : message_event) (c : vars) (n p : Z) :
  opt_get (data ev) "requestId" = VNum n ->
  pendingRequests c !! n = Some p ->
  requestCounter (received ev c) = requestCounter c /\
  pendingRequests (received ev c) = delete n (pendingRequests c) /\
  forall id,
    promises (received ev c) !! id
    = if decide (p = id)
      then Some (default (outcome_of ev) (promises c !! p))
      else promises c !! id.
Proof.
  intros Hrid Hget. unfold received, outcome_of. rewrite Hrid. simpl pending_get. rewrite Hget.
  destruct (truthy (opt_get (data ev) "error")); simpl;
    match goal with
    | |- context [settle ?q ?o ?c'] => destruct (settle_pending q o c') as [-> ->]
    end;
    (split; [reflexivity|]); (split; [reflexivity|]);
    intros id; rewrite settle_lookup; reflexivity.
Qed.

(** A response leaves every other call alone. *)
Lemma received_other (ev : message_event) (c : vars) (id : Z) :
  sound c ->
  opt_get (data ev) "requestId" <> VNum id \/ pendingRequests c !! id = None ->
  pendingRequests (received ev c) !! id = pendingRequests c !! id /\
  promises (received ev c) !! id = promises c !! id /\
  requestCounter (received ev c) = requestCounter c.
Proof.
  intros [Hp Hs] Hother.
  destruct (pending_get (opt_get (data ev) "requestId") c) as [p|] eqn:Hget.
  - destruct (opt_get (data ev) "requestId") as [| | |n| | |] eqn:Hrid; try discriminate.
    simpl in Hget. destruct (Hp n p Hget) as (-> & _).
    assert (Hne : n <> id).
    { intros ->. destruct Hother as [H|H]; congruence. }
    destruct (received_fields ev c n n Hrid Hget) as (-> & -> & Hprom).
    rewrite Hprom, lookup_delete_ne by exact Hne.
    destruct (decide (n = id)); [congruence | auto].
  - rewrite received_unknown by exact Hget. simpl. auto.
Qed.

Lemma is_num_dec (v : val) (id : Z) : v = VNum id \/ v <> VNum id.
Proof.
  destruct v as [| | |n| | |]; try (right; discriminate).
  destruct (decide (n = id)) as [->|Hne]; [left; reflexivity | right; congruence].
Qed.

Lemma received_sound (ev : message_event) (c : vars) : sound c -> sound (received ev c).
Proof.
  intros [Hp Hs].
  destruct (pending_get (opt_get (data ev) "requestId") c) as [p|] eqn:Hget.
  - destruct (opt_get (data ev) "requestId") as [| | |n| | |] eqn:Hrid; try discriminate.
    simpl in Hget. destruct (Hp n p Hget) as (-> & Hle).
    destruct (received_fields ev c n n Hrid Hget) as (Hc & Hpend & Hprom).
    split.
    + intros id q H. rewrite Hpend in H. rewrite Hc.
      destruct (decide (n = id)) as [->|Hne].
      * rewrite lookup_delete_eq in H. discriminate.
      * rewrite lookup_delete_ne in H by exact Hne. apply Hp. exact H.
    + intros id H. rewrite Hprom in H. rewrite Hc.
      destruct (decide (n = id)) as [<-|Hne]; [exact Hle | apply Hs; exact H].
  - rewrite received_unknown by exact Hget. split; simpl; assumption.
Qed.

Lemma timed_out_pending (id : Z) (c : vars) :
  pendingRequests c !! id = Some id ->
  promises c !! id = None ->
  pendingRequests (timed_out id c) !! id = None /\
  promises (timed_out id c) !! id = Some (Rejected (Error "Request timeout")).
Proof.
  intros Hpend Hnone.
  unfold timed_out. rewrite bool_decide_eq_true_2 by eauto.
  match goal with
  | |- context [settle ?p ?o ?c'] => destruct (settle_pending p o c') as [-> _]
  end.
  simpl. rewrite lookup_delete_eq, settle_lookup. simpl. rewrite Hnone.
  destruct (decide (id = id)); [auto | congruence].
Qed.

Lemma timed_out_other (id' : Z) (c : vars) (id : Z) :
  id' <> id \/ pendingRequests c !! id = None ->
  pendingRequests (timed_out id' c) !! id = pendingRequests c !! id /\
  promises (timed_out id' c) !! id = promises c !! id /\
  requestCounter (timed_out id' c) = requestCounter c.
Proof.
  intros Hother. unfold timed_out.
  destruct (bool_decide (is_Some (pendingRequests c !! id'))) eqn:Hdec; [| auto].
  apply bool_decide_eq_true_1 in Hdec. destruct Hdec as [q Hq].
  assert (Hne : id' <> id).
  { intros ->. destruct Hother as [H|H]; congruence. }
  match goal with
  | |- context [settle ?p ?o ?c'] => destruct (settle_pending p o c') as [-> ->]
  end.
  simpl. rewrite lookup_delete_ne, settle_lookup by exact Hne.
  destruct (decide (id' = id)); [congruence | auto].
Qed.

Lemma timed_out_sound (id' : Z) (c : vars) : sound c -> sound (timed_out id' c).
Proof.
  intros [Hp Hs]. unfold timed_out.
  destruct (bool_decide (is_Some (pendingRequests c !! id'))) eqn:Hdec;
    [| split; assumption].
  apply bool_decide_eq_true_1 in Hdec. destruct Hdec as [q Hq].
  destruct (Hp id' q Hq) as (-> & Hle).
  split.
  - intros id p.
    match goal with
    | |- context [settle ?x ?o ?c'] => destruct (settle_pending x o c') as [-> ->]
    end.
    simpl. intros H. destruct (decide (id' = id)) as [->|Hne].
    + rewrite lookup_delete_eq in H. discriminate.
    + rewrite lookup_delete_ne in H by exact Hne. apply Hp. exact H.
  - intros id.
    match goal with
    | |- context [settle ?x ?o ?c'] => destruct (settle_pending x o c') as [_ ->]
    end.
    rewrite settle_lookup. simpl.
    destruct (decide (id' = id)) as [<-|Hne]; [intros _; exact Hle | apply Hs].
Qed.

Lemma called_other (t : Z) (c : vars) (id : Z) :
  id <= requestCounter c ->
  pendingRequests (called t c) !! id = pendingRequests c !! id /\
  promises (called t c) !! id = promises c !! id.
Proof.
  intros Hle. unfold called. simpl. rewrite lookup_insert_ne by lia. auto.
Qed.

Lemma refused_other (message : string) (c : vars) (id : Z) :
  id <= requestCounter c ->
  pendingRequests (refused message c) !! id = pendingRequests c !! id /\
  promises (refused message c) !! id = promises c !! id.
Proof.
  intros Hle. destruct (refused_fields message c) as (_ & -> & _ & Hprom).
  rewrite Hprom, lookup_insert_ne by lia.
  destruct (decide (requestCounter c + 1 = id)); [lia | auto].
Qed.

(** *** Tasks and runs *)

Lemma is_reply_for_split (id : Z) (ev : message_event) :
  is_reply_for id ev
  = is_response ev
    && match opt_get (data ev) "requestId" with
       | VNum n => n =? id
       | _ => false
       end.
Proof. reflexivity. Qed.

Lemma is_reply_for_true (id : Z) (ev : message_event) :
  is_reply_for id ev = true ->
  is_response ev = true /\ opt_get (data ev) "requestId" = VNum id.
Proof.
  rewrite is_reply_for_split. intros H. apply andb_prop in H as [H1 H2].
  split; [exact H1|].
  destruct (opt_get (data ev) "requestId") as [| | |n| | |]; try discriminate.
  apply Z.eqb_eq in H2. congruence.
Qed.

Lemma handle_at_sound (te : Z * event) (s : state vars) :
  sound (local s) -> sound (local (handle_at te s)).
Proof.
  intros Hs. unfold handle_at. rewrite handle_local. simpl.
  destruct (snd te) as [m [p|message] | ev | id'].
  - apply called_sound. exact Hs.
  - apply refused_sound. exact Hs.
  - destruct (is_response ev); [apply received_sound|]; exact Hs.
  - apply timed_out_sound. exact Hs.
Qed.

Lemma handle_at_counter (te : Z * event) (s : state vars) :
  sound (local s) -> requestCounter (local s) <= requestCounter (local (handle_at te s)).
Proof.
  intros Hs. unfold handle_at. rewrite handle_local. simpl.
  destruct (snd te) as [m [p|message] | ev | id'].
  - simpl. lia.
  - destruct (refused_fields message (local s)) as (-> & _). lia.
  - destruct (is_response ev); [| lia].
    destruct (pending_get (opt_get (data ev) "requestId") (local s)) as [p|] eqn:Hget.
    + destruct (opt_get (data ev) "requestId") as [| | |n| | |] eqn:Hrid; try discriminate.
      destruct (received_fields ev (local s) n p Hrid Hget) as (-> & _). lia.
    + rewrite received_unknown by exact Hget. simpl. lia.
  - destruct (pendingRequests (local s) !! id') eqn:Hq.
    + unfold timed_out. rewrite Hq. rewrite bool_decide_eq_true_2 by eauto.
      match goal with
      | |- context [settle ?p ?o ?c'] => destruct (settle_pending p o c') as [_ ->]
      end. simpl. lia.
    + destruct (timed_out_other id' (local s) id' (or_intror Hq)) as (_ & _ & ->). lia.
Qed.

(** A task that is neither a reply for call [id] nor its timer, or any
    task once the call is no longer pending, leaves the call as it is. *)
Lemma handle_at_other (te : Z * event) (s : state vars) (id : Z) :
  sound (local s) -> id <= requestCounter (local s) ->
  decides id (snd te) = false \/ pendingRequests (local s) !! id = None ->
  pendingRequests (local (handle_at te s)) !! id = pendingRequests (local s) !! id /\
  promises (local (handle_at te s)) !! id = promises (local s) !! id.
Proof.
  intros Hs Hle Hother. unfold handle_at. rewrite handle_local. simpl.
  destruct (snd te) as [m [p|message] | ev | id']; simpl in Hother.
  - apply called_other. exact Hle.
  - apply refused_other. exact Hle.
  - destruct (is_response ev) eqn:Hresp; [| auto].
    destruct (received_other ev (local s) id Hs) as (H1 & H2 & _); [| auto].
    destruct Hother as [Hd|Hn]; [| right; exact Hn].
    rewrite is_reply_for_split, Hresp in Hd. simpl in Hd.
    destruct (is_num_dec (opt_get (data ev) "requestId") id) as [Hr|Hr]; [| left; exact Hr].
    rewrite Hr in Hd. rewrite Z.eqb_refl in Hd. discriminate.
  - destruct (timed_out_other id' (local s) id) as (H1 & H2 & _); [| auto].
    destruct Hother as [Hd|Hn]; [left | right; exact Hn].
    apply Z.eqb_neq. exact Hd.
Qed.

Lemma run_sound (tasks : list (Z * event)) (s : state vars) :
  sound (local s) -> sound (local (run tasks s)).
Proof.
  revert s. induction tasks as [|te tasks IH]; intros s Hs; simpl; [exact Hs|].
  apply IH. apply handle_at_sound. exact Hs.
Qed.

Lemma run_other (tasks : list (Z * event)) (s : state vars) (id : Z) :
  sound (local s) -> id <= requestCounter (local s) ->
  Forall (fun te => decides id (snd te) = false) tasks
  \/ pendingRequests (local s) !! id = None ->
  pendingRequests (local (run tasks s)) !! id = pendingRequests (local s) !! id /\
  promises (local (run tasks s)) !! id = promises (local s) !! id /\
  id <= requestCounter (local (run tasks s)).
Proof.
  revert s. induction tasks as [|te tasks IH]; intros s Hs Hle Hother; simpl; [auto|].
  assert (Hstep : decides id (snd te) = false \/ pendingRequests (local s) !! id = None).
  { destruct Hother as [Hall|Hn]; [left | right; exact Hn].
    inversion Hall; assumption. }
  destruct (handle_at_other te s id Hs Hle Hstep) as [H1 H2].
  pose proof (handle_at_counter te s Hs) as Hcnt.
  destruct (IH (handle_at te s)) as (H3 & H4 & H5).
  - apply handle_at_sound. exact Hs.
  - lia.
  - destruct Hother as [Hall|Hn]; [left | right; congruence].
    inversion Hall; assumption.
  - split; [congruence|]. split; [congruence | exact H5].
Qed.

(** Every state the page can reach from its start satisfies [sound]. *)
Lemma reachable_sound (t : Z) (tasks : list (Z * event)) :
  sound (local (run tasks (Scenario.start t init))).
Proof. apply run_sound. apply wf_sound. exact wf_init. Qed.

(** *** The stronger invariant *)





(** A promise once settled stays as it is, whatever comes. *)
Lemma settled_stays (tasks : list (Z * event)) (s : state vars) (id : Z) (o : settlement) :
  sound (local s) ->
  promises (local s) !! id = Some o ->
  promises (local (run tasks s)) !! id = Some o.
Proof.
  revert s. induction tasks as [|te tasks IH]; intros s Hs Hset; simpl; [exact Hset|].
  apply IH; [apply handle_at_sound; exact Hs|].
  assert (Hle : id <= requestCounter (local s)) by (apply Hs; eauto).
  unfold handle_at. rewrite handle_local. simpl.
  destruct (snd te) as [m [p|message] | ev | id'].
  - rewrite (proj2 (called_other (fst te) (local s) id Hle)). exact Hset.
  - rewrite (proj2 (refused_other message (local s) id Hle)). exact Hset.
  - destruct (is_response ev); [| exact Hset].
    destruct (pending_get (opt_get (data ev) "requestId") (local s)) as [p|] eqn:Hget.
    + destruct (opt_get (data ev) "requestId") as [| | |n| | |] eqn:Hrid; try discriminate.
      destruct (received_fields ev (local s) n p Hrid Hget) as (_ & _ & ->).
      destruct (decide (p = id)) as [->|]; [rewrite Hset; reflexivity | exact Hset].
    + rewrite received_unknown by exact Hget. exact Hset.
  - unfold timed_out.
    destruct (bool_decide (is_Some (pendingRequests (local s) !! id'))); [| exact Hset].
    rewrite settle_lookup. simpl.
    destruct (decide (id' = id)) as [->|]; [rewrite Hset; reflexivity | exact Hset].
Qed.

End Client.

(** ** Calls, replies and timeouts *)

Import Injected InjectedSpec.

(** The life of one call whose message can be cloned: it is registered
    with a fresh id and a timer due 30 s later; it stays pending until a
    reply for its id or its timer comes, and whichever comes first settles
    it for good. *)
Lemma call_lifecycle (method params : val) (s : state vars) :
  InjectedSpec.sound (local s) ->
  exists id s1,
    sendMessage method params s = (Ret id, s1) /\
    id = requestCounter (local s) + 1 /\
    outbox s1 = outbox s ++ [request_message method params id] /\
    trace s1 = trace s /\
    pendingRequests (local s1) !! id = Some id /\
    promises (local s1) !! id = None /\
    (clock s + 30000, id) ∈ timers (local s1) /\
    InjectedSpec.settled_by_first id s1.
Proof.
  intros Hs. rewrite sendMessage_eq.
  set (id := requestCounter (local s) + 1).
  set (s1 := State (clock s) (trace s) (outbox s ++ [request_message method params id])
               (InjectedSpec.called (clock s) (local s))).
  exists id, s1.
  assert (Hs1 : InjectedSpec.sound (local s1)) by (apply called_sound; exact Hs).
  assert (Hpend1 : pendingRequests (local s1) !! id = Some id) by apply lookup_insert_eq.
  assert (Hnone1 : promises (local s1) !! id = None)
    by (apply (sound_fresh (local s) id Hs); unfold id; lia).
  assert (Hcnt1 : id <= requestCounter (local s1)) by (simpl; lia).
  split; [reflexivity|]. split; [reflexivity|]. split; [reflexivity|]. split; [reflexivity|].
  split; [exact Hpend1|]. split; [exact Hnone1|].
  split; [simpl; apply elem_of_app; right; apply list_elem_of_singleton; reflexivity|].
  intros tasks Hall.
  destruct (run_other tasks s1 id Hs1 Hcnt1 (or_introl Hall)) as (H1 & H2 & Hcnt2).
  set (s2 := run tasks s1) in *.
  assert (Hs2 : InjectedSpec.sound (local s2)) by (apply run_sound; exact Hs1).
  assert (Hpend2 : pendingRequests (local s2) !! id = Some id) by congruence.
  assert (Hnone2 : promises (local s2) !! id = None) by congruence.
  split; [exact Hpend2|]. split; [exact Hnone2|]. split.
  - intros t later.
    set (s3 := handle_at (t, Timer id) s2).
    assert (Hs3 : pendingRequests (local s3) !! id = None /\
                  promises (local s3) !! id = Some (Rejected (Error "Request timeout"))).
    { unfold s3, handle_at. rewrite handle_local. simpl.
      apply timed_out_pending; assumption. }
    destruct Hs3 as [Hp3 Hr3].
    assert (Hsd3 : InjectedSpec.sound (local s3)) by (apply handle_at_sound; exact Hs2).
    assert (Hcnt3 : id <= requestCounter (local s3)).
    { pose proof (handle_at_counter (t, Timer id) s2 Hs2). fold s3 in H. lia. }
    destruct (run_other later s3 id Hsd3 Hcnt3 (or_intror Hp3)) as (H3 & H4 & _).
    split; congruence.
  - intros t ev later Hreply.
    apply is_reply_for_true in Hreply as [Hresp Hrid].
    set (s3 := handle_at (t, Message ev) s2).
    assert (Hs3 : pendingRequests (local s3) !! id = None /\
                  promises (local s3) !! id = Some (outcome_of ev)).
    { unfold s3, handle_at. rewrite handle_local. simpl. rewrite Hresp.
      apply received_pending; assumption. }
    destruct Hs3 as [Hp3 Hr3].
    assert (Hsd3 : InjectedSpec.sound (local s3)) by (apply handle_at_sound; exact Hs2).
    assert (Hcnt3 : id <= requestCounter (local s3)).
    { pose proof (handle_at_counter (t, Message ev) s2 Hs2). fold s3 in H. lia. }
    destruct (run_other later s3 id Hsd3 Hcnt3 (or_intror Hp3)) as (H3 & H4 & _).
    split; congruence.
Qed.

(** A call whose message cannot be cloned: it takes a fresh id, posts
    nothing and starts no timer; its promise is rejected at once with the
    error [postMessage] threw, for good; its entry is stored all the
    same. *)
Lemma refused_call (method : val) (message : string) (s : state vars) :
  InjectedSpec.sound (local s) ->
  exists id s1,
    sendMessage method (Uncloneable message) s = (Ret id, s1) /\
    id = requestCounter (local s) + 1 /\
    outbox s1 = outbox s /\ trace s1 = trace s /\
    timers (local s1) = timers (local s) /\
    pendingRequests (local s1) !! id = Some id /\
    forall tasks,
      promises (local (run tasks s1)) !! id = Some (Rejected (DataCloneError message)).
Proof.
  intros Hs. rewrite sendMessage_refused_eq.
  destruct (refused_fields message (local s)) as (Hc & Hpend & Htim & Hprom).
  eexists _, _. split; [reflexivity|]. split; [reflexivity|].
  split; [reflexivity|]. split; [reflexivity|]. split; [exact Htim|].
  split; [simpl; rewrite Hpend; apply lookup_insert_eq|].
  intros tasks. apply settled_stays.
  - simpl. apply refused_sound. exact Hs.
  - simpl. rewrite Hprom.
    rewrite (sound_fresh (local s) (requestCounter (local s) + 1) Hs) by lia.
    destruct (decide (requestCounter (local s) + 1 = requestCounter (local s) + 1));
      [reflexivity | congruence].
Qed.

(** A reply for an id that is not pending: the listener returns normally
    and only the console changes, by the line of the reception and a
    warning. *)
Lemma late_reply_discarded (id : Z) (ev : message_event) (s : state vars) :
  pendingRequests (local s) !! id = None ->
  is_reply_for id ev = true ->
  on_message ev s
  = (Ret tt,
     State (clock s) (trace s) (outbox s)
       (Vars (requestCounter (local s)) (pendingRequests (local s)) (promises (local s))
          (timers (local s))
          (console (local s) ++ [Log "📨 Received RESPONSE:";
                                 Warn "⚠️ Received response for unknown request:"]))).
Proof.
  intros Hnone Hreply. apply is_reply_for_true in Hreply as [Hresp Hrid].
  rewrite on_message_response by exact Hresp.
  rewrite received_unknown; [reflexivity|].
  rewrite Hrid. exact Hnone.
Qed.

(** C5 (amended).  From any state the script can be in: a call whose
    message can be cloned gets a fresh id, a pending entry and a timer
    due 30 000 ms later; it is settled by the first of a matching reply
    and that timer; on timeout the entry is removed and the promise
    rejected with the timeout error.  A call whose message cannot be
    cloned is rejected at once, and for good, with the error
    [postMessage] threw; it posts nothing and starts no timer.  A reply
    for an id that is no longer pending is dropped with a warning, the
    listener returns normally and the pending entries, the promises and
    the timers stay as they are. *)
Theorem pending_call_lifecycle (method : val) (s : state vars) :
  InjectedSpec.sound (local s) ->
  (forall params : val, exists id s1,
      sendMessage method params s = (Ret id, s1) /\
      id = requestCounter (local s) + 1 /\
      outbox s1 = outbox s ++ [request_message method params id] /\
      pendingRequests (local s1) !! id = Some id /\
      promises (local s1) !! id = None /\
      (clock s + 30000, id) ∈ timers (local s1) /\
      InjectedSpec.settled_by_first id s1)
  /\
  (forall message, exists id s1,
      sendMessage method (Uncloneable message) s = (Ret id, s1) /\
      id = requestCounter (local s) + 1 /\
      outbox s1 = outbox s /\
      timers (local s1) = timers (local s) /\
      forall tasks,
        promises (local (run tasks s1)) !! id = Some (Rejected (DataCloneError message)))
  /\
  (forall id ev,
      pendingRequests (local s) !! id = None ->
      is_reply_for id ev = true ->
      exists s',
        on_message ev s = (Ret tt, s') /\
        pendingRequests (local s') = pendingRequests (local s) /\
        promises (local s') = promises (local s) /\
        timers (local s') = timers (local s) /\
        outbox s' = outbox s /\ trace s' = trace s /\
        console (local s')
        = console (local s) ++ [Log "📨 Received RESPONSE:";
                                Warn "⚠️ Received response for unknown request:"]).
Proof.
  intros Hs. split; [| split].
  - intros params.
    destruct (call_lifecycle method params s Hs)
      as (id & s1 & Hrun & Hid & Hout & _ & Hpend & Hnone & Htimer & Hlife).
    exists id, s1. auto 10.
  - intros message.
    destruct (refused_call method message s Hs)
      as (id & s1 & Hrun & Hid & Hout & _ & Htim & _ & Hrej).
    exists id, s1. auto 10.
  - intros id ev Hnone Hreply. rewrite (late_reply_discarded id ev s Hnone Hreply).
    eexists. split; [reflexivity|]. simpl. auto 10.
Qed.

(** A call issued at time 5000 on a page whose first call, at time 0,
    could not be cloned. *)
Lemma pending_call_lifecycle_witness :
  InjectedSpec.sound
    (local (run [(0, Call (VStr "detect") (Uncloneable "could not be cloned"))]
              (Scenario.start 0 init))) /\
  exists id s1,
    sendMessage (VStr "detect") (VObj [("detailed", VBool false)])
      (State 5000 [] []
         (local (run [(0, Call (VStr "detect") (Uncloneable "could not be cloned"))]
                   (Scenario.start 0 init))))
    = (Ret id, s1) /\
    id = 2 /\
    pendingRequests (local s1) !! id = Some id /\
    (35000, id) ∈ timers (local s1) /\
    InjectedSpec.settled_by_first id s1.
Proof.
  assert (Hs : InjectedSpec.sound
                 (local (run [(0, Call (VStr "detect") (Uncloneable "could not be cloned"))]
                           (Scenario.start 0 init))))
    by apply reachable_sound.
  split; [exact Hs|].
  destruct (pending_call_lifecycle (VStr "detect")
              (State 5000 [] []
                 (local (run [(0, Call (VStr "detect") (Uncloneable "could not be cloned"))]
                           (Scenario.start 0 init))))
              Hs)
    as [H _].
  destruct (H (VObj [("detailed", VBool false)]))
    as (id & s1 & Hrun & Hid & _ & Hpend & _ & Htimer & Hlife).
  exists id, s1. auto.
Defined.

(** C5, as stated, fails: [detect] called with a value that cannot be
    cloned (a click event, when the function is installed as a click
    handler) posts nothing and starts no timer; its promise is rejected
    at once with the error of [postMessage], so that the call is settled
    by neither a reply nor its timeout.  Its entry stays in
    [pendingRequests], also after a later call. *)
Lemma uncloneable_call_settled_by_neither :
  fst (detect (Uncloneable "PointerEvent object could not be cloned.")
         (Scenario.start 0 init))
  = Ret 1 /\
  outbox (snd (detect (Uncloneable "PointerEvent object could not be cloned.")
                 (Scenario.start 0 init)))
  = [] /\
  timers (local (snd (detect (Uncloneable "PointerEvent object could not be cloned.")
                        (Scenario.start 0 init))))
  = [] /\
  promises (local (snd (detect (Uncloneable "PointerEvent object could not be cloned.")
                          (Scenario.start 0 init)))) !! 1
  = Some (Rejected (DataCloneError "PointerEvent object could not be cloned.")) /\
  ~ InjectedSpec.settled_by_first 1
      (snd (detect (Uncloneable "PointerEvent object could not be cloned.")
              (Scenario.start 0 init))) /\
  pendingRequests
    (local (run [(60000, Call (VStr "detect") (VObj [("detailed", VBool false)]))]
              (snd (detect (Uncloneable "PointerEvent object could not be cloned.")
                      (Scenario.start 0 init))))) !! 1
  = Some 1.
Proof.
  split; [reflexivity|]. split; [reflexivity|]. split; [reflexivity|].
  split; [vm_compute; reflexivity|]. split; [| vm_compute; reflexivity].
  intros H. destruct (H [] (List.Forall_nil _)) as (_ & Hnone & _).
  vm_compute in Hnone. discriminate Hnone.
Qed.

(** The relay returns before the dispatch when the method is falsy. *)
Lemma relay_drops_missing_method (E : env) (ev : message_event) (type : val)
    (r : state Content.vars) :
  from_window ev = true ->
  get (data ev) "type" = inr type ->
  is_str type (MESSAGE_PREFIX +:+ "REQUEST") = true ->
  truthy (opt_get (data ev) "method") = false ->
  Content.on_message E ev r = (Ret tt, r).
Proof.
  intros Hw Hget Htype Hmethod. unfold Content.on_message.
  rewrite Hw, Hget. cbn [negb]. cbv beta iota.
  unfold bind at 1. simpl lift. unfold ret at 1. rewrite Htype, Hmethod. reflexivity.
Qed.

(** C10.  A request whose method is absent or falsy makes the relay return
    before the dispatch: no message is posted, no request is issued,
    nothing changes.  A client call with such a method therefore gets no
    reply from the relay: it stays pending until its own timer, due 30 s
    after the call, rejects it with the timeout error. *)
Theorem missing_method_gets_no_reply (E : env) (method params : val)
    (s : state vars) (r : state Content.vars) :
  truthy method = false ->
  InjectedSpec.wf (local s) ->
  (forall ev type,
      from_window ev = true ->
      get (data ev) "type" = inr type ->
      is_str type (MESSAGE_PREFIX +:+ "REQUEST") = true ->
      opt_get (data ev) "method" = method ->
      Content.on_message E ev r = (Ret tt, r))
  /\
  (exists id s1,
      sendMessage method params s = (Ret id, s1) /\
      outbox s1 = outbox s ++ [request_message method params id] /\
      Content.on_message E (MessageEvent true (request_message method params id)) r
      = (Ret tt, r) /\
      snd (on_message (MessageEvent true (request_message method params id)) s1) = s1 /\
      (clock s + 30000, id) ∈ timers (local s1) /\
      InjectedSpec.settled_by_first id s1).
Proof.
  intros Hfalsy Hwf. split.
  - intros ev type Hw Hget Htype Hmethod.
    apply (relay_drops_missing_method E ev type r Hw Hget Htype). congruence.
  - destruct (call_lifecycle method params s (wf_sound _ Hwf))
      as (id & s1 & Hrun & Hid & Hout & _ & Hpend & Hnone & Htimer & Hlife).
    exists id, s1. split; [exact Hrun|]. split; [exact Hout|]. split.
    { apply (relay_drops_missing_method E _ (VStr (MESSAGE_PREFIX +:+ "REQUEST")));
        [reflexivity | reflexivity | reflexivity | exact Hfalsy]. }
    split; [| split; [exact Htimer | exact Hlife]].
    apply on_message_ignored. reflexivity.
Qed.

(** A call without a method on a fresh page and a fresh relay. *)
Lemma missing_method_gets_no_reply_witness :
  truthy VUndef = false /\
  InjectedSpec.wf (local (Scenario.start 0 init)) /\
  exists id s1,
    sendMessage VUndef VNull (Scenario.start 0 init) = (Ret id, s1) /\
    Content.on_message Scenario.silent (MessageEvent true (request_message VUndef VNull id))
      (Scenario.start 0 Content.init)
    = (Ret tt, Scenario.start 0 Content.init) /\
    (30000, id) ∈ timers (local s1) /\
    InjectedSpec.settled_by_first id s1.
Proof.
  split; [reflexivity|]. split; [exact wf_init|].
  destruct (missing_method_gets_no_reply Scenario.silent VUndef VNull (Scenario.start 0 init)
              (Scenario.start 0 Content.init) eq_refl wf_init)
    as [_ (id & s1 & Hrun & _ & Hrelay & _ & Htimer & Hlife)].
  exists id, s1. auto.
Defined.

(** ** Unknown methods and missing ids *)

(** C6 (amended).  Relay: a request whose method is truthy and is none of
    [detect], [search], [fetchContent] gets exactly one message back, an
    error response carrying the request id and the text
    [Unknown method: <method>]; no HTTP request is issued.  Worker: a
    request whose action is none of the five known ones (a missing action
    included) gets the reply [{success: false, error: 'Unknown action'}]
    through its [sendResponse]. *)
Theorem unknown_method_gets_error_reply (E : env) :
  (forall ev type r,
      from_window ev = true ->
      get (data ev) "type" = inr type ->
      is_str type (MESSAGE_PREFIX +:+ "REQUEST") = true ->
      truthy (opt_get (data ev) "method") = true ->
      is_str (opt_get (data ev) "method") "detect" = false ->
      is_str (opt_get (data ev) "method") "search" = false ->
      is_str (opt_get (data ev) "method") "fetchContent" = false ->
      Content.on_message E ev r
      = (Ret tt,
         State (clock r) (trace r)
           (outbox r
            ++ [Content.response_error (opt_get (data ev) "requestId")
                  ("Unknown method: " +:+ to_string (opt_get (data ev) "method"))
                  (opt_get (data ev) "method") (opt_get (data ev) "params")
                  (toISOString E (clock r))])
           (local r)))
  /\
  (forall request action s,
      get request "action" = inr action ->
      is_str action "detect" = false ->
      is_str action "search" = false ->
      is_str action "fetchContent" = false ->
      is_str action "customFetch" = false ->
      is_str action "getStatus" = false ->
      Background.on_message E request s
      = (Ret false,
         State (clock s) (trace s) (outbox s ++ [Background.failure "Unknown action"])
           (local s))).
Proof.
  split.
  - intros ev type r Hw Hget Htype Htruthy H1 H2 H3. unfold Content.on_message.
    rewrite Hw, Hget. cbn [negb]. cbv beta iota.
    unfold bind at 1. simpl lift. unfold ret at 1. rewrite Htype, Htruthy.
    cbn [negb]. cbv beta iota.
    unfold try_catch, bind, Content.dispatch. rewrite H1, H2, H3. reflexivity.
  - intros request action s Hget H1 H2 H3 H4 H5. unfold Background.on_message.
    unfold bind at 1. rewrite Hget. simpl lift. unfold ret at 1.
    rewrite H1, H2, H3, H4, H5. reflexivity.
Qed.

(** The relay asked for a method it does not know. *)
Lemma unknown_method_gets_error_reply_witness :
  truthy (VStr "ping") = true /\
  Content.on_message Scenario.silent (Scenario.request (VStr "ping") VNull (VNum 7))
    (Scenario.start 0 Content.init)
  = (Ret tt,
     State 0 []
       [Content.response_error (VNum 7) "Unknown method: ping" (VStr "ping") VNull
          "1970-01-01T00:00:00.000Z"]
       Content.init).
Proof.
  split; [reflexivity|].
  apply (proj1 (unknown_method_gets_error_reply Scenario.silent)
           (Scenario.request (VStr "ping") VNull (VNum 7))
           (VStr (MESSAGE_PREFIX +:+ "REQUEST")) (Scenario.start 0 Content.init));
    reflexivity.
Defined.

(** C6, as stated, fails: the empty string is a method name that is none
    of the recognized operations, and the relay stays silent on it; no
    message is posted and the state is as before. *)
Lemma relay_silent_on_empty_method_name :
  is_str (VStr "") "detect" = false /\
  is_str (VStr "") "search" = false /\
  is_str (VStr "") "fetchContent" = false /\
  Content.on_message Scenario.silent (Scenario.request (VStr "") VNull (VNum 7))
    (Scenario.start 0 Content.init)
  = (Ret tt, Scenario.start 0 Content.init) /\
  outbox (snd (Content.on_message Scenario.silent
                 (Scenario.request (VStr "") VNull (VNum 7))
                 (Scenario.start 0 Content.init)))
  = [].
Proof. vm_compute. repeat split; reflexivity. Qed.

(** C9.  An id that is empty or missing (any falsy value) makes
    fetch-by-id fail at once: the content scripts throw
    [dataModuleId is required], which the relay sends back as an error
    response; the worker replies [dataModuleId required].  In each case
    the request log, the clock and the variables of the script, its cache
    included, are untouched: no detection, no HTTP request. *)
Theorem empty_id_fails_without_network (E : env) (id : val) :
  truthy id = false ->
  (forall s, Content.fetchContent E id s = (Throw (Error "dataModuleId is required"), s)) /\
  (forall s, ContentOld.fetchContent E id s = (Throw (Error "dataModuleId is required"), s)) /\
  (forall params requestId s,
      opt_get params "dataModuleId" = id ->
      Content.on_message E (Scenario.request (VStr "fetchContent") params requestId) s
      = (Ret tt,
         State (clock s) (trace s)
           (outbox s
            ++ [Content.response_error requestId "dataModuleId is required"
                  (VStr "fetchContent") params (toISOString E (clock s))])
           (local s))) /\
  (forall request s,
      opt_get request "dataModuleId" = id ->
      Background.handleFetchContent E request s
      = (Ret tt,
         State (clock s) (trace s) (outbox s ++ [Background.failure "dataModuleId required"])
           (local s))).
Proof.
  intros Hfalsy. split; [| split; [| split]].
  - intros s. unfold Content.fetchContent. rewrite Hfalsy. reflexivity.
  - intros s. unfold ContentOld.fetchContent. rewrite Hfalsy. reflexivity.
  - intros params requestId s Hid. unfold Content.on_message. simpl.
    unfold bind at 1. unfold ret at 1. simpl.
    unfold try_catch, bind, Content.dispatch. simpl.
    unfold Content.fetchContent. rewrite Hid, Hfalsy. reflexivity.
  - intros request s Hid. unfold Background.handleFetchContent, try_catch.
    rewrite Hid, Hfalsy. reflexivity.
Qed.

(** The empty string as id. *)
Lemma empty_id_fails_without_network_witness :
  truthy (VStr "") = false /\
  (forall s,
      Content.fetchContent Scenario.on_51798 (VStr "") s
      = (Throw (Error "dataModuleId is required"), s)) /\
  (forall request s,
      opt_get request "dataModuleId" = VStr "" ->
      Background.handleFetchContent Scenario.on_51798 request s
      = (Ret tt,
         State (clock s) (trace s) (outbox s ++ [Background.failure "dataModuleId required"])
           (local s))).
Proof.
  split; [reflexivity|].
  destruct (empty_id_fails_without_network Scenario.on_51798 (VStr "") eq_refl)
    as (H1 & _ & _ & H4).
  split; [exact H1 | exact H4].
Defined.

(** * Further properties: handlers, event loops, the popup *)

(** ** What the computations leave alone *)

Section Keeps.
Context {C : Type} (R : state C -> state C -> Prop).
Hypothesis R_refl : forall s, R s s.
Hypothesis R_trans : forall s1 s2 s3, R s1 s2 -> R s2 s3 -> R s1 s3.

Lemma keeps_ret {A} (a : A) : Effects.keeps R (ret a).
Proof. intros s. apply R_refl. Qed.

Lemma keeps_throw {A} (e : error) : Effects.keeps R (@throw C A e).
Proof. intros s. apply R_refl. Qed.

Lemma keeps_lift {A} (r : error + A) : Effects.keeps R (lift (C := C) r).
Proof. destruct r; [apply keeps_throw | apply keeps_ret]. Qed.

Lemma keeps_now : Effects.keeps R now.
Proof. intros s. apply R_refl. Qed.

Lemma keeps_get_local : Effects.keeps R get_local.
Proof. intros s. apply R_refl. Qed.

Lemma keeps_bind {A B} (m : M C A) (k : A -> M C B) :
  Effects.keeps R m -> (forall a, Effects.keeps R (k a)) -> Effects.keeps R (bind m k).
Proof.
  intros Hm Hk s. unfold bind. specialize (Hm s).
  destruct (m s) as [[a|e] s1]; simpl in *; [| exact Hm].
  eapply R_trans; [exact Hm | apply Hk].
Qed.

Lemma keeps_try_catch {A} (m : M C A) (h : error -> M C A) :
  Effects.keeps R m -> (forall e, Effects.keeps R (h e)) -> Effects.keeps R (try_catch m h).
Proof.
  intros Hm Hh s. unfold try_catch. specialize (Hm s).
  destruct (m s) as [[a|e] s1]; simpl in *; [exact Hm|].
  eapply R_trans; [exact Hm | apply Hh].
Qed.

Lemma keeps_for_of {A B} (l : list A) (body : A -> M C (option B)) :
  (forall x, Effects.keeps R (body x)) -> Effects.keeps R (for_of l body).
Proof.
  intros Hbody. induction l as [|x l IH]; simpl.
  - apply keeps_ret.
  - apply keeps_bind; [apply Hbody|]. intros [b|]; [apply keeps_ret | exact IH].
Qed.

End Keeps.

(** One step of a proof that a computation keeps [R]: the structure of
    the computation is followed, [leaf] closes what is specific to [R];
    [refl] and [trans] are the proofs that [R] is reflexive and
    transitive. *)
Tactic Notation "keeps_step" uconstr(refl) uconstr(trans) tactic3(leaf) :=
  lazymatch goal with
  | |- Effects.keeps _ (bind _ _) => apply (keeps_bind _ trans); [| intros ?]
  | |- Effects.keeps _ (try_catch _ _) => apply (keeps_try_catch _ trans); [| intros ?]
  | |- Effects.keeps _ (for_of _ _) => apply (keeps_for_of _ refl trans); intros ?
  | |- Effects.keeps _ (ret _) => apply (keeps_ret _ refl)
  | |- Effects.keeps _ (throw _) => apply (keeps_throw _ refl)
  | |- Effects.keeps _ (lift _) => apply (keeps_lift _ refl)
  | |- Effects.keeps _ now => apply (keeps_now _ refl)
  | |- Effects.keeps _ get_local => apply (keeps_get_local _ refl)
  | |- Effects.keeps _ (if ?b then _ else _) => destruct b
  | |- Effects.keeps _ (match ?x with _ => _ end) => destruct x
  | |- _ => leaf
  end.

(** *** No message is posted by the calls behind the handlers *)

Lemma quiet_refl {C} (s : state C) : Effects.quiet s s.
Proof. reflexivity. Qed.

Lemma quiet_trans {C} (s1 s2 s3 : state C) :
  Effects.quiet s1 s2 -> Effects.quiet s2 s3 -> Effects.quiet s1 s3.
Proof. unfold Effects.quiet. congruence. Qed.

Lemma quiet_set_local {C} (c : C) : Effects.keeps Effects.quiet (set_local c).
Proof. intros s. reflexivity. Qed.

Lemma quiet_fetch {C} (E : env) (req : request) (d : option Z) :
  Effects.keeps (C := C) Effects.quiet (fetch E req d).
Proof.
  intros s. destruct (fetch_step E req d s) as (ev & _ & _ & _ & _ & ->). reflexivity.
Qed.

Ltac quiet_leaf :=
  first [ apply quiet_set_local | apply quiet_fetch | assumption ].

Ltac quiet_auto := repeat (keeps_step quiet_refl quiet_trans quiet_leaf).

Lemma quiet_content_detect (E : env) (detailed : val) :
  Effects.keeps Effects.quiet (Content.detectAirNavX E detailed).
Proof.
  unfold Content.detectAirNavX, Content.sweep, Content.probe_try. quiet_auto.
Qed.

Lemma quiet_content_search (E : env) (query page : val) :
  Effects.keeps Effects.quiet (Content.searchTasks E query page).
Proof.
  pose proof (quiet_content_detect E (VBool false)).
  unfold Content.searchTasks. quiet_auto.
Qed.

Lemma quiet_content_walk (E : env) (l : list attempt) (errors : list string) :
  Effects.keeps Effects.quiet (Content.walk E l errors).
Proof.
  revert errors. induction l as [|a l IH]; intros errors; simpl.
  - quiet_auto.
  - unfold Content.attempt_try, Content.attempt_catch. quiet_auto. apply IH.
Qed.

Lemma quiet_content_fetchContent (E : env) (id : val) :
  Effects.keeps Effects.quiet (Content.fetchContent E id).
Proof.
  pose proof (quiet_content_detect E (VBool false)).
  unfold Content.fetchContent.
  repeat (keeps_step quiet_refl quiet_trans
    ltac:(first [apply quiet_content_walk | quiet_leaf])).
Qed.

Lemma quiet_content_dispatch (E : env) (method params : val) :
  Effects.keeps Effects.quiet (Content.dispatch E method params).
Proof.
  unfold Content.dispatch.
  repeat (keeps_step quiet_refl quiet_trans
    ltac:(first [ apply quiet_content_detect | apply quiet_content_search
                | apply quiet_content_fetchContent ])).
Qed.




(** ** One reply per request *)

Lemma is_request_true (ev : message_event) :
  RelaySpec.is_request ev = true ->
  from_window ev = true /\
  (exists type, get (data ev) "type" = inr type /\
                is_str type (MESSAGE_PREFIX +:+ "REQUEST") = true) /\
  truthy (opt_get (data ev) "method") = true.
Proof.
  unfold RelaySpec.is_request, RelaySpec.method_of. intros H.
  apply andb_prop in H as [H Hm]. apply andb_prop in H as [Hw Ht].
  split; [exact Hw|]. split; [| exact Hm].
  destruct (get (data ev) "type") as [e|type]; [discriminate | eauto].
Qed.

(** The relay on a request: the dispatch runs, and one response is
    posted for its outcome. *)
Lemma relay_on_request (E : env) (ev : message_event) (s : state Content.vars) :
  RelaySpec.is_request ev = true ->
  Content.on_message E ev s
  = (Ret tt,
     State
       (clock (snd (Content.dispatch E (RelaySpec.method_of ev) (RelaySpec.params_of ev) s)))
       (trace (snd (Content.dispatch E (RelaySpec.method_of ev) (RelaySpec.params_of ev) s)))
       (outbox s
        ++ [RelaySpec.reply_of E ev
              (fst (Content.dispatch E (RelaySpec.method_of ev) (RelaySpec.params_of ev) s))
              (clock (snd (Content.dispatch E (RelaySpec.method_of ev)
                             (RelaySpec.params_of ev) s)))])
       (local (snd (Content.dispatch E (RelaySpec.method_of ev) (RelaySpec.params_of ev) s)))).
Proof.
  intros Hreq. apply is_request_true in Hreq as (Hw & (type & Hget & Htype) & Hm).
  pose proof (quiet_content_dispatch E (RelaySpec.method_of ev) (RelaySpec.params_of ev) s)
    as Hq.
  unfold Effects.quiet in Hq.
  unfold Content.on_message. rewrite Hw, Hget. cbn [negb]. cbv beta iota.
  unfold bind at 1. simpl lift. unfold ret at 1. rewrite Htype, Hm.
  cbn [negb]. cbv beta iota.
  unfold try_catch, bind. fold (RelaySpec.method_of ev) (RelaySpec.params_of ev).
  destruct (Content.dispatch E (RelaySpec.method_of ev) (RelaySpec.params_of ev) s)
    as [[r|e] s1]; simpl in *; unfold post, now; simpl; rewrite Hq; reflexivity.
Qed.





Lemma quiet_background_detect (E : env) (forceRefresh : val) :
  Effects.keeps Effects.quiet (Background.detectAirNavX E forceRefresh).
Proof.
  unfold Background.detectAirNavX, Background.sweep, Background.probe_try,
    Background.storage_local_set, Background.update_badge.
  quiet_auto.
Qed.

Lemma quiet_fetchFromAirNavX (E : env) (endpointPath : val) (o : Background.options) :
  Effects.keeps Effects.quiet (Background.fetchFromAirNavX E endpointPath o).
Proof.
  pose proof (quiet_background_detect E (VBool false)).
  unfold Background.fetchFromAirNavX. quiet_auto.
Qed.

(** What [fetchFromAirNavX] returns, when it returns, is a success object. *)
Lemma fetchFromAirNavX_returns_success (E : env) (endpointPath : val)
    (o : Background.options) (s s' : state Background.vars) (r : val) :
  Background.fetchFromAirNavX E endpointPath o s = (Ret r, s') ->
  opt_get r "success" = VBool true.
Proof.
  unfold Background.fetchFromAirNavX, bind, try_catch.
  destruct (Background.detectAirNavX E (VBool false) s) as [[[ep|]|e] s0]; try discriminate.
  destruct (lift (Background.build_url E ep endpointPath _) s0) as [[url|e] s1];
    try discriminate.
  destruct (fetch E _ _ s1) as [[resp|e] s2].
  - destruct (negb (ok resp)); [discriminate|].
    destruct (lift (json resp) s2) as [[data|e] s3].
    + intros [= <- _]. reflexivity.
    + destruct (String.eqb (err_name e) "AbortError"); discriminate.
  - destruct (String.eqb (err_name e) "AbortError"); discriminate.
Qed.

(** A handler that posts the result of a quiet call, or the failure object
    for the error it threw, posts exactly one message. *)
Lemma replies_once (m : M Background.vars val) (s : state Background.vars) :
  Effects.keeps Effects.quiet m ->
  (forall r s', m s = (Ret r, s') -> opt_get r "success" = VBool true) ->
  exists reply s' b,
    try_catch (result <- m ;; post result)
      (fun e => post (Background.failure (err_message e))) s
    = (Ret tt, s') /\
    outbox s' = outbox s ++ [reply] /\ opt_get reply "success" = VBool b.
Proof.
  intros Hq Hshape. specialize (Hq s). unfold Effects.quiet in Hq.
  unfold try_catch, bind. destruct (m s) as [[r|e] s1] eqn:Hrun; simpl in Hq.
  - eexists r, (State _ _ _ _), true. split; [reflexivity|]. simpl. rewrite Hq.
    split; [reflexivity|]. eapply Hshape. reflexivity.
  - eexists (Background.failure (err_message e)), (State _ _ _ _), false.
    split; [reflexivity|]. simpl. rewrite Hq. split; reflexivity.
Qed.

Lemma handleDetect_replies_once (E : env) (request : val) (s : state Background.vars) :
  exists reply s' b,
    Background.handleDetect E request s = (Ret tt, s') /\
    outbox s' = outbox s ++ [reply] /\ opt_get reply "success" = VBool b.
Proof.
  pose proof (quiet_background_detect E
                (or_else (opt_get request "forceRefresh") (VBool false)) s) as Hq.
  unfold Effects.quiet in Hq.
  unfold Background.handleDetect, try_catch, bind.
  destruct (Background.detectAirNavX E _ s) as [[[ep|]|e] s1]; simpl in Hq.
  - eexists _, (State _ _ _ _), true. split; [reflexivity|]. simpl. rewrite Hq.
    split; reflexivity.
  - eexists _, (State _ _ _ _), false. split; [reflexivity|]. simpl. rewrite Hq.
    split; reflexivity.
  - eexists _, (State _ _ _ _), false. split; [reflexivity|]. simpl. rewrite Hq.
    split; reflexivity.
Qed.

Lemma failure_replies_once (msg : string) (s : state Background.vars) :
  exists reply s' b,
    try_catch (post (Background.failure msg))
      (fun e => post (Background.failure (err_message e))) s
    = (Ret tt, s') /\
    outbox s' = outbox s ++ [reply] /\ opt_get reply "success" = VBool b.
Proof.
  eexists _, (State _ _ _ _), false. split; [reflexivity|]. split; reflexivity.
Qed.

Lemma handleSearch_replies_once (E : env) (request : val) (s : state Background.vars) :
  exists reply s' b,
    Background.handleSearch E request s = (Ret tt, s') /\
    outbox s' = outbox s ++ [reply] /\ opt_get reply "success" = VBool b.
Proof.
  unfold Background.handleSearch. destruct (truthy (opt_get request "query")).
  - cbn [negb]. cbv beta iota zeta. apply replies_once.
    + apply quiet_fetchFromAirNavX.
    + intros r s'. apply fetchFromAirNavX_returns_success.
  - apply failure_replies_once.
Qed.





(** ** The two listeners of the page *)

Lemma response_is_no_request (type : val) :
  is_str type (MESSAGE_PREFIX +:+ "RESPONSE") = true ->
  is_str type (MESSAGE_PREFIX +:+ "REQUEST") = false.
Proof. intros H. apply is_str_eq in H. subst type. reflexivity. Qed.

Lemma request_is_no_response (type : val) :
  is_str type (MESSAGE_PREFIX +:+ "REQUEST") = true ->
  is_str type (MESSAGE_PREFIX +:+ "RESPONSE") = false.
Proof. intros H. apply is_str_eq in H. subst type. reflexivity. Qed.

(** X5.  The two listeners of the page never act on the same message: on
    every message the client acts on (a response from the window) both
    content scripts return at once with their state untouched, and on
    every message the relay acts on the client does the same.  In
    particular a reply posted by the relay does not come back to it as a
    request, and a request posted by the client does not come back to it
    as a response. *)
Theorem listeners_never_share_a_message (E : env) (ev : message_event) :
  (InjectedSpec.is_response ev = true ->
   (forall r, Content.on_message E ev r = (Ret tt, r)) /\
   (forall r, ContentOld.on_message E ev r = (Ret tt, r)))
  /\
  (RelaySpec.is_request ev = true ->
   forall c, Injected.on_message ev c = (Ret tt, c))
  /\
  (forall o t r,
      Content.on_message E (MessageEvent true (RelaySpec.reply_of E ev o t)) r = (Ret tt, r))
  /\
  (forall method params id c,
      Injected.on_message (MessageEvent true (request_message method params id)) c
      = (Ret tt, c)).
Proof.
  split; [| split; [| split]].
  - unfold InjectedSpec.is_response. intros H. apply andb_prop in H as [Hw Ht].
    destruct (get (data ev) "type") as [e|type] eqn:Hget; [discriminate|].
    apply response_is_no_request in Ht.
    split; intros r.
    + unfold Content.on_message. rewrite Hw, Hget. cbn [negb]. cbv beta iota.
      unfold bind at 1. simpl lift. unfold ret at 1. rewrite Ht. reflexivity.
    + unfold ContentOld.on_message. rewrite Hw, Hget. cbn [negb]. cbv beta iota.
      unfold bind at 1. simpl lift. unfold ret at 1. rewrite Ht. reflexivity.
  - intros H c. apply is_request_true in H as (Hw & (type & Hget & Htype) & _).
    apply request_is_no_response in Htype.
    unfold Injected.on_message. rewrite Hw, Hget. cbn [negb]. cbv beta iota.
    unfold bind at 1. simpl lift. unfold ret at 1. rewrite Htype. reflexivity.
  - intros o t r. destruct o; reflexivity.
  - intros method params id c. reflexivity.
Qed.

(** ** A call through the bridge *)

(** A reply of the relay to the request [id] is a reply for the call [id],
    and settles it with the outcome of the dispatch. *)
Lemma reply_settles (E : env) (ev : message_event) (o : outcome val) (t id : Z) :
  RelaySpec.id_of ev = VNum id ->
  is_reply_for id (MessageEvent true (RelaySpec.reply_of E ev o t)) = true /\
  outcome_of (MessageEvent true (RelaySpec.reply_of E ev o t)) = BridgeSpec.settlement_of o.
Proof.
  intros Hid. destruct o as [result|e].
  - unfold is_reply_for, outcome_of. simpl. rewrite Hid. rewrite Z.eqb_refl. auto.
  - unfold is_reply_for, outcome_of, BridgeSpec.settlement_of. simpl. rewrite Hid.
    rewrite Z.eqb_refl. split; [reflexivity|].
    destruct (String.eqb (err_message e) ""); reflexivity.
Qed.

(** A call of the client whose request the relay serves with [served]. *)
Lemma served_call (E : env) (line : console_entry) (method params : val)
    (served : M Content.vars val) (c : state vars) (r : state Content.vars) :
  InjectedSpec.sound (local c) ->
  truthy method = true ->
  Content.dispatch E method params = served ->
  BridgeSpec.round_trip E (update (print line) ;;; sendMessage method params) served c r.
Proof.
  intros Hs Hm Hserved. unfold BridgeSpec.round_trip.
  set (c0 := State (clock c) (trace c) (outbox c) (print line (local c))).
  assert (Hs0 : InjectedSpec.sound (local c0)) by exact Hs.
  destruct (call_lifecycle method params c0 Hs0)
    as (id & c1 & Hrun & Hid & Hout & _ & _ & _ & _ & Hlife).
  set (ev := MessageEvent true (request_message method params id)).
  assert (Hreq : RelaySpec.is_request ev = true).
  { unfold RelaySpec.is_request, RelaySpec.method_of. simpl. exact Hm. }
  exists id, c1, (request_message method params id),
    (RelaySpec.reply_of E ev (fst (served r)) (clock (snd (served r)))).
  split; [| split; [| split]].
  - unfold bind at 1. unfold update, bind, get_local, set_local. simpl. fold c0. exact Hrun.
  - exact Hout.
  - fold ev. rewrite (relay_on_request E ev r Hreq).
    change (RelaySpec.method_of ev) with method.
    change (RelaySpec.params_of ev) with params. rewrite Hserved. reflexivity.
  - intros tasks t later Hall.
    destruct (reply_settles E ev (fst (served r)) (clock (snd (served r))) id eq_refl)
      as [Hreply Hout'].
    destruct (Hlife tasks Hall) as (_ & _ & _ & Hsettle).
    destruct (Hsettle t _ later Hreply) as [_ Hp]. rewrite Hp, Hout'. reflexivity.
Qed.

(** A call of the client whose message cannot be cloned. *)
Lemma refused_api_call (line : console_entry) (method : val) (message : string)
    (c : state vars) :
  InjectedSpec.sound (local c) ->
  BridgeSpec.refusal (update (print line) ;;; sendMessage method (Uncloneable message))
    message c.
Proof.
  intros Hs. unfold BridgeSpec.refusal.
  set (c0 := State (clock c) (trace c) (outbox c) (print line (local c))).
  assert (Hs0 : InjectedSpec.sound (local c0)) by exact Hs.
  destruct (refused_call method message c0 Hs0)
    as (id & c1 & Hrun & _ & Hout & _ & Htim & _ & Hrej).
  exists id, c1. split; [| split; [exact Hout | split; [exact Htim | exact Hrej]]].
  unfold bind at 1. unfold update, bind, get_local, set_local. simpl. fold c0. exact Hrun.
Qed.

(** X6.  The three calls of the page-side API are served by the three
    functions of the relay.  From any state the client can be in and any
    state of the relay, for arguments that can be cloned: the call posts
    one request; the relay, receiving it, runs the detection, the search
    or the fetch-by-id with the arguments of the call and posts one
    reply; the client, receiving that reply while the call is pending,
    resolves the call with the value returned, or rejects it with an
    error carrying the message of the error thrown (an error whose
    message is empty resolves the call with [undefined]).  The argument
    of [detect] has no effect, and a search without a page is a search of
    page 1.  A call with an argument that cannot be cloned posts nothing:
    its promise is rejected with the error of [postMessage]. *)
Theorem api_calls_are_served_by_the_relay (E : env) (c : state vars)
    (r : state Content.vars) :
  InjectedSpec.sound (local c) ->
  (forall detailed : val,
      BridgeSpec.round_trip E (Injected.detect detailed)
        (Content.detectAirNavX E (VBool false)) c r) /\
  (forall query page : val,
      BridgeSpec.round_trip E (Injected.search query page)
        (Content.searchTasks E query page) c r) /\
  (forall dataModuleId : val,
      BridgeSpec.round_trip E (Injected.fetchContent dataModuleId)
        (Content.fetchContent E dataModuleId) c r) /\
  (forall message,
      BridgeSpec.refusal (Injected.detect (Uncloneable message)) message c) /\
  (forall message page,
      BridgeSpec.refusal (Injected.search (Uncloneable message) page) message c) /\
  (forall (query : val) message,
      BridgeSpec.refusal (Injected.search query (Uncloneable message)) message c) /\
  (forall message,
      BridgeSpec.refusal (Injected.fetchContent (Uncloneable message)) message c).
Proof.
  intros Hs. split; [| split; [| split; [| split; [| split; [| split]]]]].
  - intros detailed.
    destruct detailed; (apply served_call; [exact Hs | reflexivity | reflexivity]).
  - intros query page.
    destruct page;
      (apply served_call; [exact Hs | reflexivity |]);
      unfold Content.dispatch; simpl; reflexivity.
  - intros dataModuleId. apply served_call; [exact Hs | reflexivity | reflexivity].
  - intros message. apply refused_api_call. exact Hs.
  - intros message page. apply refused_api_call. exact Hs.
  - intros query message. apply refused_api_call. exact Hs.
  - intros message. apply refused_api_call. exact Hs.
Qed.

(** A detection called on a page whose first call could not be cloned,
    served by a fresh relay. *)
Lemma api_calls_are_served_by_the_relay_witness :
  InjectedSpec.sound
    (local (run [(0, Call (VStr "search") (Uncloneable "could not be cloned"))]
              (Scenario.start 0 init))) /\
  BridgeSpec.round_trip Scenario.on_51798 (Injected.detect VUndef)
    (Content.detectAirNavX Scenario.on_51798 (VBool false))
    (run [(0, Call (VStr "search") (Uncloneable "could not be cloned"))]
       (Scenario.start 0 init))
    (Scenario.start 0 Content.init).
Proof.
  split; [apply reachable_sound|].
  apply (proj1 (api_calls_are_served_by_the_relay Scenario.on_51798
                  (run [(0, Call (VStr "search") (Uncloneable "could not be cloned"))]
                     (Scenario.start 0 init))
                  (Scenario.start 0 Content.init) (reachable_sound 0 _))).
Defined.

(** ** The invariant of the worker *)

Lemma record_of_lookup (ep : Background.endpoint) (t : Z) (k : string) :
  WorkerSpec.record_of ep t !! k
  = if decide (k = "airnavx_host") then Some (VStr (Background.host ep))
    else if decide (k = "airnavx_port") then Some (VNum (Background.port ep))
    else if decide (k = "last_detection") then Some (VNum t)
    else None.
Proof.
  unfold WorkerSpec.record_of, BackgroundSpec.items. simpl.
  destruct (decide (k = "airnavx_host")) as [->|H1].
  { rewrite lookup_insert_eq. reflexivity. }
  rewrite lookup_insert_ne by congruence.
  destruct (decide (k = "airnavx_port")) as [->|H2].
  { rewrite lookup_insert_eq. reflexivity. }
  rewrite lookup_insert_ne by congruence.
  destruct (decide (k = "last_detection")) as [->|H3].
  { rewrite lookup_insert_eq. reflexivity. }
  rewrite lookup_insert_ne by congruence.
  apply lookup_empty.
Qed.

(** A new record replaces whatever the storage area held. *)
Lemma record_absorbs (ep : Background.endpoint) (t : Z) (m : gmap string val) :
  WorkerSpec.stored_ok m -> WorkerSpec.record_of ep t ∪ m = WorkerSpec.record_of ep t.
Proof.
  intros [-> | (ep' & t' & _ & ->)].
  - apply map_eq. intros k. rewrite lookup_union, lookup_empty.
    destruct (WorkerSpec.record_of ep t !! k); reflexivity.
  - apply map_eq. intros k. rewrite lookup_union, !record_of_lookup.
    destruct (decide (k = "airnavx_host")); [reflexivity|].
    destruct (decide (k = "airnavx_port")); [reflexivity|].
    destruct (decide (k = "last_detection")); reflexivity.
Qed.

Lemma consistent_stored_ok (c : Background.vars) :
  WorkerSpec.consistent c -> WorkerSpec.stored_ok (Background.stored c).
Proof.
  unfold WorkerSpec.consistent. destruct (Background.detectedAirNavX c) as [ep|].
  - intros (Hc & _ & _ & t & _ & Hst). right. eauto.
  - tauto.
Qed.

(** What a sweep leaves in the variables of the worker: everything is set
    anew but the storage area, which gets the new record on a hit and is
    left alone otherwise. *)
Lemma background_sweep_local (E : env) (s : state Background.vars) : exists o s',
  Background.sweep E s = (Ret (BackgroundSpec.endpoint_of <$> o), s') /\
  match o with
  | Some hp =>
      hp ∈ BackgroundSpec.candidates /\
      local s' = BackgroundSpec.hit_local hp (clock s') (local s)
  | None =>
      local s'
      = Background.Vars None (Some (clock s')) (Background.stored (local s))
          (Some "✗") (Some "#DC2626")
  end.
Proof.
  unfold Background.sweep, bind. rewrite for_of_nested.
  destruct (for_of_swept (BackgroundSpec.probe_body E) BackgroundSpec.probe_of
              BackgroundSpec.endpoint_of (BackgroundSpec.hit E) BackgroundSpec.hit_local
              BackgroundSpec.kept
              (fun c => eq_refl)
              (fun c1 c2 c3 (H1 : BackgroundSpec.kept c1 c2) (H2 : BackgroundSpec.kept c2 c3) =>
                 eq_trans H2 H1)
              (background_probe_step E) BackgroundSpec.candidates s)
    as (evs & o & s1 & Hrun & Htr & Hsw & Hout & Hclk & Hloc).
  fold BackgroundSpec.candidates.
  change (fun hp => try_catch _ _) with (BackgroundSpec.probe_body E). rewrite Hrun.
  destruct o as [hp|]; simpl.
  - exists (Some hp), s1. split; [reflexivity|]. split.
    + apply swept_found in Hsw. destruct Hsw as (before & after & _ & _ & Hl & _).
      rewrite Hl. apply elem_of_app. right. apply elem_of_cons. left. reflexivity.
    + destruct Hloc as (c & Hk & ->). unfold BackgroundSpec.hit_local, BackgroundSpec.kept in *.
      rewrite Hk. reflexivity.
  - exists None. eexists (State _ _ _ _).
    unfold Background.update_badge, ret, now, set_local, get_local, bind. simpl.
    split; [reflexivity|]. unfold BackgroundSpec.kept in Hloc.
    unfold Background.set_badge, Background.set_detection. simpl. rewrite Hloc. reflexivity.
Qed.

Lemma candidate_endpoint (hp : string * Z) :
  hp ∈ BackgroundSpec.candidates -> WorkerSpec.is_candidate (BackgroundSpec.endpoint_of hp).
Proof. destruct hp. intros H. exact H. Qed.

(** A sweep re-establishes the invariant; all it needs is a storage area
    in order. *)
Lemma sweep_consistent (E : env) (s : state Background.vars) :
  WorkerSpec.stored_ok (Background.stored (local s)) ->
  WorkerSpec.consistent (local (snd (Background.sweep E s))).
Proof.
  intros Hst. destruct (background_sweep_local E s) as (o & s' & Hrun & Hloc).
  rewrite Hrun. simpl. destruct o as [hp|].
  - destruct Hloc as [Hin ->]. unfold WorkerSpec.consistent, BackgroundSpec.hit_local. simpl.
    split; [apply candidate_endpoint; exact Hin|]. split; [reflexivity|].
    split; [reflexivity|]. exists (clock s'). split; [reflexivity|].
    destruct hp as [h p]. apply (record_absorbs (Background.Endpoint h p)). exact Hst.
  - rewrite Hloc. unfold WorkerSpec.consistent. simpl. split; [exact Hst|]. right. eauto.
Qed.

(** *** Strings: prefixes *)

Lemma append_assoc (a b c : string) : (a +:+ b) +:+ c = a +:+ (b +:+ c).
Proof.
  induction a as [|x a IH]; [reflexivity|].
  change (String x ((a +:+ b) +:+ c) = String x (a +:+ (b +:+ c))). rewrite IH. reflexivity.
Qed.

Lemma prefix_append (a b : string) : String.prefix a (a +:+ b) = true.
Proof.
  induction a as [|x a IH].
  - destruct b; reflexivity.
  - change (String.prefix (String x a) (String x (a +:+ b)) = true). simpl.
    destruct (Ascii.ascii_dec x x); [exact IH | congruence].
Qed.


Lemma targets_intro (candidates : list (string * Z)) (paths : list string)
    (hp : string * Z) (path rest : string) (req : request) :
  hp ∈ candidates -> path ∈ paths ->
  req_url req = Url.origin (VStr (fst hp)) (VNum (snd hp)) +:+ (path +:+ rest) ->
  Effects.targets candidates paths req = true.
Proof.
  intros Hhp Hpath Hurl. unfold Effects.targets.
  apply existsb_exists. exists hp. split; [apply list_elem_of_In; exact Hhp|].
  apply existsb_exists. exists path. split; [apply list_elem_of_In; exact Hpath|].
  rewrite Hurl, <- append_assoc. apply prefix_append.
Qed.


(** *** The requests issued *)

Lemma issues_refl {C} (P : request -> Prop) (s : state C) : Effects.issues P s s.
Proof. exists []. rewrite app_nil_r. split; [reflexivity | constructor]. Qed.

Lemma issues_trans {C} (P : request -> Prop) (s1 s2 s3 : state C) :
  Effects.issues P s1 s2 -> Effects.issues P s2 s3 -> Effects.issues P s1 s3.
Proof.
  intros (evs1 & H1 & F1) (evs2 & H2 & F2). exists (evs1 ++ evs2).
  rewrite H2, H1, app_assoc. split; [reflexivity | apply Forall_app; auto].
Qed.

Lemma issues_weaken {C} (P Q : request -> Prop) (s s' : state C) :
  (forall req, P req -> Q req) -> Effects.issues P s s' -> Effects.issues Q s s'.
Proof.
  intros H (evs & Htr & F). exists evs. split; [exact Htr|].
  eapply Forall_impl; [exact F|]. intros ev. apply H.
Qed.

Lemma swept_sent {A} (req : A -> request) hit (l : list A) evs o :
  swept req hit l evs o -> Forall (fun ev => exists x, x ∈ l /\ sent ev = req x) evs.
Proof.
  induction 1 as [|x rest ev|x rest ev evs o Hs Hh Hsw IH].
  - constructor.
  - constructor; [| constructor]. exists x. split; [apply elem_of_cons; auto | assumption].
  - constructor.
    + exists x. split; [apply elem_of_cons; auto | assumption].
    + eapply Forall_impl; [exact IH|]. intros e (y & Hy & He). exists y.
      split; [apply elem_of_cons; auto | exact He].
Qed.

Lemma step_ok_refl (P : request -> Prop) (s : state Background.vars) : WorkerSpec.step_ok P s s.
Proof. intros H. split; [exact H | apply issues_refl]. Qed.

Lemma step_ok_trans (P : request -> Prop) (s1 s2 s3 : state Background.vars) :
  WorkerSpec.step_ok P s1 s2 -> WorkerSpec.step_ok P s2 s3 -> WorkerSpec.step_ok P s1 s3.
Proof.
  intros H12 H23 H1. destruct (H12 H1) as [H2 I12]. destruct (H23 H2) as [H3 I23].
  split; [exact H3 | eapply issues_trans; eassumption].
Qed.

Lemma step_ok_post (P : request -> Prop) (msg : val) :
  Effects.keeps (WorkerSpec.step_ok P) (post msg).
Proof.
  intros s H. split; [exact H|]. exists []. simpl. rewrite app_nil_r.
  split; [reflexivity | constructor].
Qed.

(** The detection of the worker: the invariant is re-established, the
    requests issued are probes of candidates, and the endpoint returned is
    the one recorded. *)
Lemma background_detect_step (E : env) (f : val) (s : state Background.vars) :
  WorkerSpec.consistent (local s) ->
  exists o s',
    Background.detectAirNavX E f s = (Ret o, s') /\
    WorkerSpec.consistent (local s') /\
    Background.detectedAirNavX (local s') = o /\
    Effects.issues
      (fun req => exists hp, hp ∈ BackgroundSpec.candidates /\ req = BackgroundSpec.probe_of hp)
      s s'.
Proof.
  intros Hc. rewrite background_detect_cases.
  destruct (Background.cache_hit f (local s) (clock s)).
  - exists (Background.detectedAirNavX (local s)), s.
    split; [reflexivity|]. split; [exact Hc|]. split; [reflexivity | apply issues_refl].
  - pose proof (sweep_consistent E s (consistent_stored_ok _ Hc)) as Hc'.
    destruct (background_sweep_spec E s) as (evs & o & s' & Hrun & Htr & Hsw & _ & _ & Hdet & _).
    rewrite Hrun in *. simpl in Hc'.
    exists (BackgroundSpec.endpoint_of <$> o), s'.
    split; [reflexivity|]. split; [exact Hc'|]. split; [exact Hdet|].
    exists evs. split; [exact Htr|]. apply swept_sent in Hsw.
    eapply Forall_impl; [exact Hsw|]. intros ev (hp & Hhp & Hsent). eauto.
Qed.

Lemma build_url_shape (E : env) (ep : Background.endpoint) (endpointPath params : val)
    (url : string) :
  Background.build_url E ep endpointPath params = inr url ->
  exists rest,
    url = Url.origin (VStr (Background.host ep)) (VNum (Background.port ep))
          +:+ (to_string endpointPath +:+ rest).
Proof.
  unfold Background.build_url. destruct params; try discriminate;
    repeat match goal with
           | |- context [if ?b then _ else _] => destruct b
           | |- context [match ?x with inl _ => _ | inr _ => _ end] => destruct x
           end;
    try discriminate; intros [= <-];
    first [ exists ""; rewrite <- append_assoc;
            match goal with |- ?a = ?a +:+ "" => idtac end;
            generalize (Url.origin (VStr (Background.host ep)) (VNum (Background.port ep))
                        +:+ to_string endpointPath);
            intros u; induction u as [|x u IH];
            [reflexivity | change (String x u = String x (u +:+ "")); rewrite <- IH; reflexivity]
          | eexists; rewrite append_assoc; reflexivity ].
Qed.

Section WorkerSteps.
Variable E : env.
Variable P : request -> Prop.
Hypothesis P_probe : forall hp, hp ∈ BackgroundSpec.candidates -> P (BackgroundSpec.probe_of hp).

Lemma detect_step_ok (f : val) :
  Effects.keeps (WorkerSpec.step_ok P) (Background.detectAirNavX E f).
Proof.
  intros s Hc. destruct (background_detect_step E f s Hc) as (o & s' & Hrun & Hc' & _ & Hiss).
  rewrite Hrun. simpl. split; [exact Hc'|].
  eapply issues_weaken; [| exact Hiss]. intros req (hp & Hhp & ->). apply P_probe. exact Hhp.
Qed.

Lemma fetchFromAirNavX_step_ok (endpointPath : val) (o : Background.options) :
  (forall hp m rest h b,
      hp ∈ BackgroundSpec.candidates ->
      P (Request m (Url.origin (VStr (fst hp)) (VNum (snd hp))
                    +:+ (to_string endpointPath +:+ rest)) h b)) ->
  Effects.keeps (WorkerSpec.step_ok P) (Background.fetchFromAirNavX E endpointPath o).
Proof.
  intros P_path s Hc.
  destruct (background_detect_step E (VBool false) s Hc) as (d & s' & Hrun & Hc' & Hdet & Hiss).
  assert (Hiss' : Effects.issues P s s').
  { eapply issues_weaken; [| exact Hiss]. intros req (hp & Hhp & ->). apply P_probe. exact Hhp. }
  destruct d as [ep|].
  - assert (Hcand : WorkerSpec.is_candidate ep).
    { unfold WorkerSpec.consistent in Hc'. rewrite Hdet in Hc'. tauto. }
    destruct (Background.build_url E ep endpointPath (BackgroundSpec.params_of o))
      as [e|url] eqn:Hurl.
    + assert (Heq : Background.fetchFromAirNavX E endpointPath o s = (Throw e, s')).
      { unfold Background.fetchFromAirNavX. unfold bind at 1. rewrite Hrun.
        fold (BackgroundSpec.params_of o). unfold bind at 1. rewrite Hurl. reflexivity. }
      rewrite Heq. simpl. auto.
    + destruct (fetchFromAirNavX_detected E endpointPath o s s' ep url Hrun Hurl)
        as (ev & Hsent & _ & ->).
      simpl. split; [exact Hc'|].
      eapply issues_trans; [exact Hiss'|]. exists [ev]. split; [reflexivity|].
      constructor; [| constructor]. rewrite Hsent.
      apply build_url_shape in Hurl as [rest ->].
      apply (P_path (Background.host ep, Background.port ep)). exact Hcand.
  - rewrite (fetchFromAirNavX_not_detected E endpointPath o s s' Hrun). simpl. auto.
Qed.

End WorkerSteps.

Ltac worker_step_auto P leaf :=
  repeat (keeps_step (step_ok_refl P) (step_ok_trans P)
    ltac:(first [ apply step_ok_post | leaf ])).

Lemma get_opt_get (v : val) (k : string) (a : val) : get v k = inr a -> opt_get v k = a.
Proof. destruct v; simpl; intros [= <-]; reflexivity. Qed.

Lemma keeps_bind_lift {C A B} (R : state C -> state C -> Prop) (a : A) (k : A -> M C B) :
  Effects.keeps R (k a) -> Effects.keeps R (bind (lift (inr a)) k).
Proof. intros H s. exact (H s). Qed.

Section WorkerHandlers.
Variable E : env.
Variable P : request -> Prop.
Hypothesis P_probe : forall hp, hp ∈ BackgroundSpec.candidates -> P (BackgroundSpec.probe_of hp).
Hypothesis P_api : forall hp m rest h b,
  hp ∈ BackgroundSpec.candidates ->
  P (Request m (Url.origin (VStr (fst hp)) (VNum (snd hp)) +:+ ("/airnavx/api/" +:+ rest)) h b).

Lemma handleDetect_step_ok (request : val) :
  Effects.keeps (WorkerSpec.step_ok P) (Background.handleDetect E request).
Proof.
  unfold Background.handleDetect.
  worker_step_auto P ltac:(apply detect_step_ok; exact P_probe).
Qed.

Lemma handleSearch_step_ok (request : val) :
  Effects.keeps (WorkerSpec.step_ok P) (Background.handleSearch E request).
Proof.
  unfold Background.handleSearch.
  worker_step_auto P
    ltac:(apply fetchFromAirNavX_step_ok;
          [exact P_probe | intros hp m rest h b Hhp;
                           apply (P_api hp m ("viewer/search" +:+ rest) h b Hhp)]).
Qed.

Lemma handleFetchContent_step_ok (request : val) :
  Effects.keeps (WorkerSpec.step_ok P) (Background.handleFetchContent E request).
Proof.
  unfold Background.handleFetchContent.
  worker_step_auto P
    ltac:(apply fetchFromAirNavX_step_ok;
          [exact P_probe | intros hp m rest h b Hhp;
                           apply (P_api hp m ("dataModule/content" +:+ rest) h b Hhp)]).
Qed.

Lemma handleCustomFetch_step_ok (request : val) :
  (forall hp m rest h b,
      hp ∈ BackgroundSpec.candidates ->
      P (Request m (Url.origin (VStr (fst hp)) (VNum (snd hp))
                    +:+ (to_string (opt_get request "endpoint") +:+ rest)) h b)) ->
  Effects.keeps (WorkerSpec.step_ok P) (Background.handleCustomFetch E request).
Proof.
  intros P_custom. unfold Background.handleCustomFetch.
  worker_step_auto P
    ltac:(apply fetchFromAirNavX_step_ok; [exact P_probe | exact P_custom]).
Qed.

Lemma handleGetStatus_step_ok (request : val) :
  Effects.keeps (WorkerSpec.step_ok P) (Background.handleGetStatus request).
Proof. unfold Background.handleGetStatus. worker_step_auto P fail. Qed.

Lemma on_message_step_ok (request : val) :
  (is_str (opt_get request "action") "customFetch" = true ->
   forall hp m rest h b,
     hp ∈ BackgroundSpec.candidates ->
     P (Request m (Url.origin (VStr (fst hp)) (VNum (snd hp))
                   +:+ (to_string (opt_get request "endpoint") +:+ rest)) h b)) ->
  Effects.keeps (WorkerSpec.step_ok P) (Background.on_message E request).
Proof.
  intros P_custom. unfold Background.on_message.
  destruct (get request "action") as [e|action] eqn:Hget.
  - intros s. apply step_ok_refl.
  - apply get_opt_get in Hget. rewrite Hget in P_custom.
    apply keeps_bind_lift.
    destruct (is_str action "customFetch") eqn:Hcustom.
    + assert (H1 : is_str action "detect" = false)
        by (apply is_str_eq in Hcustom; subst; reflexivity).
      assert (H2 : is_str action "search" = false)
        by (apply is_str_eq in Hcustom; subst; reflexivity).
      assert (H3 : is_str action "fetchContent" = false)
        by (apply is_str_eq in Hcustom; subst; reflexivity).
      rewrite H1, H2, H3.
      worker_step_auto P ltac:(apply handleCustomFetch_step_ok; apply P_custom; reflexivity).
    + worker_step_auto P
        ltac:(first [ apply handleDetect_step_ok | apply handleSearch_step_ok
                    | apply handleFetchContent_step_ok | apply handleGetStatus_step_ok ]).
Qed.

End WorkerHandlers.

(** *** Runs of the worker *)

Lemma worker_handle_at_step (E : env) (P : request -> Prop) (te : Z * Worker.task)
    (s : state Background.vars) :
  (forall hp, hp ∈ BackgroundSpec.candidates -> P (BackgroundSpec.probe_of hp)) ->
  (forall hp m rest h b,
      hp ∈ BackgroundSpec.candidates ->
      P (Request m (Url.origin (VStr (fst hp)) (VNum (snd hp)) +:+ ("/airnavx/api/" +:+ rest))
           h b)) ->
  (forall path hp m rest h b,
      path ∈ Worker.custom_paths [te] ->
      hp ∈ BackgroundSpec.candidates ->
      P (Request m (Url.origin (VStr (fst hp)) (VNum (snd hp)) +:+ (path +:+ rest)) h b)) ->
  WorkerSpec.step_ok P s (Worker.handle_at E te s).
Proof.
  intros P_probe P_api P_custom Hc. unfold Worker.handle_at.
  set (s0 := State (fst te) (trace s) (outbox s) (local s)).
  assert (H0 : WorkerSpec.step_ok P s0 (Worker.handle E (snd te) s0)).
  { unfold Worker.handle. destruct te as [t [request|]]; simpl snd.
    - apply on_message_step_ok; [exact P_probe | exact P_api |].
      intros Hcustom hp m rest h b Hhp. apply P_custom; [| exact Hhp].
      unfold Worker.custom_paths. simpl. rewrite Hcustom. apply list_elem_of_here.
    - apply detect_step_ok. exact P_probe. }
  destruct (H0 Hc) as [Hc' (evs & Htr & Hall)]. split; [exact Hc'|].
  exists evs. split; [exact Htr | exact Hall].
Qed.

Lemma custom_paths_app (l1 l2 : list (Z * Worker.task)) :
  Worker.custom_paths (l1 ++ l2) = Worker.custom_paths l1 ++ Worker.custom_paths l2.
Proof. unfold Worker.custom_paths. apply flat_map_app. Qed.

Lemma worker_run_step (E : env) (P : request -> Prop) (tasks : list (Z * Worker.task))
    (s : state Background.vars) :
  (forall hp, hp ∈ BackgroundSpec.candidates -> P (BackgroundSpec.probe_of hp)) ->
  (forall hp m rest h b,
      hp ∈ BackgroundSpec.candidates ->
      P (Request m (Url.origin (VStr (fst hp)) (VNum (snd hp)) +:+ ("/airnavx/api/" +:+ rest))
           h b)) ->
  (forall path hp m rest h b,
      path ∈ Worker.custom_paths tasks ->
      hp ∈ BackgroundSpec.candidates ->
      P (Request m (Url.origin (VStr (fst hp)) (VNum (snd hp)) +:+ (path +:+ rest)) h b)) ->
  WorkerSpec.step_ok P s (Worker.run E tasks s).
Proof.
  intros P_probe P_api. revert s. induction tasks as [|te tasks IH]; intros s P_custom.
  - apply step_ok_refl.
  - simpl. eapply step_ok_trans.
    + apply worker_handle_at_step; [exact P_probe | exact P_api |].
      intros path hp m rest h b Hpath. apply P_custom.
      change (te :: tasks) with ([te] ++ tasks). rewrite custom_paths_app.
      apply elem_of_app. left. exact Hpath.
    + apply IH. intros path hp m rest h b Hpath. apply P_custom.
      change (te :: tasks) with ([te] ++ tasks). rewrite custom_paths_app.
      apply elem_of_app. right. exact Hpath.
Qed.

Lemma init_consistent : WorkerSpec.consistent Background.init.
Proof.
  unfold WorkerSpec.consistent. simpl. split; [left; reflexivity|]. left. auto.
Qed.

(** *** The endpoint recorded *)

Lemma records_refl (s : state Background.vars) : WorkerSpec.records s s.
Proof. intros H. exact H. Qed.

Lemma records_trans (s1 s2 s3 : state Background.vars) :
  WorkerSpec.records s1 s2 -> WorkerSpec.records s2 s3 -> WorkerSpec.records s1 s3.
Proof. unfold WorkerSpec.records. auto. Qed.

Lemma records_post (msg : val) : Effects.keeps WorkerSpec.records (post msg).
Proof. intros s H. exact H. Qed.

Lemma records_fetch (E : env) (req : request) (d : option Z) :
  Effects.keeps WorkerSpec.records (fetch (C := Background.vars) E req d).
Proof.
  intros s H. unfold fetch. simpl.
  destruct (if match d with Some d0 => d0 <=? Z.max 0 (latency (net E (clock s) req))
                          | None => false end
            then inl AbortError else result (net E (clock s) req)); exact H.
Qed.

(** A detection records a candidate or nothing, whatever was recorded
    before it, and returns what it has recorded. *)
Lemma detect_records (E : env) (f : val) (s : state Background.vars) :
  WorkerSpec.recorded_ok (local s) ->
  exists o s',
    Background.detectAirNavX E f s = (Ret o, s') /\
    Background.detectedAirNavX (local s') = o /\
    WorkerSpec.recorded_ok (local s').
Proof.
  intros Hc. rewrite background_detect_cases.
  destruct (Background.cache_hit f (local s) (clock s)).
  - exists (Background.detectedAirNavX (local s)), s. auto.
  - destruct (background_sweep_local E s) as (o & s' & Hrun & Hloc).
    exists (BackgroundSpec.endpoint_of <$> o), s'. split; [exact Hrun|].
    destruct o as [hp|].
    + destruct Hloc as [Hin ->]. split; [reflexivity|].
      apply candidate_endpoint. exact Hin.
    + rewrite Hloc. split; [reflexivity | exact I].
Qed.

Lemma detect_keeps_records (E : env) (f : val) :
  Effects.keeps WorkerSpec.records (Background.detectAirNavX E f).
Proof.
  intros s Hc. destruct (detect_records E f s Hc) as (o & s' & Hrun & _ & Hc').
  rewrite Hrun. exact Hc'.
Qed.

Ltac records_auto leaf :=
  repeat (keeps_step records_refl records_trans
    ltac:(first [ apply records_post | apply records_fetch
                | apply detect_keeps_records | leaf ])).

Lemma fetchFromAirNavX_records (E : env) (endpointPath : val) (o : Background.options) :
  Effects.keeps WorkerSpec.records (Background.fetchFromAirNavX E endpointPath o).
Proof. unfold Background.fetchFromAirNavX. cbv zeta. records_auto fail. Qed.

Lemma on_message_records (E : env) (request : val) :
  Effects.keeps WorkerSpec.records (Background.on_message E request).
Proof.
  unfold Background.on_message, Background.handleDetect, Background.handleSearch,
    Background.handleFetchContent, Background.handleCustomFetch, Background.handleGetStatus.
  cbv zeta. records_auto ltac:(apply fetchFromAirNavX_records).
Qed.

Lemma worker_run_records (E : env) (tasks : list (Z * Worker.task))
    (s : state Background.vars) :
  WorkerSpec.records s (Worker.run E tasks s).
Proof.
  revert s. induction tasks as [|te tasks IH]; intros s; [apply records_refl|].
  simpl. eapply records_trans; [| apply IH].
  unfold Worker.handle_at, Worker.handle. intros Hc.
  destruct te as [t [request|]]; simpl snd.
  - apply (on_message_records E request (State t (trace s) (outbox s) (local s))). exact Hc.
  - apply (detect_keeps_records E (VBool true) (State t (trace s) (outbox s) (local s))).
    exact Hc.
Qed.

(** X7.  The worker never records an endpoint that is not one of its
    twelve candidates.  From any state in which the recorded endpoint is
    a candidate or [null] (the start of the script in particular,
    whatever the storage area and the badge hold from an earlier run),
    after any sequence of messages and refreshes, at any times and
    against any network and storage, the recorded endpoint is a candidate
    or [null]; and a detection returns the very endpoint it has
    recorded. *)
Theorem worker_records_candidates_only (E : env) (tasks : list (Z * Worker.task))
    (s : state Background.vars) :
  WorkerSpec.recorded_ok (local s) ->
  WorkerSpec.recorded_ok (local (Worker.run E tasks s)) /\
  forall f, exists o s',
    Background.detectAirNavX E f (Worker.run E tasks s) = (Ret o, s') /\
    Background.detectedAirNavX (local s') = o /\
    WorkerSpec.recorded_ok (local s').
Proof.
  intros Hc. pose proof (worker_run_records E tasks s Hc) as Hc'.
  split; [exact Hc'|]. intros f. apply detect_records. exact Hc'.
Qed.

(** A worker started with the record and the badge of an earlier run,
    asked to detect and then refreshed, the service being on 51798. *)
Lemma worker_records_candidates_only_witness :
  WorkerSpec.recorded_ok
    (Background.Vars None None
       (WorkerSpec.record_of (Background.Endpoint "localhost" 50000) 7)
       (Some "✓") (Some "#10B981")) /\
  Background.detectedAirNavX
    (local (Worker.run Scenario.on_51798
              [(1000, Worker.Incoming (VObj [("action", VStr "detect")]));
               (400000, Worker.Refresh)]
              (Scenario.start 0
                 (Background.Vars None None
                    (WorkerSpec.record_of (Background.Endpoint "localhost" 50000) 7)
                    (Some "✓") (Some "#10B981")))))
  = Some (Background.Endpoint "127.0.0.1" 51798) /\
  WorkerSpec.recorded_ok
    (local (Worker.run Scenario.on_51798
              [(1000, Worker.Incoming (VObj [("action", VStr "detect")]));
               (400000, Worker.Refresh)]
              (Scenario.start 0
                 (Background.Vars None None
                    (WorkerSpec.record_of (Background.Endpoint "localhost" 50000) 7)
                    (Some "✓") (Some "#10B981"))))).
Proof.
  split; [exact I|]. split; [vm_compute; reflexivity|].
  apply (proj1 (worker_records_candidates_only Scenario.on_51798
                  [(1000, Worker.Incoming (VObj [("action", VStr "detect")]));
                   (400000, Worker.Refresh)]
                  (Scenario.start 0
                     (Background.Vars None None
                        (WorkerSpec.record_of (Background.Endpoint "localhost" 50000) 7)
                        (Some "✓") (Some "#10B981")))
                  I)).
Defined.

Lemma probe_targets (paths : list string) (hp : string * Z) :
  hp ∈ BackgroundSpec.candidates ->
  Effects.targets BackgroundSpec.candidates ("/airnavx/api/" :: paths)
    (BackgroundSpec.probe_of hp) = true.
Proof.
  intros Hhp.
  apply (targets_intro _ _ hp "/airnavx/api/" "viewer/search?q=test&page=1");
    [exact Hhp | apply list_elem_of_here | reflexivity].
Qed.

(** X8.  Every HTTP request the worker ever issues goes to one of its
    twelve candidate endpoints: its URL is the text
    [http://<host>:<port>] of a candidate followed by a path under
    [/airnavx/api/], or, for a [customFetch], by the endpoint text the
    caller gave.  This holds for any sequence of messages and refreshes,
    against any network and storage. *)
Theorem worker_requests_stay_local (E : env) (tasks : list (Z * Worker.task)) (t : Z) :
  Forall
    (fun ev =>
       Effects.targets BackgroundSpec.candidates ("/airnavx/api/" :: Worker.custom_paths tasks)
         (sent ev) = true)
    (trace (Worker.run E tasks (Scenario.start t Background.init))).
Proof.
  destruct (worker_run_step E
              (fun req =>
                 Effects.targets BackgroundSpec.candidates
                   ("/airnavx/api/" :: Worker.custom_paths tasks) req = true)
              tasks (Scenario.start t Background.init))
    as [_ (evs & Htr & Hall)].
  - intros hp Hhp. apply probe_targets. exact Hhp.
  - intros hp m rest h b Hhp.
    apply (targets_intro _ _ hp "/airnavx/api/" rest);
      [exact Hhp | apply list_elem_of_here | reflexivity].
  - intros path hp m rest h b Hpath Hhp.
    apply (targets_intro _ _ hp path rest);
      [exact Hhp | apply list_elem_of_further; exact Hpath | reflexivity].
  - exact init_consistent.
  - rewrite Htr. simpl. exact Hall.
Qed.

(** ** The requests of the relay *)

Lemma relay_step_refl (P : request -> Prop) (s : state Content.vars) : RelaySpec.step_ok P s s.
Proof. intros H. split; [exact H | apply issues_refl]. Qed.

Lemma relay_step_trans (P : request -> Prop) (s1 s2 s3 : state Content.vars) :
  RelaySpec.step_ok P s1 s2 -> RelaySpec.step_ok P s2 s3 -> RelaySpec.step_ok P s1 s3.
Proof.
  intros H12 H23 H1. destruct (H12 H1) as [H2 I12]. destruct (H23 H2) as [H3 I23].
  split; [exact H3 | eapply issues_trans; eassumption].
Qed.

(** The detection of the relay: the cache stays in order, the requests
    issued are probes of candidates, and the result is the not-found
    object or the object of a candidate. *)
Lemma content_detect_step (E : env) (detailed : val) (s : state Content.vars) :
  RelaySpec.cache_ok (local s) ->
  exists r s',
    Content.detectAirNavX E detailed s = (Ret r, s') /\
    RelaySpec.cache_ok (local s') /\
    (r = Content.not_found \/
     exists hp, hp ∈ ContentSpec.candidates /\ r = ContentSpec.found_of hp) /\
    Effects.issues
      (fun req => exists hp, hp ∈ ContentSpec.candidates /\ req = ContentSpec.probe_of hp)
      s s'.
Proof.
  intros Hc. rewrite content_detect_cases.
  destruct (Content.cache_hit (local s) (clock s)) eqn:Hhit.
  - exists (Content.airnavxCache (local s)), s.
    split; [reflexivity|]. split; [exact Hc|]. split; [| apply issues_refl].
    unfold Content.cache_hit in Hhit. apply andb_prop in Hhit as [Ht _].
    destruct Hc as [Hc|[Hc|Hc]]; [rewrite Hc in Ht; discriminate | auto | auto].
  - destruct (content_sweep_spec E s) as (evs & o & s' & Hrun & Htr & Hsw & _ & _ & Hloc).
    exists (ContentSpec.result_of o), s'. split; [exact Hrun|].
    assert (Hres : ContentSpec.result_of o = Content.not_found \/
                   exists hp, hp ∈ ContentSpec.candidates /\
                              ContentSpec.result_of o = ContentSpec.found_of hp).
    { destruct o as [hp|]; [right | left; reflexivity].
      apply swept_found in Hsw. destruct Hsw as (before & after & _ & _ & Hl & _).
      exists hp. split; [| reflexivity].
      rewrite Hl. apply elem_of_app. right. apply list_elem_of_here. }
    split; [| split; [exact Hres|]].
    + unfold RelaySpec.cache_ok. rewrite Hloc. simpl. right. exact Hres.
    + exists evs. split; [exact Htr|]. apply swept_sent in Hsw.
      eapply Forall_impl; [exact Hsw|]. intros ev (hp & Hhp & Hsent). eauto.
Qed.

Lemma attempt_urls (h p id : val) (a : attempt) :
  a ∈ Content.attempts h p id ->
  exists rest, a_url a = Url.origin h p +:+ ("/airnavx/api/" +:+ rest).
Proof.
  unfold Content.attempts. intros H.
  repeat (apply elem_of_cons in H as [->|H]); try (eexists; reflexivity).
  apply elem_of_nil in H. contradiction.
Qed.

(** The search of the relay once the detection has answered. *)
Lemma searchTasks_after_detection (E : env) (query page d : val)
    (s s0 : state Content.vars) :
  Content.detectAirNavX E (VBool false) s = (Ret d, s0) ->
  (truthy (opt_get d "success") = false ->
   Content.searchTasks E query page s = (Throw (Error "AirNavX not available"), s0)) /\
  (truthy (opt_get d "success") = true ->
   (page = VNull ->
    exists e, err_name e = "TypeError" /\
              Content.searchTasks E query page s = (Throw e, s0)) /\
   (page <> VNull ->
    exists ev,
      sent ev
      = SearchSpec.request_of (Url.origin (opt_get d "host") (opt_get d "port")) query
          (SearchSpec.page_of page) /\
      abort_after ev = None /\
      Content.searchTasks E query page s
      = (SearchSpec.relay_answer ev,
         State (settled_at ev) (trace s0 ++ [ev]) (outbox s0) (local s0)))).
Proof.
  intros Hrun. split; [| intros Hok; split].
  - intros Hko. unfold Content.searchTasks. unfold bind at 1. rewrite Hrun, Hko. reflexivity.
  - intros ->. eexists. split; [| unfold Content.searchTasks; unfold bind at 1;
                                  rewrite Hrun, Hok; reflexivity].
    reflexivity.
  - intros Hpage.
    assert (Hstr : toString_method (SearchSpec.page_of page)
                   = inr (to_string (SearchSpec.page_of page))).
    { destruct page; try reflexivity. congruence. }
    destruct (fetch_step E
                (SearchSpec.request_of (Url.origin (opt_get d "host") (opt_get d "port"))
                   query (SearchSpec.page_of page))
                None s0) as (ev & Hsent & Hab & _ & _ & Hfetch).
    exists ev. split; [exact Hsent|]. split; [exact Hab|].
    unfold Content.searchTasks. unfold bind at 1. rewrite Hrun, Hok.
    cbn [negb]. cbv beta iota.
    fold (SearchSpec.page_of page). rewrite Hstr.
    unfold bind at 1. simpl lift. unfold ret at 1.
    unfold bind at 1.
    change (Request "GET" _ Content.accept_json None)
      with (SearchSpec.request_of (Url.origin (opt_get d "host") (opt_get d "port"))
              query (SearchSpec.page_of page)).
    rewrite Hfetch. unfold SearchSpec.relay_answer.
    destruct (got ev) as [e|r]; [reflexivity|].
    destruct (ok r); simpl; [| reflexivity].
    unfold bind. destruct (json r) as [e|data]; [reflexivity|].
    cbv beta iota delta [lift ret]. destruct (read data "results"); reflexivity.
Qed.

Section RelaySteps.
Variable E : env.
Variable P : request -> Prop.
Hypothesis P_probe : forall hp, hp ∈ ContentSpec.candidates -> P (ContentSpec.probe_of hp).
Hypothesis P_api : forall hp m rest h b,
  hp ∈ ContentSpec.candidates ->
  P (Request m (Url.origin (VStr (fst hp)) (VNum (snd hp)) +:+ ("/airnavx/api/" +:+ rest)) h b).

Lemma content_detect_step_ok (detailed : val) :
  Effects.keeps (RelaySpec.step_ok P) (Content.detectAirNavX E detailed).
Proof.
  intros s Hc. destruct (content_detect_step E detailed s Hc) as (r & s' & Hrun & Hc' & _ & Hiss).
  rewrite Hrun. simpl. split; [exact Hc'|].
  eapply issues_weaken; [| exact Hiss]. intros req (hp & Hhp & ->). apply P_probe. exact Hhp.
Qed.

Lemma searchTasks_step_ok (query page : val) :
  Effects.keeps (RelaySpec.step_ok P) (Content.searchTasks E query page).
Proof.
  intros s Hc.
  destruct (content_detect_step E (VBool false) s Hc) as (r & s' & Hrun & Hc' & Hres & Hiss).
  assert (Hiss' : Effects.issues P s s').
  { eapply issues_weaken; [| exact Hiss]. intros req (hp & Hhp & ->). apply P_probe. exact Hhp. }
  destruct (searchTasks_after_detection E query page r s s' Hrun) as [Hko Hok].
  destruct Hres as [-> | (hp & Hhp & ->)].
  - rewrite Hko by reflexivity. simpl. auto.
  - destruct (Hok eq_refl) as [Hnull Hpage].
    assert (Hdec : page = VNull \/ page <> VNull)
      by (destruct page; (left; reflexivity) || (right; discriminate)).
    destruct Hdec as [Heq|Hne].
    + destruct (Hnull Heq) as (e & _ & ->). simpl. auto.
    + destruct (Hpage Hne) as (ev & Hsent & _ & ->). simpl. split; [exact Hc'|].
      eapply issues_trans; [exact Hiss'|]. exists [ev]. split; [reflexivity|].
      constructor; [| constructor]. rewrite Hsent. unfold SearchSpec.request_of.
      rewrite append_assoc.
      apply (P_api hp "GET" ("viewer/search" +:+ "?" +:+ _)). exact Hhp.
Qed.

Lemma fetchContent_step_ok (id : val) :
  Effects.keeps (RelaySpec.step_ok P) (Content.fetchContent E id).
Proof.
  intros s Hc. destruct (truthy id) eqn:Hid.
  - destruct (content_detect_step E (VBool false) s Hc) as (r & s' & Hrun & Hc' & Hres & Hiss).
    assert (Hiss' : Effects.issues P s s').
    { eapply issues_weaken; [| exact Hiss]. intros req (hp & Hhp & ->).
      apply P_probe. exact Hhp. }
    destruct Hres as [-> | (hp & Hhp & ->)].
    + assert (Heq : Content.fetchContent E id s
                    = (Throw (Error "AirNavX not available"), s')).
      { unfold Content.fetchContent. rewrite Hid. cbn [negb]. cbv beta iota.
        unfold bind at 1. rewrite Hrun. reflexivity. }
      rewrite Heq. simpl. auto.
    + rewrite (fetchContent_after_detection E id _ s s' Hid Hrun eq_refl).
      destruct (walk_spec E
                  (Content.attempts (opt_get (ContentSpec.found_of hp) "host")
                     (opt_get (ContentSpec.found_of hp) "port") id) [] s')
        as (evs & o & s2 & res & Hwalk & Htr & _ & Hloc & Hsw & _).
      rewrite Hwalk.
      assert (Hstep : RelaySpec.cache_ok (local s2) /\ Effects.issues P s s2).
      { split; [rewrite Hloc; exact Hc'|].
        eapply issues_trans; [exact Hiss'|]. exists evs. split; [exact Htr|].
        apply swept_sent in Hsw. eapply Forall_impl; [exact Hsw|].
        intros ev (a & Ha & ->). apply attempt_urls in Ha as [rest Hurl].
        unfold Content.attempt_request. rewrite Hurl.
        destruct (String.eqb (a_method a) "POST" && truthy (a_body a));
          apply (P_api hp); exact Hhp. }
      destruct res; exact Hstep.
  - assert (Heq : Content.fetchContent E id s = (Throw (Error "dataModuleId is required"), s)).
    { unfold Content.fetchContent. rewrite Hid. reflexivity. }
    rewrite Heq. simpl. split; [exact Hc | apply issues_refl].
Qed.

Lemma relay_post_step_ok (msg : val) : Effects.keeps (RelaySpec.step_ok P) (post msg).
Proof.
  intros s H. split; [exact H|]. exists []. simpl. rewrite app_nil_r.
  split; [reflexivity | constructor].
Qed.

Lemma relay_on_message_step_ok (ev : message_event) :
  Effects.keeps (RelaySpec.step_ok P) (Content.on_message E ev).
Proof.
  unfold Content.on_message, Content.dispatch.
  repeat (keeps_step (relay_step_refl P) (relay_step_trans P)
            ltac:(first [ apply relay_post_step_ok | apply content_detect_step_ok
                        | apply searchTasks_step_ok | apply fetchContent_step_ok ])).
Qed.

End RelaySteps.

Lemma relay_run_step (E : env) (P : request -> Prop) (events : list (Z * message_event))
    (s : state Content.vars) :
  (forall hp, hp ∈ ContentSpec.candidates -> P (ContentSpec.probe_of hp)) ->
  (forall hp m rest h b,
      hp ∈ ContentSpec.candidates ->
      P (Request m (Url.origin (VStr (fst hp)) (VNum (snd hp)) +:+ ("/airnavx/api/" +:+ rest))
           h b)) ->
  RelaySpec.step_ok P s (Relay.run E events s).
Proof.
  intros P_probe P_api. revert s. induction events as [|te events IH]; intros s.
  - apply relay_step_refl.
  - simpl. eapply relay_step_trans; [| apply IH].
    intros Hc. unfold Relay.handle_at.
    destruct (relay_on_message_step_ok E P P_probe P_api (snd te)
                (State (fst te) (trace s) (outbox s) (local s)) Hc)
      as [Hc' (evs & Htr & Hall)].
    split; [exact Hc'|]. exists evs. split; [exact Htr | exact Hall].
Qed.

(** X9.  Every HTTP request the relay ever issues goes to one of its
    fourteen candidate endpoints, under [/airnavx/api/]: for any sequence
    of page messages at any times and against any network, the URL of
    each request in the log starts with [http://<host>:<port>/airnavx/api/]
    for a candidate host and port; and the cache of the relay never holds
    anything but [null], the not-found object or the object of a
    candidate. *)
Theorem relay_requests_stay_local (E : env) (events : list (Z * message_event)) (t : Z) :
  Forall
    (fun ev => Effects.targets ContentSpec.candidates ["/airnavx/api/"] (sent ev) = true)
    (trace (Relay.run E events (Scenario.start t Content.init)))
  /\
  RelaySpec.cache_ok (local (Relay.run E events (Scenario.start t Content.init))).
Proof.
  destruct (relay_run_step E
              (fun req => Effects.targets ContentSpec.candidates ["/airnavx/api/"] req = true)
              events (Scenario.start t Content.init))
    as [Hc (evs & Htr & Hall)].
  - intros hp Hhp.
    apply (targets_intro _ _ hp "/airnavx/api/" "viewer/search?q=test&page=1");
      [exact Hhp | apply list_elem_of_here | reflexivity].
  - intros hp m rest h b Hhp.
    apply (targets_intro _ _ hp "/airnavx/api/" rest);
      [exact Hhp | apply list_elem_of_here | reflexivity].
  - left. reflexivity.
  - split; [| exact Hc]. rewrite Htr. simpl. exact Hall.
Qed.

(** ** The search on both paths *)

(** The search of the worker once its detection has given an endpoint. *)
Lemma handleSearch_detected (E : env) (request : val) (s s0 : state Background.vars)
    (ep : Background.endpoint) :
  truthy (opt_get request "query") = true ->
  Background.detectAirNavX E (VBool false) s = (Ret (Some ep), s0) ->
  exists ev s' reply,
    Background.handleSearch E request s = (Ret tt, s') /\
    trace s' = trace s0 ++ [ev] /\
    outbox s' = outbox s0 ++ [reply] /\
    abort_after ev = Some 30000 /\
    sent ev
    = SearchSpec.request_of
        (Url.origin (VStr (Background.host ep)) (VNum (Background.port ep)))
        (opt_get request "query") (SearchSpec.page_of (opt_get request "page")).
Proof.
  intros Hq Hdet.
  set (o := Background.Options (VStr "GET")
              (VObj [("q", opt_get request "query");
                     ("page", SearchSpec.page_of (opt_get request "page"));
                     ("aggregationList",
                      VArr [VStr "ata2"; VStr "actype"; VStr "customization";
                            VStr "doctypebc"]);
                     ("queryWithAggregation", VStr "false")])
              VUndef None).
  destruct (fetchFromAirNavX_detected E (VStr "/airnavx/api/viewer/search") o s s0 ep _
              Hdet eq_refl) as (ev & Hsent & Hab & Hrun).
  assert (Hp : match opt_get request "page" with VUndef => VNum 1 | p => p end
               = SearchSpec.page_of (opt_get request "page"))
    by (destruct (opt_get request "page"); reflexivity).
  unfold Background.handleSearch, try_catch, bind. rewrite Hq. cbn [negb]. cbv beta iota zeta.
  rewrite Hp. fold o. rewrite Hrun.
  destruct (BackgroundSpec.answer_of ep ev) as [res|e].
  - eexists ev, (State _ _ _ _), res. split; [reflexivity|]. simpl.
    rewrite Hsent, Hab. auto.
  - eexists ev, (State _ _ _ _), (Background.failure (err_message e)).
    split; [reflexivity|]. simpl. rewrite Hsent, Hab. auto.
Qed.

(** X10.  Once both paths have detected the same endpoint, a search for a
    truthy query on a page that is not [null] is the same HTTP request
    through the relay and through the worker: a GET of
    [/airnavx/api/viewer/search] with the query under [q], the page (1
    when none is given), the four aggregation names joined by commas and
    [queryWithAggregation=false], with the [Accept] header alone and no
    body.  Each path issues that one request and nothing else; the relay
    sets no abort timer on it, the worker aborts it after 30 s.  The
    relay returns or throws as [SearchSpec.relay_answer] says for the way
    the request settled: it throws, among others, when the body of a 2xx
    response is the JSON value [null]. *)
Theorem search_is_one_request_on_both_paths (E : env) (request : val)
    (ep : Background.endpoint) (sc sc0 : state Content.vars)
    (sb sb0 : state Background.vars) :
  Content.detectAirNavX E (VBool false) sc
  = (Ret (Content.found (Background.host ep) (Background.port ep)), sc0) ->
  Background.detectAirNavX E (VBool false) sb = (Ret (Some ep), sb0) ->
  truthy (opt_get request "query") = true ->
  opt_get request "page" <> VNull ->
  exists evc evb sb' reply,
    Content.searchTasks E (opt_get request "query") (opt_get request "page") sc
    = (SearchSpec.relay_answer evc,
       State (settled_at evc) (trace sc0 ++ [evc]) (outbox sc0) (local sc0)) /\
    Background.handleSearch E request sb = (Ret tt, sb') /\
    trace sb' = trace sb0 ++ [evb] /\
    outbox sb' = outbox sb0 ++ [reply] /\
    sent evc = sent evb /\
    sent evb
    = SearchSpec.request_of
        (Url.origin (VStr (Background.host ep)) (VNum (Background.port ep)))
        (opt_get request "query") (SearchSpec.page_of (opt_get request "page")) /\
    abort_after evc = None /\ abort_after evb = Some 30000.
Proof.
  intros Hc Hb Hq Hpage.
  destruct (searchTasks_after_detection E (opt_get request "query") (opt_get request "page")
              _ sc sc0 Hc) as [_ Hok].
  destruct (Hok eq_refl) as [_ Hreq]. destruct (Hreq Hpage) as (evc & Hsc & Hac & Hrun).
  destruct (handleSearch_detected E request sb sb0 ep Hq Hb)
    as (evb & sb' & reply & Hrunb & Htr & Hout & Hab & Hsb).
  exists evc, evb, sb', reply. rewrite Hsc, Hsb. auto 10.
Qed.

(** Both paths with 127.0.0.1:51798 in their caches, asked for page 2. *)
Lemma search_is_one_request_on_both_paths_witness :
  Content.detectAirNavX Scenario.on_51798 (VBool false)
    (State 5000 [] [] (Content.Vars (Content.found "127.0.0.1" 51798) 4000))
  = (Ret (Content.found "127.0.0.1" 51798),
     State 5000 [] [] (Content.Vars (Content.found "127.0.0.1" 51798) 4000)) /\
  Background.detectAirNavX Scenario.on_51798 (VBool false) Scenario.worker_cached
  = (Ret (Some (Background.Endpoint "127.0.0.1" 51798)), Scenario.worker_cached) /\
  exists evc evb,
    sent evc = sent evb /\
    req_url (sent evb)
    = "http://127.0.0.1:51798/airnavx/api/viewer/search?q=32-11+11&page=2&aggregationList=ata2%2Cactype%2Ccustomization%2Cdoctypebc&queryWithAggregation=false" /\
    abort_after evc = None /\ abort_after evb = Some 30000.
Proof.
  split; [reflexivity|]. split; [reflexivity|].
  destruct (search_is_one_request_on_both_paths Scenario.on_51798
              (VObj [("action", VStr "search"); ("query", VStr "32-11 11"); ("page", VNum 2)])
              (Background.Endpoint "127.0.0.1" 51798)
              (State 5000 [] [] (Content.Vars (Content.found "127.0.0.1" 51798) 4000))
              (State 5000 [] [] (Content.Vars (Content.found "127.0.0.1" 51798) 4000))
              Scenario.worker_cached Scenario.worker_cached
              eq_refl eq_refl eq_refl)
    as (evc & evb & sb' & reply & _ & _ & _ & _ & Hsame & Hsent & Hac & Hab).
  { discriminate. }
  exists evc, evb. split; [exact Hsame|]. split; [rewrite Hsent; reflexivity|]. auto.
Defined.

(** A service that answers a search with the JSON value [null]: the
    search of the relay throws on [data.results], and the listener sends
    the message of that error back; the worker, asked the same, replies
    with the payload [null]. *)
Example null_body_search_scenario :
  fst (Content.searchTasks Slow.null_body (VStr "brake") VUndef (Slow.relay_cached 1000))
  = Throw (TypeError "Cannot read properties of null (reading 'results')") /\
  opt_get
    (default VUndef
       (head (outbox (snd (Content.on_message Slow.null_body
                             (Scenario.request (VStr "search")
                                (VObj [("query", VStr "brake")]) (VNum 1))
                             (Slow.relay_cached 1000))))))
    "error"
  = VStr "Cannot read properties of null (reading 'results')" /\
  outbox (snd (Background.handleSearch Slow.null_body
                 (VObj [("action", VStr "search"); ("query", VStr "brake")])
                 Scenario.worker_cached))
  = [VObj [("success", VBool true); ("data", VNull); ("host", VStr "127.0.0.1");
           ("port", VNum 51798)]].
Proof. vm_compute. repeat split; reflexivity. Qed.

(** ** Incomplete requests and defaults in the worker *)

(** X11.  The worker checks what a request must carry before anything
    else: a search whose query is missing or falsy and a custom fetch
    whose endpoint is missing or falsy are answered at once with a
    failure reply; no detection runs, no HTTP request is issued, and the
    clock, the log and the variables of the worker stay as they are. *)
Theorem worker_rejects_incomplete_requests (E : env) (request : val)
    (s : state Background.vars) :
  (truthy (opt_get request "query") = false ->
   Background.handleSearch E request s
   = (Ret tt,
      State (clock s) (trace s) (outbox s ++ [Background.failure "Query parameter required"])
        (local s)))
  /\
  (truthy (opt_get request "endpoint") = false ->
   Background.handleCustomFetch E request s
   = (Ret tt,
      State (clock s) (trace s) (outbox s ++ [Background.failure "endpoint required"])
        (local s))).
Proof.
  split; intros H.
  - unfold Background.handleSearch, try_catch. rewrite H. reflexivity.
  - unfold Background.handleCustomFetch, try_catch. rewrite H. reflexivity.
Qed.

Lemma or_else_falsy (v w : val) : truthy v = false -> or_else v w = w.
Proof. unfold or_else. intros ->. reflexivity. Qed.


(** X12.  The defaults of a custom fetch.  With an endpoint detected, a
    custom fetch that gives a path but no method (or a falsy one) and no
    parameters (or falsy ones) issues exactly one request: a GET of the
    origin followed by the path as given, without query string and
    without body, whatever body the caller gave, aborted after 30 s; and
    it sends exactly one reply. *)
Theorem custom_fetch_defaults (E : env) (request : val) (s s0 : state Background.vars)
    (ep : Background.endpoint) :
  truthy (opt_get request "endpoint") = true ->
  truthy (opt_get request "method") = false ->
  truthy (opt_get request "params") = false ->
  Background.detectAirNavX E (VBool false) s = (Ret (Some ep), s0) ->
  exists ev s' reply,
    Background.handleCustomFetch E request s = (Ret tt, s') /\
    trace s' = trace s0 ++ [ev] /\
    outbox s' = outbox s0 ++ [reply] /\
    abort_after ev = Some 30000 /\
    sent ev
    = Request "GET"
        (Url.origin (VStr (Background.host ep)) (VNum (Background.port ep))
         +:+ to_string (opt_get request "endpoint"))
        [("Accept", "application/json")] None.
Proof.
  intros Hendpoint Hmethod Hparams Hdet.
  set (o := Background.Options (VStr "GET") (VObj [])
              (or_else (opt_get request "body") VNull) None).
  destruct (fetchFromAirNavX_detected E (opt_get request "endpoint") o s s0 ep _
              Hdet eq_refl) as (ev & Hsent & Hab & Hrun).
  assert (Hnone : Background.attached_body (BackgroundSpec.method_of o)
                    (BackgroundSpec.body_of o) = None).
  { unfold Background.attached_body. simpl.
    destruct (truthy (BackgroundSpec.body_of o)); reflexivity. }
  rewrite Hnone in Hsent.
  unfold Background.handleCustomFetch, try_catch, bind. rewrite Hendpoint.
  cbn [negb]. cbv beta iota zeta.
  rewrite (or_else_falsy _ (VStr "GET") Hmethod), (or_else_falsy _ (VObj []) Hparams).
  fold o. rewrite Hrun.
  destruct (BackgroundSpec.answer_of ep ev) as [res|e].
  - eexists ev, (State _ _ _ _), res. split; [reflexivity|]. simpl.
    rewrite Hsent, Hab. auto.
  - eexists ev, (State _ _ _ _), (Background.failure (err_message e)).
    split; [reflexivity|]. simpl. rewrite Hsent, Hab. auto.
Qed.

(** A custom fetch of the status route, with a body that is not sent. *)
Lemma custom_fetch_defaults_witness :
  Background.detectAirNavX Scenario.on_51798 (VBool false) Scenario.worker_cached
  = (Ret (Some (Background.Endpoint "127.0.0.1" 51798)), Scenario.worker_cached) /\
  exists ev s' reply,
    Background.handleCustomFetch Scenario.on_51798
      (VObj [("action", VStr "customFetch"); ("endpoint", VStr "/airnavx/api/status");
             ("body", VObj [("verbose", VBool true)])])
      Scenario.worker_cached
    = (Ret tt, s') /\
    outbox s' = outbox Scenario.worker_cached ++ [reply] /\
    sent ev
    = Request "GET" "http://127.0.0.1:51798/airnavx/api/status"
        [("Accept", "application/json")] None.
Proof.
  split; [reflexivity|].
  destruct (custom_fetch_defaults Scenario.on_51798
              (VObj [("action", VStr "customFetch"); ("endpoint", VStr "/airnavx/api/status");
                     ("body", VObj [("verbose", VBool true)])])
              Scenario.worker_cached Scenario.worker_cached
              (Background.Endpoint "127.0.0.1" 51798) eq_refl eq_refl eq_refl eq_refl)
    as (ev & s' & reply & Hrun & _ & Hout & _ & Hsent).
  exists ev, s', reply. split; [exact Hrun|]. split; [exact Hout | exact Hsent].
Defined.

(** ** Detection and status *)

Lemma candidate_truthy (ep : Background.endpoint) :
  WorkerSpec.is_candidate ep ->
  truthy (VStr (Background.host ep)) = true /\ truthy (VNum (Background.port ep)) = true.
Proof.
  unfold WorkerSpec.is_candidate. destruct ep as [h p]. simpl.
  unfold BackgroundSpec.candidates, pairs. simpl. intros H.
  repeat (apply elem_of_cons in H as [[= -> ->]|H]; [split; reflexivity|]).
  apply elem_of_nil in H. contradiction.
Qed.

(** X13.  What [detect] replies is what [getStatus] then reports.  From a
    state of the worker that satisfies its invariant: the reply of
    [detect] says success exactly when an endpoint is recorded
    afterwards, and then carries the host and the port of that endpoint;
    a [getStatus] right after reports [detected] with the same truth
    value, the same host and port (or [null] for both), the time of the
    last sweep and that time plus five minutes as the expiry of the
    cache.  A failed detection lists the six ports that were searched. *)
Theorem detect_reply_matches_status (E : env) (request request' : val)
    (s : state Background.vars) :
  WorkerSpec.consistent (local s) ->
  exists reply s1 status s2,
    Background.handleDetect E request s = (Ret tt, s1) /\
    outbox s1 = outbox s ++ [reply] /\
    Background.handleGetStatus request' s1 = (Ret tt, s2) /\
    outbox s2 = outbox s1 ++ [VObj [("success", VBool true); ("status", status)]] /\
    opt_get status "detected" = opt_get reply "success" /\
    match Background.detectedAirNavX (local s1) with
    | Some ep =>
        opt_get reply "success" = VBool true /\
        opt_get reply "host" = VStr (Background.host ep) /\
        opt_get reply "port" = VNum (Background.port ep) /\
        opt_get status "host" = VStr (Background.host ep) /\
        opt_get status "port" = VNum (Background.port ep)
    | None =>
        opt_get reply "success" = VBool false /\
        opt_get reply "searched_ports"
        = VArr [VNum 59720; VNum 51798; VNum 54320; VNum 52000; VNum 50000; VNum 53000] /\
        opt_get status "host" = VNull /\ opt_get status "port" = VNull
    end /\
    (forall last,
        Background.lastDetectionTime (local s1) = Some last -> last <> 0 ->
        opt_get status "lastCheck" = VNum last /\
        opt_get status "cacheExpiry" = VNum (last + 300000)).
Proof.
  intros Hc.
  destruct (background_detect_step E (or_else (opt_get request "forceRefresh") (VBool false))
              s Hc) as (o & s1 & Hrun & Hc1 & Hdet & _).
  pose proof (quiet_background_detect E
                (or_else (opt_get request "forceRefresh") (VBool false)) s) as Hq.
  rewrite Hrun in Hq. unfold Effects.quiet in Hq. simpl in Hq.
  unfold Background.handleDetect, try_catch, bind. rewrite Hrun.
  destruct o as [ep|].
  - assert (Hcand : WorkerSpec.is_candidate ep).
    { unfold WorkerSpec.consistent in Hc1. rewrite Hdet in Hc1. tauto. }
    destruct (candidate_truthy ep Hcand) as [Hh Hp].
    eexists _, (State _ _ _ _), _, (State _ _ _ _).
    split; [reflexivity|]. split; [simpl; rewrite Hq; reflexivity|].
    split; [reflexivity|]. split; [reflexivity|]. simpl.
    rewrite Hdet. unfold or_else. rewrite Hh, Hp.
    split; [reflexivity|]. split; [auto 10|].
    intros last Hl Hnz. rewrite Hl. simpl. apply Z.eqb_neq in Hnz. rewrite Hnz.
    split; reflexivity.
  - eexists _, (State _ _ _ _), _, (State _ _ _ _).
    split; [reflexivity|]. split; [simpl; rewrite Hq; reflexivity|].
    split; [reflexivity|]. split; [reflexivity|]. simpl.
    rewrite Hdet.
    split; [reflexivity|]. split; [auto 10|].
    intros last Hl Hnz. rewrite Hl. simpl. apply Z.eqb_neq in Hnz. rewrite Hnz.
    split; reflexivity.
Qed.

(** A first detection from the initial state of the worker. *)
Lemma detect_reply_matches_status_witness :
  WorkerSpec.consistent (local (Scenario.start 1000 Background.init)) /\
  exists reply s1 status s2,
    Background.handleDetect Scenario.on_51798 (VObj [("action", VStr "detect")])
      (Scenario.start 1000 Background.init) = (Ret tt, s1) /\
    outbox s1 = [reply] /\
    Background.handleGetStatus (VObj [("action", VStr "getStatus")]) s1 = (Ret tt, s2) /\
    outbox s2 = outbox s1 ++ [VObj [("success", VBool true); ("status", status)]] /\
    opt_get status "detected" = opt_get reply "success".
Proof.
  split; [exact init_consistent|].
  destruct (detect_reply_matches_status Scenario.on_51798 (VObj [("action", VStr "detect")])
              (VObj [("action", VStr "getStatus")]) (Scenario.start 1000 Background.init)
              init_consistent)
    as (reply & s1 & status & s2 & H1 & H2 & H3 & H4 & H5 & _).
  exists reply, s1, status, s2. auto.
Defined.

(** ** How long the detection and the search of the relay take *)

Section Within.
Context {C : Type}.

Lemma within_ret {A} (d : Z) (a : A) : 0 <= d -> Effects.within (C := C) d (ret a).
Proof. intros H s. simpl. lia. Qed.

Lemma within_throw {A} (d : Z) (e : error) : 0 <= d -> Effects.within d (@throw C A e).
Proof. intros H s. simpl. lia. Qed.

Lemma within_lift {A} (d : Z) (r : error + A) : 0 <= d -> Effects.within (C := C) d (lift r).
Proof. intros H. destruct r; [apply within_throw | apply within_ret]; exact H. Qed.

Lemma within_now (d : Z) : 0 <= d -> Effects.within (C := C) d now.
Proof. intros H s. simpl. lia. Qed.

Lemma within_get_local (d : Z) : 0 <= d -> Effects.within (C := C) d get_local.
Proof. intros H s. simpl. lia. Qed.

Lemma within_set_local (d : Z) (c : C) : 0 <= d -> Effects.within d (set_local c).
Proof. intros H s. simpl. lia. Qed.

Lemma within_post (d : Z) (msg : val) : 0 <= d -> Effects.within (C := C) d (post msg).
Proof. intros H s. simpl. lia. Qed.

Lemma within_bind {A B} (d1 d2 d : Z) (m : M C A) (k : A -> M C B) :
  Effects.within d1 m -> (forall a, Effects.within d2 (k a)) -> 0 <= d2 -> d1 + d2 <= d ->
  Effects.within d (bind m k).
Proof.
  intros Hm Hk H2 Hd s. unfold bind. specialize (Hm s).
  destruct (m s) as [[a|e] s1]; simpl in *; [| lia].
  specialize (Hk a s1). lia.
Qed.

Lemma within_try_catch {A} (d1 d2 d : Z) (m : M C A) (h : error -> M C A) :
  Effects.within d1 m -> (forall e, Effects.within d2 (h e)) -> 0 <= d2 -> d1 + d2 <= d ->
  Effects.within d (try_catch m h).
Proof.
  intros Hm Hh H2 Hd s. unfold try_catch. specialize (Hm s).
  destruct (m s) as [[a|e] s1]; simpl in *; [lia|].
  specialize (Hh e s1). lia.
Qed.

Lemma within_for_of {A B} (d : Z) (l : list A) (body : A -> M C (option B)) :
  0 <= d -> (forall x, Effects.within d (body x)) ->
  Effects.within (d * Z.of_nat (length l)) (for_of l body).
Proof.
  intros Hd Hbody. induction l as [|x l IH].
  - apply within_ret. simpl. lia.
  - simpl for_of.
    apply (within_bind d (d * Z.of_nat (length l))); [apply Hbody | | nia | simpl length; nia].
    intros [b|]; [apply within_ret; nia | exact IH].
Qed.

(** A fetch with an abort timer settles within the delay of the timer. *)
Lemma within_fetch (E : env) (req : request) (d : Z) :
  0 <= d -> Effects.within (C := C) d (fetch E req (Some d)).
Proof.
  intros Hd s. unfold fetch. simpl.
  destruct (Z.leb_spec d (Z.max 0 (latency (net E (clock s) req)))) as [Hle|Hlt].
  - simpl. lia.
  - destruct (result (net E (clock s) req)); simpl; lia.
Qed.

End Within.

Ltac within_leaf :=
  first [ apply within_ret | apply within_throw | apply within_lift | apply within_now
        | apply within_get_local | apply within_set_local | apply within_post ];
  lia.

(** [wbind d1 d2]: the first part of a sequence within [d1], the rest
    within [d2]. *)
Tactic Notation "wbind" constr(d1) constr(d2) :=
  apply (within_bind d1 d2); [ | intros ? | lia | lia ].

Tactic Notation "wcatch" constr(d1) constr(d2) :=
  apply (within_try_catch d1 d2); [ | intros ? | lia | lia ].

Lemma within_content_sweep (E : env) : Effects.within 28000 (Content.sweep E).
Proof.
  unfold Content.sweep. wbind 28000 0.
  - change 28000 with ((2000 * Z.of_nat (length Content.candidatePorts))
                       * Z.of_nat (length Content.hostsToTest)).
    apply within_for_of; [simpl; lia|]. intros host.
    apply within_for_of; [lia|]. intros port.
    wcatch 2000 0; [| within_leaf].
    unfold Content.probe_try. wbind 2000 0; [apply within_fetch; lia|].
    destruct (ok a); [| within_leaf].
    wbind 0 0; [within_leaf|]. wbind 0 0; within_leaf.
  - destruct a; [within_leaf|]. wbind 0 0; [within_leaf|]. wbind 0 0; within_leaf.
Qed.

Lemma within_content_detect (E : env) (detailed : val) :
  Effects.within 28000 (Content.detectAirNavX E detailed).
Proof.
  unfold Content.detectAirNavX. wbind 0 28000; [within_leaf|]. wbind 0 28000; [within_leaf|].
  destruct (Content.cache_hit a0 a); [within_leaf | apply within_content_sweep].
Qed.

(** What follows a step never ends before the step does, when it cannot
    move the clock back. *)
Lemma bind_not_before {C A B} (d : Z) (m : M C A) (k : A -> M C B) (s : state C) :
  (forall a, Effects.within d (k a)) ->
  clock (snd (m s)) <= clock (snd (bind m k s)).
Proof.
  intros Hk. unfold bind. destruct (m s) as [[a|e] s1]; simpl; [| lia].
  specialize (Hk a s1). lia.
Qed.

(** A fetch without abort timer settles when the network answers. *)
Lemma fetch_free_clock {C} (E : env) (req : request) (s : state C) :
  clock (snd (fetch E req None s)) = clock s + Z.max 0 (latency (net E (clock s) req)).
Proof. unfold fetch. simpl. destruct (result (net E (clock s) req)); reflexivity. Qed.

(** X14.  How long the detection and the search of the content script
    take, counting the time spent waiting for the network.  The detection
    awaits nothing but its probes, each aborted after 2 s: it ends within
    28 s (fourteen probes), whether it answers from its cache, finds the
    service or finds nothing, and the clock never goes back.  The search
    sets no abort timer: once the detection has succeeded it does not end
    before the service has answered its one request, however long that
    takes. *)
Theorem relay_detection_is_bounded (E : env) :
  (forall detailed, Effects.within 28000 (Content.detectAirNavX E detailed)) /\
  (forall query page d s s0,
      Content.detectAirNavX E (VBool false) s = (Ret d, s0) ->
      truthy (opt_get d "success") = true ->
      page <> VNull ->
      clock s0
      + Z.max 0
          (latency
             (net E (clock s0)
                (SearchSpec.request_of (Url.origin (opt_get d "host") (opt_get d "port"))
                   query (SearchSpec.page_of page))))
      <= clock (snd (Content.searchTasks E query page s))).
Proof.
  split; [intros; apply within_content_detect|].
  intros query page d s s0 Hrun Hok Hpage.
  assert (Hstr : toString_method (SearchSpec.page_of page)
                 = inr (to_string (SearchSpec.page_of page))).
  { destruct page; try reflexivity. congruence. }
  unfold Content.searchTasks. unfold bind at 1. rewrite Hrun, Hok.
  cbn [negb]. cbv beta iota.
  fold (SearchSpec.page_of page). rewrite Hstr.
  unfold bind at 1. simpl lift. unfold ret at 1.
  change (Request "GET" _ Content.accept_json None)
    with (SearchSpec.request_of (Url.origin (opt_get d "host") (opt_get d "port"))
            query (SearchSpec.page_of page)).
  rewrite <- (fetch_free_clock E _ s0).
  apply (bind_not_before 0). intros response.
  destruct (negb (ok response)); [within_leaf|].
  wbind 0 0; [within_leaf|]. wbind 0 0; within_leaf.
Qed.

(** A service that answers after a minute: the detection is served from
    the cache, the search ends a minute later at the earliest. *)
Example slow_search_scenario :
  61000 <= clock (snd (Content.searchTasks (Slow.answering_after 60000) (VStr "brake") VUndef
                         (Slow.relay_cached 1000))).
Proof. vm_compute. discriminate. Qed.

(** ** The requests and the settlements of the client *)

Lemma received_counter (ev : message_event) (c : vars) :
  requestCounter (received ev c) = requestCounter c.
Proof.
  unfold received.
  destruct (pending_get (opt_get (data ev) "requestId") (print (Log "📨 Received RESPONSE:") c))
    as [p|]; [| reflexivity].
  assert (Hdel : forall v c', requestCounter (pending_delete v c') = requestCounter c')
    by (intros v c'; destruct v; reflexivity).
  rewrite Hdel.
  destruct (truthy (opt_get (data ev) "error"));
    match goal with
    | |- context [settle ?p ?o ?c'] => destruct (settle_pending p o c') as [_ ->]
    end; reflexivity.
Qed.

Lemma timed_out_counter (id : Z) (c : vars) :
  requestCounter (timed_out id c) = requestCounter c.
Proof.
  unfold timed_out. destruct (bool_decide (is_Some (pendingRequests c !! id))); [| reflexivity].
  match goal with
  | |- context [settle ?p ?o ?c'] => destruct (settle_pending p o c') as [_ ->]
  end. reflexivity.
Qed.

Lemma refused_counter (message : string) (c : vars) :
  requestCounter (refused message c) = requestCounter c + 1.
Proof. exact (proj1 (refused_fields message c)). Qed.

(** One task: what it posts and how it moves the counter. *)
Lemma handle_at_posts (te : Z * event) (s : state vars) :
  outbox (handle_at te s)
  = outbox s ++ ClientSpec.requests_of (requestCounter (local s) + 1) [te] /\
  requestCounter (local (handle_at te s))
  = requestCounter (local s) + Z.of_nat (ClientSpec.calls [te]) /\
  trace (handle_at te s) = trace s.
Proof.
  destruct te as [t [m [p|message] | ev | id]]; unfold handle_at, handle; cbn [fst snd].
  - rewrite sendMessage_eq. simpl. split; [reflexivity|]. split; [lia | reflexivity].
  - rewrite sendMessage_refused_eq. cbn [snd outbox trace local ClientSpec.requests_of].
    rewrite app_nil_r, refused_counter. simpl. split; [reflexivity|]. split; [lia | reflexivity].
  - destruct (is_response ev) eqn:H.
    + rewrite on_message_response by exact H. simpl. rewrite app_nil_r, received_counter.
      split; [reflexivity|]. split; [lia | reflexivity].
    + rewrite on_message_ignored by exact H. simpl. rewrite app_nil_r.
      split; [reflexivity|]. split; [lia | reflexivity].
  - rewrite on_timeout_eq. simpl. rewrite app_nil_r, timed_out_counter.
    split; [reflexivity|]. split; [lia | reflexivity].
Qed.

Lemma run_posts (tasks : list (Z * event)) (s : state vars) :
  outbox (run tasks s)
  = outbox s ++ ClientSpec.requests_of (requestCounter (local s) + 1) tasks /\
  requestCounter (local (run tasks s))
  = requestCounter (local s) + Z.of_nat (ClientSpec.calls tasks) /\
  trace (run tasks s) = trace s.
Proof.
  revert s. induction tasks as [|te tasks IH]; intros s.
  - simpl. rewrite app_nil_r. split; [reflexivity|]. split; [lia | reflexivity].
  - simpl run. destruct (handle_at_posts te s) as (Ho & Hc & Ht).
    destruct (IH (handle_at te s)) as (Ho' & Hc' & Ht').
    rewrite Ho', Hc', Ht', Ho, Hc, Ht. destruct te as [t [m [p|message] | ev | id]]; simpl.
    + rewrite <- app_assoc. simpl. split; [reflexivity|]. split; [lia | reflexivity].
    + rewrite app_nil_r. split; [reflexivity|]. split; [lia | reflexivity].
    + rewrite app_nil_r, Z.add_0_r. split; [reflexivity|]. split; [lia | reflexivity].
    + rewrite app_nil_r, Z.add_0_r. split; [reflexivity|]. split; [lia | reflexivity].
Qed.

(** The [i]-th request of a run carries an id of the run, not below
    [next + i]. *)
Lemma requests_of_id (tasks : list (Z * event)) (next : Z) (i : nat) (msg : val) :
  ClientSpec.requests_of next tasks !! i = Some msg ->
  exists id,
    opt_get msg "requestId" = VNum id /\
    next + Z.of_nat i <= id < next + Z.of_nat (ClientSpec.calls tasks).
Proof.
  revert next i.
  induction tasks as [|[t [m [p|message] | ev | id]] tasks IH]; intros next i H; simpl in H.
  - rewrite lookup_nil in H. discriminate.
  - destruct i as [|i]; simpl in H.
    + injection H as <-. exists next. split; [reflexivity|]. simpl ClientSpec.calls. lia.
    + apply IH in H. destruct H as (id & H1 & H2). exists id. split; [exact H1|].
      simpl ClientSpec.calls. lia.
  - apply IH in H. destruct H as (id & H1 & H2). exists id. split; [exact H1|].
    simpl ClientSpec.calls. lia.
  - apply IH. exact H.
  - apply IH. exact H.
Qed.

(** Later requests carry larger ids. *)
Lemma requests_of_increasing (tasks : list (Z * event)) (next : Z) (i j : nat)
    (msg1 msg2 : val) (id1 id2 : Z) :
  (i < j)%nat ->
  ClientSpec.requests_of next tasks !! i = Some msg1 ->
  ClientSpec.requests_of next tasks !! j = Some msg2 ->
  opt_get msg1 "requestId" = VNum id1 ->
  opt_get msg2 "requestId" = VNum id2 ->
  id1 < id2.
Proof.
  revert next i j.
  induction tasks as [|[t [m [p|message] | ev | id]] tasks IH];
    intros next i j Hlt H1 H2 Hid1 Hid2; simpl in H1, H2.
  - rewrite lookup_nil in H1. discriminate.
  - destruct j as [|j]; [lia|]. simpl in H2. destruct i as [|i]; simpl in H1.
    + injection H1 as <-. simpl in Hid1. injection Hid1 as <-.
      apply requests_of_id in H2 as (id & Hid & Hb). rewrite Hid in Hid2.
      injection Hid2 as <-. lia.
    + apply (IH (next + 1) i j); [lia | assumption ..].
  - apply (IH (next + 1) i j); assumption.
  - apply (IH next i j); assumption.
  - apply (IH next i j); assumption.
Qed.

Lemma requests_of_length (tasks : list (Z * event)) (next : Z) :
  length (ClientSpec.requests_of next tasks) = ClientSpec.posted tasks.
Proof.
  revert next.
  induction tasks as [|[t [m [p|message] | ev | id]] tasks IH]; intros next; simpl; auto.
Qed.

Lemma posted_le_calls (tasks : list (Z * event)) :
  (ClientSpec.posted tasks <= ClientSpec.calls tasks)%nat.
Proof.
  induction tasks as [|[t [m [p|message] | ev | id]] tasks IH]; simpl; lia.
Qed.

(** When every call could be cloned, the ids are consecutive. *)
Lemma requests_of_consecutive (tasks : list (Z * event)) (next : Z) (i : nat) (msg : val) :
  ClientSpec.posted tasks = ClientSpec.calls tasks ->
  ClientSpec.requests_of next tasks !! i = Some msg ->
  opt_get msg "requestId" = VNum (next + Z.of_nat i).
Proof.
  revert next i.
  induction tasks as [|[t [m [p|message] | ev | id]] tasks IH];
    intros next i Hall H; simpl in H, Hall.
  - rewrite lookup_nil in H. discriminate.
  - destruct i as [|i]; simpl in H.
    + injection H as <-. simpl. rewrite Z.add_0_r. reflexivity.
    + rewrite (IH (next + 1) i) by (try assumption; lia). f_equal. lia.
  - pose proof (posted_le_calls tasks). lia.
  - apply IH; assumption.
  - apply IH; assumption.
Qed.

(** X15.  The requests of the client are numbered.  Whatever tasks the
    page runs (calls, messages of any kind, timer callbacks), from any
    state: every call takes the next id, whether its message can be
    cloned or not, so the counter ends increased by the number of calls;
    the messages posted are exactly the requests of the calls whose
    message could be cloned, in call order, each with the id of its
    call; later requests carry larger ids, so that no two requests of a
    page ever carry the same id, and the ids are consecutive when every
    call could be cloned; and the client itself never issues an HTTP
    request. *)
Theorem client_requests_are_numbered (tasks : list (Z * event)) (s : state vars) :
  outbox (run tasks s)
  = outbox s ++ ClientSpec.requests_of (requestCounter (local s) + 1) tasks /\
  requestCounter (local (run tasks s))
  = requestCounter (local s) + Z.of_nat (ClientSpec.calls tasks) /\
  trace (run tasks s) = trace s /\
  length (ClientSpec.requests_of (requestCounter (local s) + 1) tasks)
  = ClientSpec.posted tasks /\
  (forall i msg,
      ClientSpec.requests_of (requestCounter (local s) + 1) tasks !! i = Some msg ->
      exists id,
        opt_get msg "requestId" = VNum id /\
        requestCounter (local s) + 1 + Z.of_nat i <= id
        <= requestCounter (local (run tasks s))) /\
  (forall i j msg1 msg2 id1 id2,
      (i < j)%nat ->
      ClientSpec.requests_of (requestCounter (local s) + 1) tasks !! i = Some msg1 ->
      ClientSpec.requests_of (requestCounter (local s) + 1) tasks !! j = Some msg2 ->
      opt_get msg1 "requestId" = VNum id1 ->
      opt_get msg2 "requestId" = VNum id2 ->
      id1 < id2) /\
  (ClientSpec.posted tasks = ClientSpec.calls tasks ->
   forall i msg,
     ClientSpec.requests_of (requestCounter (local s) + 1) tasks !! i = Some msg ->
     opt_get msg "requestId" = VNum (requestCounter (local s) + 1 + Z.of_nat i)).
Proof.
  destruct (run_posts tasks s) as (Ho & Hc & Ht).
  split; [exact Ho|]. split; [exact Hc|]. split; [exact Ht|].
  split; [| split; [| split]].
  - apply requests_of_length.
  - intros i msg H. apply requests_of_id in H as (id & Hid & Hb).
    exists id. split; [exact Hid|]. rewrite Hc. lia.
  - intros i j msg1 msg2 id1 id2 Hlt H1 H2 Hid1 Hid2.
    exact (requests_of_increasing tasks _ i j msg1 msg2 id1 id2 Hlt H1 H2 Hid1 Hid2).
  - intros Hall i msg H. exact (requests_of_consecutive tasks _ i msg Hall H).
Qed.



(** ** The popup *)

(** The status check leaves the worker alone and shows what it has
    recorded. *)
Lemma checkStatus_shows (E : env) (s : state Popup.world) :
  (forall ep, Background.detectedAirNavX (Popup.worker (local s)) = Some ep ->
              WorkerSpec.is_candidate ep) ->
  exists reply,
    Popup.checkStatus E s
    = (Ret tt,
       State (clock s) (trace s) (outbox s ++ [reply])
         (Popup.World
            (PopupSpec.shown (Background.detectedAirNavX (Popup.worker (local s)))
               (Popup.page (local s)))
            (Popup.worker (local s)))).
Proof.
  intros Hcand. destruct s as [t tr out [pg w]]. simpl in *.
  destruct (Background.detectedAirNavX w) as [ep|] eqn:Hdet.
  - destruct (candidate_truthy ep (Hcand ep eq_refl)) as [Hh Hp].
    eexists. unfold Popup.checkStatus, Popup.sendMessage, try_catch, bind. simpl.
    rewrite Hdet. simpl. unfold or_else. rewrite Hh, Hp. simpl.
    reflexivity.
  - eexists. unfold Popup.checkStatus, Popup.sendMessage, try_catch, bind. simpl.
    rewrite Hdet. simpl. reflexivity.
Qed.

(** A forced detection of the worker is a sweep, which ends with the
    endpoint it returns recorded, a candidate. *)
Lemma forced_detect (E : env) (w : state Background.vars) : exists o w1 ev evs,
  Background.sweep E w = (Ret o, w1) /\
  Background.detectAirNavX E (VBool true) w = (Ret o, w1) /\
  Background.detectedAirNavX (local w1) = o /\
  (forall ep, o = Some ep -> WorkerSpec.is_candidate ep) /\
  outbox w1 = outbox w /\
  trace w1 = trace w ++ ev :: evs /\ sent ev = Background.probe "127.0.0.1" 59720.
Proof.
  destruct (background_sweep_spec E w) as (evs & o & w1 & Hrun & Htr & Hsw & Hout & _ & Hdet & _).
  destruct (background_sweep_local E w) as (o' & w1' & Hrun' & Hloc).
  destruct (sweep_probes_first E w) as (ev & evs' & Hfirst & Hsent).
  rewrite Hrun in Hrun', Hfirst. simpl in Hfirst.
  exists (BackgroundSpec.endpoint_of <$> o), w1, ev, evs'.
  split; [exact Hrun|]. split.
  { rewrite (background_cache_bypassed E (VBool true) w (or_intror eq_refl)). exact Hrun. }
  split; [exact Hdet|]. split; [| auto].
  intros ep Hep. injection Hrun' as Ho Hw. subst w1'. rewrite Ho in Hep.
  destruct o' as [hp|]; simpl in Hep; [| discriminate].
  destruct Hloc as [Hin _]. injection Hep as <-.
  apply candidate_endpoint. exact Hin.
Qed.

(** X17.  The status check of the popup.  It never throws, issues no HTTP
    request and leaves the worker as it is; with the worker in a state
    that satisfies its invariant, the page then shows exactly what the
    worker has recorded: the green dot, [Connected], the host and the port
    of the recorded endpoint and an enabled test button when there is
    one; the red dot, [Not Connected], hidden connection details and a
    disabled test button when there is none. *)
Theorem popup_shows_what_the_worker_recorded (E : env) (s : state Popup.world) :
  WorkerSpec.consistent (Popup.worker (local s)) ->
  exists reply,
    Popup.on_load E s
    = (Ret tt,
       State (clock s) (trace s) (outbox s ++ [reply])
         (Popup.World
            (PopupSpec.shown (Background.detectedAirNavX (Popup.worker (local s)))
               (Popup.page (local s)))
            (Popup.worker (local s)))).
Proof.
  intros Hc. apply checkStatus_shows. intros ep Hep.
  unfold WorkerSpec.consistent in Hc. rewrite Hep in Hc. tauto.
Qed.

(** The popup opened on a worker that has found 127.0.0.1:51798 in its
    first sweep. *)
Lemma popup_shows_what_the_worker_recorded_witness :
  WorkerSpec.consistent
    (local (snd (Background.sweep Scenario.on_51798 (Scenario.start 1000 Background.init)))) /\
  exists reply,
    Popup.on_load Scenario.on_51798
      (PopupSpec.opened 9000
         (local (snd (Background.sweep Scenario.on_51798
                        (Scenario.start 1000 Background.init)))))
    = (Ret tt,
       State 9000 [] [reply]
         (Popup.World
            (PopupSpec.shown_online (Background.Endpoint "127.0.0.1" 51798)
               (Popup.Dom false "" false "" "" "" "" "" "" "" "" ""))
            (local (snd (Background.sweep Scenario.on_51798
                           (Scenario.start 1000 Background.init)))))).
Proof.
  assert (Hc : WorkerSpec.consistent
                 (local (snd (Background.sweep Scenario.on_51798
                                (Scenario.start 1000 Background.init))))).
  { apply sweep_consistent. left. reflexivity. }
  split; [exact Hc|].
  exact (popup_shows_what_the_worker_recorded Scenario.on_51798
           (PopupSpec.opened 9000
              (local (snd (Background.sweep Scenario.on_51798
                             (Scenario.start 1000 Background.init)))))
           Hc).
Defined.

Lemma render_eq (a : Popup.assignment) (s : state Popup.world) :
  Popup.render a s
  = (Ret tt,
     State (clock s) (trace s) (outbox s)
       (Popup.World (Popup.assign a (Popup.page (local s))) (Popup.worker (local s)))).
Proof. reflexivity. Qed.

(** A message of the popup that the worker answers once. *)
Lemma popup_sendMessage_eq (E : env) (message reply : val) (s : state Popup.world)
    (b : bool) (w' : state Background.vars) :
  Background.on_message E message (PopupSpec.worker_state s) = (Ret b, w') ->
  outbox w' = [reply] ->
  Popup.sendMessage E message s
  = (Ret reply,
     State (clock w') (trace w') (outbox s ++ [reply])
       (Popup.World (Popup.page (local s)) (local w'))).
Proof.
  intros Hrun Hout. unfold Popup.sendMessage. fold (PopupSpec.worker_state s).
  rewrite Hrun. simpl. rewrite Hout. reflexivity.
Qed.

(** The listener of the worker on the three messages of the popup. *)
Lemma on_message_detect (E : env) (request : val) (s : state Background.vars) :
  get request "action" = inr (VStr "detect") ->
  Background.on_message E request s = (Ret true, snd (Background.handleDetect E request s)).
Proof.
  intros Hget. destruct (handleDetect_replies_once E request s) as (r & s' & b & Hrun & _).
  unfold Background.on_message, bind. rewrite Hget. simpl. rewrite Hrun. reflexivity.
Qed.

Lemma on_message_search (E : env) (request : val) (s : state Background.vars) :
  get request "action" = inr (VStr "search") ->
  Background.on_message E request s = (Ret true, snd (Background.handleSearch E request s)).
Proof.
  intros Hget. destruct (handleSearch_replies_once E request s) as (r & s' & b & Hrun & _).
  unfold Background.on_message, bind. rewrite Hget. simpl. rewrite Hrun. reflexivity.
Qed.

(** X18.  A click on the detect button.  Whatever the worker has in its
    cache, the click makes it run a full sweep (the first candidate is
    probed at least); the handler never throws; at its end the worker has
    recorded the outcome of that sweep, the page shows that outcome as
    the status check does, and the detect button is enabled again under
    its label. *)
Theorem detect_click_sweeps_and_shows_the_outcome (E : env) (s : state Popup.world) :
  exists o w1 reply status ev evs,
    Background.sweep E (PopupSpec.worker_state s) = (Ret o, w1) /\
    Background.detectedAirNavX (local w1) = o /\
    trace w1 = trace s ++ ev :: evs /\ sent ev = Background.probe "127.0.0.1" 59720 /\
    Popup.on_detect_click E s
    = (Ret tt,
       State (clock w1) (trace w1) (outbox s ++ [reply; status])
         (Popup.World
            (PopupSpec.detect_idle (PopupSpec.shown o (Popup.page (local s))))
            (local w1))).
Proof.
  destruct (forced_detect E (PopupSpec.worker_state s))
    as (o & w1 & ev & evs & Hsweep & Hdet & Hrec & Hcand & Hout & Htr & Hsent).
  set (message := VObj [("action", VStr "detect"); ("forceRefresh", VBool true)]).
  destruct (handleDetect_replies_once E message (PopupSpec.worker_state s))
    as (reply & w2 & b & Hrun & Hout2 & _).
  assert (Hw2 : clock w2 = clock w1 /\ trace w2 = trace w1 /\ local w2 = local w1).
  { revert Hrun. unfold Background.handleDetect, try_catch, bind.
    change (or_else (opt_get message "forceRefresh") (VBool false)) with (VBool true).
    rewrite Hdet. destruct o; intros [= <-]; auto. }
  destruct Hw2 as (Hclk & Htrace & Hloc).
  set (busy := Popup.assign (Popup.DetectBtnInnerHTML (Popup.loading "Detecting..."))
                 (Popup.assign (Popup.DetectBtnDisabled true) (Popup.page (local s)))).
  set (s0 := State (clock s) (trace s) (outbox s) (Popup.World busy (Popup.worker (local s)))).
  set (s1 := State (clock w1) (trace w1) (outbox s ++ [reply]) (Popup.World busy (local w1))).
  assert (Hsend : Popup.sendMessage E message s0 = (Ret reply, s1)).
  { rewrite (popup_sendMessage_eq E message reply s0 true w2).
    - simpl. rewrite Hclk, Htrace, Hloc. reflexivity.
    - change (PopupSpec.worker_state s0) with (PopupSpec.worker_state s).
      rewrite (on_message_detect E message _ eq_refl), Hrun. reflexivity.
    - exact Hout2. }
  destruct (checkStatus_shows E s1) as [status Hstatus].
  { simpl. rewrite Hrec. exact Hcand. }
  exists o, w1, reply, status, ev, evs.
  split; [exact Hsweep|]. split; [exact Hrec|]. split; [exact Htr|]. split; [exact Hsent|].
  change (Popup.on_detect_click E s)
    with (Popup.finally
            (try_catch (Popup.sendMessage E message ;;; Popup.checkStatus E)
               (fun _ => ret tt))
            (Popup.render (Popup.DetectBtnDisabled false) ;;;
             Popup.render (Popup.DetectBtnInnerHTML "🔍 Detect AirNavX"))
            s0).
  unfold Popup.finally, try_catch. unfold bind at 1. rewrite Hsend, Hstatus.
  unfold bind. rewrite !render_eq. simpl.
  rewrite Hrec, <- app_assoc. simpl.
  destruct o; reflexivity.
Qed.

(** X19.  A click on the test button.  The worker is asked to search for
    [test] on page 1 and answers once; the handler never throws; at its
    end the results block is displayed, the output text is the success
    text (the number of results, 0 when the payload has no result list,
    the host and the port of the reply) when the reply says success and
    the failure text with the error of the reply otherwise, and the test
    button is enabled again under its label, whether the test succeeded
    or not.  When the detection of the worker gives an endpoint, the test
    is one search request to it. *)
Theorem test_click_shows_the_reply (E : env) (s : state Popup.world) :
  exists reply w1,
    Background.handleSearch E
      (VObj [("action", VStr "search"); ("query", VStr "test"); ("page", VNum 1)])
      (PopupSpec.worker_state s)
    = (Ret tt, w1) /\
    outbox w1 = [reply] /\
    Popup.on_test_click E s
    = (Ret tt,
       State (clock w1) (trace w1) (outbox s ++ [reply])
         (Popup.World (PopupSpec.tested reply (Popup.page (local s))) (local w1))) /\
    Popup.testBtn_disabled (PopupSpec.tested reply (Popup.page (local s))) = false /\
    Popup.testOutput_textContent (PopupSpec.tested reply (Popup.page (local s)))
    = PopupSpec.test_output reply /\
    (forall ep w0,
        Background.detectAirNavX E (VBool false) (PopupSpec.worker_state s)
        = (Ret (Some ep), w0) ->
        exists ev,
          trace w1 = trace w0 ++ [ev] /\
          sent ev
          = SearchSpec.request_of
              (Url.origin (VStr (Background.host ep)) (VNum (Background.port ep)))
              (VStr "test") (VNum 1)).
Proof.
  set (message := VObj [("action", VStr "search"); ("query", VStr "test"); ("page", VNum 1)]).
  destruct (handleSearch_replies_once E message (PopupSpec.worker_state s))
    as (reply & w1 & b & Hrun & Hout & Hs).
  exists reply, w1. split; [exact Hrun|]. split; [exact Hout|].
  set (busy := Popup.assign (Popup.TestBtnInnerHTML (Popup.loading "Testing..."))
                 (Popup.assign (Popup.TestBtnDisabled true) (Popup.page (local s)))).
  set (s0 := State (clock s) (trace s) (outbox s) (Popup.World busy (Popup.worker (local s)))).
  set (s1 := State (clock w1) (trace w1) (outbox s ++ [reply]) (Popup.World busy (local w1))).
  assert (Hsend : Popup.sendMessage E message s0 = (Ret reply, s1)).
  { rewrite (popup_sendMessage_eq E message reply s0 true w1).
    - reflexivity.
    - change (PopupSpec.worker_state s0) with (PopupSpec.worker_state s).
      rewrite (on_message_search E message _ eq_refl), Hrun. reflexivity.
    - exact Hout. }
  split; [| split; [reflexivity | split; [reflexivity|]]].
  - change (Popup.on_test_click E s)
      with (Popup.finally
              (try_catch
                 (searchResult <- Popup.sendMessage E message ;;
                  Popup.render (Popup.TestResultsDisplay "block") ;;;
                  success <- lift (read searchResult "success") ;;
                  if truthy success then
                    data <- lift (read searchResult "data") ;;
                    host <- lift (read searchResult "host") ;;
                    port <- lift (read searchResult "port") ;;
                    Popup.render
                      (Popup.TestOutputText
                         (Popup.success_text
                            (or_else (Popup.length_of (opt_get data "results")) (VNum 0))
                            host port))
                  else
                    error <- lift (read searchResult "error") ;;
                    Popup.render
                      (Popup.TestOutputText
                         ("❌ Test failed:" +:+ Content.newline +:+ to_string error)))
                 (fun error =>
                    Popup.render
                      (Popup.TestOutputText
                         ("❌ Test error:" +:+ Content.newline +:+ err_message error))))
              (Popup.render (Popup.TestBtnDisabled false) ;;;
               Popup.render (Popup.TestBtnInnerHTML "🧪 Test Connection"))
              s0).
    unfold Popup.finally, try_catch. unfold bind at 1. rewrite Hsend.
    destruct reply as [| | | | | |fields]; try discriminate. simpl in Hs.
    unfold PopupSpec.tested, PopupSpec.test_output. simpl opt_get. rewrite Hs.
    unfold bind, Popup.render, get_local, set_local. simpl. rewrite Hs.
    destruct b; reflexivity.
  - intros ep w0 Hdet.
    destruct (handleSearch_detected E message (PopupSpec.worker_state s) w0 ep eq_refl Hdet)
      as (ev & w1' & reply' & Hrun' & Htr & _ & _ & Hsent).
    rewrite Hrun in Hrun'. injection Hrun' as <-. exists ev. split; [exact Htr | exact Hsent].
Qed.

(** A popup opened on a worker that has recorded 127.0.0.1:51798, and a
    test against a service that answers with an empty result list. *)
Example popup_test_scenario :
  Popup.testOutput_textContent
    (Popup.page
       (local (snd (Popup.on_test_click Scenario.on_51798
                      (PopupSpec.opened 5000 (local Scenario.worker_cached))))))
  = "✅ Connection successful!" +:+ Content.newline +:+ Content.newline
    +:+ "Search test returned 0 results." +:+ Content.newline +:+ Content.newline
    +:+ "Host: 127.0.0.1" +:+ Content.newline +:+ "Port: 51798".
Proof. vm_compute. reflexivity. Qed.

(** ** The texts callers put into URLs *)

Lemma list_ascii_app (a b : string) :
  String.list_ascii_of_string (a +:+ b)
  = String.list_ascii_of_string a ++ String.list_ascii_of_string b.
Proof.
  induction a as [|x a IH]; [reflexivity|].
  change (x :: String.list_ascii_of_string (a +:+ b)
          = x :: (String.list_ascii_of_string a ++ String.list_ascii_of_string b)).
  rewrite IH. reflexivity.
Qed.

Lemma separators_app (a b : string) :
  UrlSpec.separators (a +:+ b) = UrlSpec.separators a ++ UrlSpec.separators b.
Proof. unfold UrlSpec.separators. rewrite list_ascii_app. apply List.filter_app. Qed.

Lemma separators_percent (c : Ascii.ascii) : UrlSpec.separators (Url.percent c) = [].
Proof. destruct c as [[] [] [] [] [] [] [] []]; reflexivity. Qed.

Lemma separators_unreserved (c : Ascii.ascii) :
  Url.is_alnum c || Url.one_of "-_.!~*'()" c = true ->
  UrlSpec.separators (String c EmptyString) = [].
Proof. destruct c as [[] [] [] [] [] [] [] []]; intros H; try reflexivity; discriminate H. Qed.

Lemma separators_form_kept (c : Ascii.ascii) :
  Url.is_alnum c || Url.one_of "*-._" c = true ->
  UrlSpec.separators (String c EmptyString) = [].
Proof. destruct c as [[] [] [] [] [] [] [] []]; intros H; try reflexivity; discriminate H. Qed.

(** An encoded component holds no separator. *)
Lemma separators_encodeURIComponent (s : string) :
  UrlSpec.separators (Url.encodeURIComponent s) = [].
Proof.
  induction s as [|c s IH]; [reflexivity|].
  change (Url.encodeURIComponent (String c s))
    with ((if Url.is_alnum c || Url.one_of "-_.!~*'()" c then String c EmptyString
           else Url.percent c) +:+ Url.encodeURIComponent s).
  rewrite separators_app, IH, app_nil_r.
  destruct (Url.is_alnum c || Url.one_of "-_.!~*'()" c) eqn:Hc.
  - apply separators_unreserved. exact Hc.
  - apply separators_percent.
Qed.

Lemma separators_form_encode (s : string) : UrlSpec.separators (Url.form_encode s) = [].
Proof.
  induction s as [|c s IH]; [reflexivity|].
  change (Url.form_encode (String c s))
    with ((if Url.is_alnum c || Url.one_of "*-._" c then String c EmptyString
           else if Ascii.eqb c " "%char then "+" else Url.percent c)
          +:+ Url.form_encode s).
  rewrite separators_app, IH, app_nil_r.
  destruct (Url.is_alnum c || Url.one_of "*-._" c) eqn:Hc.
  - apply separators_form_kept. exact Hc.
  - destruct (Ascii.eqb c " "%char); [reflexivity | apply separators_percent].
Qed.

Lemma no_separator_inside (s : string) (c : Ascii.ascii) :
  UrlSpec.separators s = [] -> UrlSpec.is_separator c = true ->
  ~ In c (String.list_ascii_of_string s).
Proof.
  intros Hs Hc Hin.
  assert (H : In c (UrlSpec.separators s)) by (apply List.filter_In; split; assumption).
  rewrite Hs in H. exact H.
Qed.

Lemma append_inj_l (a b c : string) : a +:+ b = a +:+ c -> b = c.
Proof.
  induction a as [|x a IH]; [trivial|].
  change (String x (a +:+ b) = String x (a +:+ c) -> b = c). intros [= H]. exact (IH H).
Qed.

(** Two texts cut at a character that neither holds before the cut. *)
Lemma split_at (sep : Ascii.ascii) (a a' r r' : string) :
  ~ In sep (String.list_ascii_of_string a) ->
  ~ In sep (String.list_ascii_of_string a') ->
  a +:+ String sep r = a' +:+ String sep r' -> a = a' /\ r = r'.
Proof.
  revert a'. induction a as [|x a IH]; intros [|x' a'] Ha Ha'.
  - intros [= ->]. auto.
  - change (String sep r = String x' (a' +:+ String sep r') -> "" = String x' a' /\ r = r').
    intros [= -> _]. exfalso. apply Ha'. left. reflexivity.
  - change (String x (a +:+ String sep r) = String sep r' -> String x a = "" /\ r = r').
    intros [= -> _]. exfalso. apply Ha. left. reflexivity.
  - change (String x (a +:+ String sep r) = String x' (a' +:+ String sep r')
            -> String x a = String x' a' /\ r = r').
    intros [= -> H]. destruct (IH a') as [-> ->]; auto.
    + intros Hin. apply Ha. right. exact Hin.
    + intros Hin. apply Ha'. right. exact Hin.
Qed.

Lemma hex_digit_inj (n m : N) :
  (n < 16)%N -> (m < 16)%N -> Url.hex_digit n = Url.hex_digit m -> n = m.
Proof.
  intros Hn Hm H. apply (f_equal Ascii.N_of_ascii) in H. unfold Url.hex_digit in H.
  rewrite !Ascii.N_ascii_embedding in H
    by (repeat match goal with |- context [(?a <? ?b)%N] => destruct (N.ltb_spec a b) end; lia).
  destruct (N.ltb_spec n 10), (N.ltb_spec m 10); lia.
Qed.

Lemma percent_inj (c c' : Ascii.ascii) : Url.percent c = Url.percent c' -> c = c'.
Proof.
  unfold Url.percent. intros [= Hh Hl].
  pose proof (Ascii.N_ascii_bounded c) as Hc. pose proof (Ascii.N_ascii_bounded c') as Hc'.
  apply hex_digit_inj in Hh; [| apply N.Div0.div_lt_upper_bound; lia ..].
  apply hex_digit_inj in Hl; [| apply N.mod_lt; lia ..].
  rewrite <- (Ascii.ascii_N_embedding c), <- (Ascii.ascii_N_embedding c'). f_equal.
  rewrite (N.div_mod (Ascii.N_of_ascii c) 16), (N.div_mod (Ascii.N_of_ascii c') 16) by lia.
  rewrite Hh, Hl. reflexivity.
Qed.

Lemma unreserved_not_percent (c : Ascii.ascii) :
  Url.is_alnum c || Url.one_of "-_.!~*'()" c = true -> c <> "%"%char.
Proof. intros H ->. discriminate H. Qed.

Lemma form_kept_not_mark (c : Ascii.ascii) :
  Url.is_alnum c || Url.one_of "*-._" c = true -> c <> "%"%char /\ c <> "+"%char.
Proof. intros H. split; intros ->; discriminate H. Qed.

Lemma encodeURIComponent_inj (s s' : string) :
  Url.encodeURIComponent s = Url.encodeURIComponent s' -> s = s'.
Proof.
  revert s'. induction s as [|c s IH]; intros [|c' s'].
  - reflexivity.
  - change (Url.encodeURIComponent (String c' s'))
      with ((if Url.is_alnum c' || Url.one_of "-_.!~*'()" c' then String c' EmptyString
             else Url.percent c') +:+ Url.encodeURIComponent s').
    destruct (Url.is_alnum c' || Url.one_of "-_.!~*'()" c'); discriminate.
  - change (Url.encodeURIComponent (String c s))
      with ((if Url.is_alnum c || Url.one_of "-_.!~*'()" c then String c EmptyString
             else Url.percent c) +:+ Url.encodeURIComponent s).
    destruct (Url.is_alnum c || Url.one_of "-_.!~*'()" c); discriminate.
  - change (Url.encodeURIComponent (String c s))
      with ((if Url.is_alnum c || Url.one_of "-_.!~*'()" c then String c EmptyString
             else Url.percent c) +:+ Url.encodeURIComponent s).
    change (Url.encodeURIComponent (String c' s'))
      with ((if Url.is_alnum c' || Url.one_of "-_.!~*'()" c' then String c' EmptyString
             else Url.percent c') +:+ Url.encodeURIComponent s').
    destruct (Url.is_alnum c || Url.one_of "-_.!~*'()" c) eqn:Hc;
      destruct (Url.is_alnum c' || Url.one_of "-_.!~*'()" c') eqn:Hc'.
    + intros [= -> H]. f_equal. exact (IH _ H).
    + intros [= -> _]. exfalso. exact (unreserved_not_percent _ Hc eq_refl).
    + intros [= <- _]. exfalso. exact (unreserved_not_percent _ Hc' eq_refl).
    + intros H.
      assert (Hp : Url.percent c = Url.percent c')
        by (unfold Url.percent in *; injection H as H1 H2 _; congruence).
      apply percent_inj in Hp as ->. apply append_inj_l in H. f_equal. exact (IH _ H).
Qed.

Lemma form_encode_inj (s s' : string) : Url.form_encode s = Url.form_encode s' -> s = s'.
Proof.
  revert s'. induction s as [|c s IH]; intros [|c' s'].
  - reflexivity.
  - change (Url.form_encode (String c' s'))
      with ((if Url.is_alnum c' || Url.one_of "*-._" c' then String c' EmptyString
             else if Ascii.eqb c' " "%char then "+" else Url.percent c')
            +:+ Url.form_encode s').
    destruct (Url.is_alnum c' || Url.one_of "*-._" c'); [discriminate|].
    destruct (Ascii.eqb c' " "%char); discriminate.
  - change (Url.form_encode (String c s))
      with ((if Url.is_alnum c || Url.one_of "*-._" c then String c EmptyString
             else if Ascii.eqb c " "%char then "+" else Url.percent c)
            +:+ Url.form_encode s).
    destruct (Url.is_alnum c || Url.one_of "*-._" c); [discriminate|].
    destruct (Ascii.eqb c " "%char); discriminate.
  - change (Url.form_encode (String c s))
      with ((if Url.is_alnum c || Url.one_of "*-._" c then String c EmptyString
             else if Ascii.eqb c " "%char then "+" else Url.percent c)
            +:+ Url.form_encode s).
    change (Url.form_encode (String c' s'))
      with ((if Url.is_alnum c' || Url.one_of "*-._" c' then String c' EmptyString
             else if Ascii.eqb c' " "%char then "+" else Url.percent c')
            +:+ Url.form_encode s').
    destruct (Url.is_alnum c || Url.one_of "*-._" c) eqn:Hc;
      destruct (Url.is_alnum c' || Url.one_of "*-._" c') eqn:Hc';
      try (apply form_kept_not_mark in Hc as [Hc1 Hc2]);
      try (apply form_kept_not_mark in Hc' as [Hc1' Hc2']).
    + intros [= -> H]. f_equal. exact (IH _ H).
    + destruct (Ascii.eqb c' " "%char); intros [= -> _]; congruence.
    + destruct (Ascii.eqb c " "%char); intros [= <- _]; congruence.
    + destruct (Ascii.eqb_spec c " "%char) as [-> | Hs];
        destruct (Ascii.eqb_spec c' " "%char) as [-> | Hs'].
      * intros [= H]. f_equal. exact (IH _ H).
      * discriminate.
      * discriminate.
      * intros H.
        assert (Hp : Url.percent c = Url.percent c')
          by (unfold Url.percent in *; injection H as H1 H2 _; congruence).
        apply percent_inj in Hp as ->. apply append_inj_l in H. f_equal. exact (IH _ H).
Qed.

Lemma no_amp_in_component (s : string) :
  ~ In "&"%char (String.list_ascii_of_string (Url.encodeURIComponent s)).
Proof. apply no_separator_inside; [apply separators_encodeURIComponent | reflexivity]. Qed.

Lemma no_amp_in_form (s : string) :
  ~ In "&"%char (String.list_ascii_of_string (Url.form_encode s)).
Proof. apply no_separator_inside; [apply separators_form_encode | reflexivity]. Qed.

Ltac same_separators :=
  repeat rewrite separators_app;
  rewrite ?separators_encodeURIComponent, ?separators_form_encode; reflexivity.

(** An encoded component holds no escape of the dot: the dot is never
    escaped, and an escaped [%] becomes [%25]. *)
Lemma includes_unit (c : Ascii.ascii) (r : string) :
  includes "%2E"
    ((if Url.is_alnum c || Url.one_of "-_.!~*'()" c then String c EmptyString
      else Url.percent c) +:+ r)
  = includes "%2E" r /\
  includes "%2e"
    ((if Url.is_alnum c || Url.one_of "-_.!~*'()" c then String c EmptyString
      else Url.percent c) +:+ r)
  = includes "%2e" r.
Proof. destruct c as [[] [] [] [] [] [] [] []]; vm_compute; split; reflexivity. Qed.

Lemma no_dot_escape (s : string) :
  includes "%2E" (Url.encodeURIComponent s) = false /\
  includes "%2e" (Url.encodeURIComponent s) = false.
Proof.
  induction s as [|c s [IH1 IH2]]; [split; reflexivity|].
  change (Url.encodeURIComponent (String c s))
    with ((if Url.is_alnum c || Url.one_of "-_.!~*'()" c then String c EmptyString
           else Url.percent c) +:+ Url.encodeURIComponent s).
  destruct (includes_unit c (Url.encodeURIComponent s)) as [-> ->]. auto.
Qed.

Lemma encoded_is (s t : string) :
  Url.encodeURIComponent t = t ->
  String.eqb (Url.encodeURIComponent s) t = String.eqb s t.
Proof.
  intros Ht. destruct (String.eqb_spec s t) as [->|Hne].
  - rewrite Ht. apply String.eqb_refl.
  - apply String.eqb_neq. intros H. apply Hne. apply encodeURIComponent_inj. congruence.
Qed.

Lemma encoded_is_not (s t : string) :
  includes "%2E" t || includes "%2e" t = true ->
  String.eqb (Url.encodeURIComponent s) t = false.
Proof.
  intros Ht. apply String.eqb_neq. intros H. destruct (no_dot_escape s) as [H1 H2].
  rewrite H in H1, H2. rewrite H1, H2 in Ht. discriminate.
Qed.

(** The encoded id is a dot segment exactly for the ids [.] and [..]. *)
Lemma dot_segment_ids (s : string) :
  UrlSpec.is_dot_segment (Url.encodeURIComponent s) = String.eqb s "." || String.eqb s "..".
Proof.
  unfold UrlSpec.is_dot_segment. cbn [existsb].
  rewrite (encoded_is s ".") by reflexivity.
  rewrite (encoded_is s "..") by reflexivity.
  rewrite !(encoded_is_not s) by reflexivity.
  rewrite !orb_false_r. reflexivity.
Qed.

(** X20.  The data-module id, a string, in the URLs of the content
    scripts.  Whatever the id is, every attempt of both scripts has the
    separators ([? & = # /] and the space) of its URL where the attempt
    for any other id has them, so that in the attempts that carry the id
    in the query string it cannot add a parameter or a fragment.  In the
    fifth attempt of the current script the id is the last segment of the
    path, and that segment is a dot segment, which the URL parser
    resolves instead of keeping, exactly when the id is [.] or [..].
    Different ids give different URLs in each of the six [GET] attempts of
    the current script and in the second and third attempt of the earlier
    one. *)
Theorem id_cannot_reshape_a_url (host port : val) (id id' : string) :
  map (fun a => UrlSpec.separators (a_url a)) (Content.attempts host port (VStr id))
  = map (fun a => UrlSpec.separators (a_url a)) (Content.attempts host port (VStr id')) /\
  map (fun a => UrlSpec.separators (a_url a)) (ContentOld.attempts host port (VStr id))
  = map (fun a => UrlSpec.separators (a_url a)) (ContentOld.attempts host port (VStr id')) /\
  a_url <$> Content.attempts host port (VStr id) !! 4%nat
  = Some (Url.origin host port +:+ "/airnavx/api/content/" +:+ Url.encodeURIComponent id) /\
  UrlSpec.is_dot_segment (Url.encodeURIComponent id)
  = String.eqb id "." || String.eqb id ".." /\
  (forall (n : nat) a a',
      (n < 6)%nat ->
      Content.attempts host port (VStr id) !! n = Some a ->
      Content.attempts host port (VStr id') !! n = Some a' ->
      a_url a = a_url a' -> id = id') /\
  (forall (n : nat) a a',
      (1 <= n)%nat ->
      ContentOld.attempts host port (VStr id) !! n = Some a ->
      ContentOld.attempts host port (VStr id') !! n = Some a' ->
      a_url a = a_url a' -> id = id').
Proof.
  split; [| split; [| split; [| split; [| split]]]].
  - unfold Content.attempts. cbn [map a_url].
    repeat (apply (f_equal2 cons); [same_separators|]). reflexivity.
  - unfold ContentOld.attempts. cbn [map a_url].
    repeat (apply (f_equal2 cons); [same_separators|]). reflexivity.
  - reflexivity.
  - apply dot_segment_ids.
  - intros n a a' Hn Ha Ha' Hurl. apply encodeURIComponent_inj.
    unfold Content.attempts in Ha, Ha'.
    destruct n as [|[|[|[|[|[|n]]]]]]; [.. | lia];
      injection Ha as <-; injection Ha' as <-; cbn [a_url] in Hurl;
      apply append_inj_l in Hurl; apply append_inj_l in Hurl;
      first [ exact Hurl
            | apply (split_at "&"%char) in Hurl;
              [exact (proj1 Hurl) | apply no_amp_in_component ..] ].
  - intros n a a' Hn Ha Ha' Hurl. apply encodeURIComponent_inj.
    unfold ContentOld.attempts in Ha, Ha'.
    destruct n as [|[|[|n]]]; [lia | | | discriminate Ha];
      injection Ha as <-; injection Ha' as <-; cbn [a_url] in Hurl;
      apply append_inj_l in Hurl; apply append_inj_l in Hurl;
      first [ exact Hurl
            | apply (split_at "&"%char) in Hurl;
              [exact (proj1 Hurl) | apply no_amp_in_component ..] ].
Qed.

(** The ids [..] and [.] in the fifth attempt: the URL text ends with a
    dot segment. *)
Example dot_segment_scenario :
  a_url <$> Content.attempts (VStr "127.0.0.1") (VNum 51798) (VStr "..") !! 4%nat
  = Some "http://127.0.0.1:51798/airnavx/api/content/.." /\
  UrlSpec.is_dot_segment (Url.encodeURIComponent "..") = true /\
  UrlSpec.is_dot_segment (Url.encodeURIComponent ".") = true /\
  UrlSpec.is_dot_segment (Url.encodeURIComponent "%2e%2e") = false /\
  UrlSpec.is_dot_segment (Url.encodeURIComponent "DMC-A320-A-00-00") = false.
Proof. vm_compute. repeat split; reflexivity. Qed.

(** X21.  The search text and the page in the URL of a search.  Whatever
    they are, the URL has the same separators: a search text cannot add a
    parameter or cut the query short.  And two searches with the same URL
    have the same search text and the same page, as texts. *)
Theorem search_text_cannot_reshape_a_url (origin : string) (query page query' page' : val) :
  UrlSpec.separators (req_url (SearchSpec.request_of origin query page))
  = UrlSpec.separators (req_url (SearchSpec.request_of origin query' page')) /\
  (req_url (SearchSpec.request_of origin query page)
   = req_url (SearchSpec.request_of origin query' page') ->
   to_string query = to_string query' /\ to_string page = to_string page').
Proof.
  assert (Hshape : forall q p,
             req_url (SearchSpec.request_of origin q p)
             = (origin +:+ "/airnavx/api/viewer/search") +:+ "?" +:+
               (Url.form_encode "q" +:+ "=" +:+ Url.form_encode (to_string q)) +:+
               String "&"
                 ((Url.form_encode "page" +:+ "=" +:+ Url.form_encode (to_string p)) +:+
                  String "&"
                    ((Url.form_encode "aggregationList" +:+ "=" +:+
                      Url.form_encode "ata2,actype,customization,doctypebc") +:+
                     String "&"
                       (Url.form_encode "queryWithAggregation" +:+ "=" +:+
                        Url.form_encode "false"))))
    by reflexivity.
  rewrite !Hshape. split.
  - change (String "&"%char ?x) with ("&" +:+ x). same_separators.
  - intros H. apply append_inj_l in H. apply append_inj_l in H.
    rewrite !append_assoc in H. apply append_inj_l in H. apply append_inj_l in H.
    apply (split_at "&"%char) in H; [| apply no_amp_in_form ..].
    destruct H as [Hq H]. apply form_encode_inj in Hq. split; [exact Hq|].
    apply append_inj_l in H. apply append_inj_l in H.
    apply (split_at "&"%char) in H; [| apply no_amp_in_form ..].
    apply form_encode_inj. exact (proj1 H).
Qed.
